(** * Electrolyser maintenance script (run_el_maintenance.py): model and proofs

    A shallow embedding of [src/run_el_maintenance.py].  The script talks to
    an electrolyser over Modbus, to an operator over the console and to the
    wall clock; here every such effect is a step of a small state-and-error
    monad over a [World], and everything the script does to the outside is
    appended to the world's [trace].

    Conventions of the model

    - The Modbus peer is a [Device]: for every start address it fixes the
      answer to the first, second, ... request made to that address
      ([None] is a request that failed, for which pyModbusTCP returns
      [None]).  An answer to a request for [count] registers always holds
      [count] 16-bit words.  A write never fails in the script (the return
      value of [write_single_register] is ignored), so it is only recorded.
    - The console input is the finite list of lines still to be typed;
      [input()] at the end of it raises [EOFError].  Lines are ASCII text.
    - The clock counts milliseconds.  [time.sleep s] advances it by
      [1000 * s]; every recorded step further advances it by the latency
      the device fixes for it (a natural number, possibly zero).
    - Exceptions are values of [Exn]; the text of a message is kept as the
      data it is formatted from.  A [raise] statement is recorded in the
      trace as [EvRaise], so that the fate of every exception can be read
      off the trace.
    - The interpreter version check, the Windows colour set-up and the
      command line parsing at the start of [main] are not modelled. *)

From Stdlib Require Import ZArith List String Ascii Bool Lia HexString SpecFloat.
From Equations Require Import Equations.
Import ListNotations.

Open Scope string_scope.
Open Scope list_scope.
Open Scope Z_scope.

Set Implicit Arguments.

(** ** Constants *)

Definition DRAINING_TIMEOUT : Z := 300 * 2.
Definition REFILLING_TIMEOUT : Z := 300.
Definition REFILLING_STATE_CHECK_TIMEOUT : Z := 5.
Definition ELECTROLYTE_PRESENCE_CHECK_TIMEOUT : Z := 10.
Definition REGISTER_WRITE_TIMEOUT : Z := 2.
Definition MAX_WATER_PIPE_CONNECT_ATTEMPTS : Z := 5.
Definition INPUT_CONFIRMATION : string := "YES".

(** ** Enumerations *)

Module ElectrolyteLevel.
Inductive t := EMPTY | LOW | MEDIUM | HIGH | VERY_HIGH.

Definition value (l : t) : Z :=
  match l with
  | EMPTY => 0 | LOW => 1 | MEDIUM => 2 | HIGH => 3 | VERY_HIGH => 4
  end.

Definition name (l : t) : string :=
  match l with
  | EMPTY => "EMPTY" | LOW => "LOW" | MEDIUM => "MEDIUM" | HIGH => "HIGH"
  | VERY_HIGH => "VERY_HIGH"
  end.

(** [ElectrolyteLevel(v)]: the enumeration has no [_missing_] hook, a value
    that is no member raises [ValueError] ([None] here). *)
Definition of_value (v : Z) : option t :=
  match v with
  | 0 => Some EMPTY | 1 => Some LOW | 2 => Some MEDIUM | 3 => Some HIGH
  | 4 => Some VERY_HIGH | _ => None
  end.

Definition eqb (a b : t) : bool := value a =? value b.
End ElectrolyteLevel.

Module Holdings.
Definition MAINTENANCE : Z := 1013.
Definition FLUSHING : Z := 1015.
Definition REFILLING_MINWATERPPESSURE_BAR : Z := 4400.
Definition REFILLING_MAXWATERPPESSURE_BAR : Z := 4402.
Definition REFILLING_MIXINGTIME_MS : Z := 4418.
End Holdings.

Module Inputs.
Definition DEVICE_MODEL : Z := 0.
Definition WARNINGS : Z := 768.
Definition ERRORS : Z := 832.
Definition STATE : Z := 1200.
Definition REFILLING_STATE : Z := 1201.
Definition LSH102B_IN : Z := 7000.
Definition LSHH102A_IN : Z := 7001.
Definition LSL102D_IN : Z := 7002.
Definition LSM102C_IN : Z := 7003.
Definition PT105_IN_BAR : Z := 7516.
End Inputs.

Module DeviceModel.
Inductive t := UNKNOWN | EL21 | EL40 | ES40 | ES41.

(** [DeviceModel(value)], with [_missing_] giving [UNKNOWN]. *)
Definition of_value (v : string) : t :=
  if String.eqb v "UNKNOWN" then UNKNOWN
  else if String.eqb v "EL21" then EL21
  else if String.eqb v "EL40" then EL40
  else if String.eqb v "ES40" then ES40
  else if String.eqb v "ES41" then ES41
  else UNKNOWN.
End DeviceModel.

Module State.
Inductive t :=
| UNKNOWN | HALTED | MAINTENANCE_MODE | IDLE | STEADY | STAND_BY | CURVE
| BLOWDOWN | RECOMBINER.

Definition value (s : t) : Z :=
  match s with
  | UNKNOWN => -1 | HALTED => 0 | MAINTENANCE_MODE => 1 | IDLE => 2
  | STEADY => 3 | STAND_BY => 4 | CURVE => 5 | BLOWDOWN => 6
  | RECOMBINER => 7
  end.

(** [State(value)], with [_missing_] giving [UNKNOWN]. *)
Definition of_value (v : Z) : t :=
  match v with
  | -1 => UNKNOWN | 0 => HALTED | 1 => MAINTENANCE_MODE | 2 => IDLE
  | 3 => STEADY | 4 => STAND_BY | 5 => CURVE | 6 => BLOWDOWN
  | 7 => RECOMBINER | _ => UNKNOWN
  end.

Definition eqb (a b : t) : bool := value a =? value b.
End State.

Module RefillingState.
Inductive t :=
| UNKNOWN | NONE | HALT | IDLE | FILLING | DRAINING | MAINTENANCE
| KOH_REFILLING | MAINTENANCE_REFILLING | KOH_REFILLING_FINISH
| FINAL_REFILLING | DEMAND_REFILLING | WAIT_FLUSHING | FLUSHING
| SERVICE_REFILLING.

Definition value (s : t) : Z :=
  match s with
  | UNKNOWN => -1 | NONE => 0 | HALT => 1 | IDLE => 2 | FILLING => 3
  | DRAINING => 4 | MAINTENANCE => 5 | KOH_REFILLING => 6
  | MAINTENANCE_REFILLING => 7 | KOH_REFILLING_FINISH => 8
  | FINAL_REFILLING => 9 | DEMAND_REFILLING => 10 | WAIT_FLUSHING => 11
  | FLUSHING => 12 | SERVICE_REFILLING => 13
  end.

(** [RefillingState(value)], with [_missing_] giving [UNKNOWN]. *)
Definition of_value (v : Z) : t :=
  match v with
  | -1 => UNKNOWN | 0 => NONE | 1 => HALT | 2 => IDLE | 3 => FILLING
  | 4 => DRAINING | 5 => MAINTENANCE | 6 => KOH_REFILLING
  | 7 => MAINTENANCE_REFILLING | 8 => KOH_REFILLING_FINISH
  | 9 => FINAL_REFILLING | 10 => DEMAND_REFILLING | 11 => WAIT_FLUSHING
  | 12 => FLUSHING | 13 => SERVICE_REFILLING | _ => UNKNOWN
  end.

Definition eqb (a b : t) : bool := value a =? value b.
End RefillingState.

(** An events enumeration ([ElError], [ElWarning]) is the table of its
    members, value first, in the order of the source; both tables are free
    of aliases. *)
Definition EventTable := list (Z * string).

(** [event_type(value).name], with [_missing_] giving [UNKNOWN]. *)
Definition member_name (event_type : EventTable) (v : Z) : string :=
  match find (fun m => fst m =? v) event_type with
  | Some m => snd m
  | None => "UNKNOWN"
  end.

Definition ElError : EventTable :=
  [ (-1, "UNKNOWN");
    (0x0FFF, "INTERNAL_ERROR"); (0x1F81, "FP_01"); (0x1F82, "FP_02");
    (0x1F83, "FP_03"); (0x1F86, "FP_06"); (0x108A, "FC_10");
    (0x1114, "FD_20"); (0x118A, "FR_10"); (0x1194, "FR_20");
    (0x11B2, "FR_50"); (0x11B3, "FR_51"); (0x11B4, "FR_52");
    (0x11A8, "FR_40"); (0x1201, "FS_01"); (0x120A, "FS_10");
    (0x128A, "FT_10"); (0x228A, "ET_10"); (0x230A, "EU_10");
    (0x1403, "FX_03"); (0x1404, "FX_04"); (0x1407, "FX_07");
    (0x140B, "FX_11"); (0x140C, "FX_12"); (0x141E, "FX_30");
    (0x141F, "FX_31"); (0x1421, "FX_33"); (0x1423, "FX_35");
    (0x1424, "FX_36"); (0x1425, "FX_37"); (0x1426, "FX_38");
    (0x1427, "FX_39"); (0x148A, "FF_10"); (0x1501, "FL_01");
    (0x159E, "FO_30");
    (0x2401, "EX_01"); (0x1402, "FX_02"); (0x1405, "FX_05");
    (0x1408, "FX_08"); (0x1409, "FX_09"); (0x140A, "FX_10");
    (0x1420, "FX_32"); (0x1422, "FX_34"); (0x1428, "FX_40");
    (0x140D, "FX_13"); (0x142A, "FX_42"); (0x170A, "FB_10");
    (0x170B, "FB_11"); (0x1714, "FB_20"); (0x1715, "FB_21");
    (0x178A, "FY_10"); (0x1794, "FY_20"); (0x1795, "FY_21");
    (0x1796, "FY_22"); (0x1797, "FY_23"); (0x1798, "FY_24");
    (0x1799, "FY_25"); (0x179A, "FY_26"); (0x179B, "FY_27");
    (0x179C, "FY_28"); (0x179D, "FY_29"); (0x179E, "FY_30");
    (0x179F, "FY_31"); (0x1721, "FY_33"); (0x17B3, "FY_51");
    (0x17B4, "FY_52"); (0x17B5, "FY_53"); (0x17B6, "FY_54");
    (0x17B7, "FY_55"); (0x17B8, "FY_56") ].

Definition ElWarning : EventTable :=
  [ (-1, "UNKNOWN");
    (0x3F84, "WP_04"); (0x3F85, "WP_05"); (0x318A, "WR_10");
    (0x3194, "WR_20"); (0x3195, "WR_21"); (0x3196, "WR_22");
    (0x31B3, "WR_51"); (0x31B4, "WR_52"); (0x31B5, "WR_53");
    (0x3215, "WS_21"); (0x3216, "WS_22"); (0x321E, "WS_30");
    (0x3294, "WT_20"); (0x330A, "WU_10"); (0x3434, "WX_52");
    (0x3435, "WX_53"); (0x3437, "WX_55"); (0x343B, "WX_59");
    (0x343C, "WX_60"); (0x343D, "WX_61"); (0x343E, "WX_62");
    (0x343F, "WX_63"); (0x3440, "WX_64"); (0x3441, "WX_65");
    (0x3442, "WX_66"); (0x3443, "WX_67"); (0x3445, "WX_69");
    (0x350A, "WL_10"); (0x358A, "WO_10"); (0x3594, "WO_20");
    (0x360A, "WH_10"); (0x360B, "WH_11"); (0x360C, "WH_12");
    (0x368A, "WZ_10");
    (0x3295, "WT_21"); (0x3432, "WX_50"); (0x3433, "WX_51");
    (0x3436, "WX_54"); (0x3438, "WX_56"); (0x3439, "WX_57");
    (0x3197, "WR_23"); (0x31B6, "WR_54"); (0x340E, "WX_14");
    (0x340F, "WX_15"); (0x3446, "WX_70") ].

(** ** Exceptions, console messages and the trace *)

(** What a [MaintenanceModeException] says. *)
Inductive MaintenanceMsg :=
| SwitchGap (detected below : ElectrolyteLevel.t)
| RefillingWarnings (active_warnings : list string)
| GotState (actual expected : State.t)
| WrongRefillingState (expected actual : RefillingState.t)
| ContactSupport
| FailedWaitLevel (expected : ElectrolyteLevel.t) (minutes : Z)
| FailedWaitState (expected : RefillingState.t) (seconds : Z)
| UnexpectedRefillingState (actual : RefillingState.t)
| UnknownDeviceModel (decoded_device_name : string).

(** What [sys.exit] is called with. *)
Inductive ExitMsg :=
| StoppedByUser
| VeryHighSwitchEnabled
| StateNotAllowed (state : State.t).

Inductive Exn :=
| MaintenanceModeException (msg : MaintenanceMsg)
| WaterPipeException (attempts : Z)
| HighElectrolyteLevelException (expected actual : ElectrolyteLevel.t)
| TypeError
| IndexError
| ValueError
| UnicodeDecodeError
| EOFError
| SystemExit (msg : ExitMsg).

(** [except Exception] catches everything but [SystemExit], which derives
    from [BaseException] only. *)
Definition is_Exception (e : Exn) : bool :=
  match e with SystemExit _ => false | _ => true end.

Definition is_WaterPipeException (e : Exn) : bool :=
  match e with WaterPipeException _ => true | _ => false end.

Definition is_HighElectrolyteLevelException (e : Exn) : bool :=
  match e with HighElectrolyteLevelException _ _ => true | _ => false end.

(** The prompts of [_wait_confirmation] and of the opening [input]. *)
Inductive Prompt :=
| PromptStart
| PromptDrainToHigh
| PromptDraining
| PromptConnectWaterPipe
| PromptWaterRefill
| PromptPrepareElectrolyte (el_21 : bool)
| PromptWaterPipeProblems
| PromptMaintenanceOff.

(** The lines the script prints, one constructor for each [print] of the
    source with the values its text is formatted from. *)
Inductive Msg :=
| PPrompt (prompt : Prompt)
| PWrongConfirmation
| PCheckingWarnings
| POtherWarnings (active_warnings : list string)
| PNoWarnings
| PStateDetected (state : State.t)
| PLevelDetected (level : ElectrolyteLevel.t)
| PTurningFlushingOn
| PTurnedFlushingOn
| PTurningMaintenanceOn
| PTurnedMaintenanceOn
| PMaintenanceAlreadyOn
| PTurningMaintenanceOff
| PTurnedMaintenanceOff
| PCheckingRefillingState
| PDetectedExpected (state : RefillingState.t)
| PDetectedVeryHigh
| PBannerDraining
| PBannerFlushing
| PBannerRefilling
| PRaiseBag (level : ElectrolyteLevel.t)
| POverfillWarning
| PWaitingForLevel (level : ElectrolyteLevel.t)
| PHigherThanLow
| PWaitingMixed
| PCheckingPressure
| PPressureOk
| PPressureNotInBounds (actual min_pressure max_pressure : spec_float)
| PRecheckingElectrolyte
| PElectrolyteOk
| PElectrolytePresence
| PRunning21
| PRunning4x
| PFirstRefilling21
| PFirstRefilling4x
| PFailedToFillWater
| PCompletedOk
| PCheckingConditions
| PConditionsOk
| PExceptionOccurred (e : Exn)
| PModbusError
| PModbusException
| PDiagnostics (active_errors active_warnings : string).

Inductive Event :=
| EvReadInput (address : Z) (count : nat) (response : option (list Z))
| EvReadHolding (address : Z) (count : nat) (response : option (list Z))
| EvWrite (address value : Z)
| EvSleep (seconds : Z)
| EvPrint (m : Msg)
| EvInput (line : option string)
| EvRaise (e : Exn).

(** ** The device and the world *)

Record Device := {
  input_registers : Z -> nat -> option (nat -> Z);
  holding_registers : Z -> nat -> option (nat -> Z);
  latency : nat -> nat
}.

Record World := {
  stdin : list string;
  clock : Z;
  trace : list Event
}.

Inductive Result (A : Type) :=
| Ok (a : A)
| Raise (e : Exn).
Arguments Ok {A} a.
Arguments Raise {A} e.

Definition M (A : Type) := World -> Result A * World.

Definition ret {A} (a : A) : M A := fun w => (Ok a, w).

Definition bind {A B} (m : M A) (f : A -> M B) : M B :=
  fun w => match m w with
           | (Ok a, w1) => f a w1
           | (Raise e, w1) => (Raise e, w1)
           end.

Declare Scope monad_scope.
Delimit Scope monad_scope with monad.
Notation "x <- m ;; k" := (bind m (fun x => k))
  (at level 61, m at next level, right associativity) : monad_scope.
Notation "m ;; k" := (bind m (fun _ => k))
  (at level 61, right associativity) : monad_scope.
Open Scope monad_scope.

Definition when (c : bool) (m : M unit) : M unit := if c then m else ret tt.

(** [try: body / except <catches> as e: handler e]. *)
Definition try_except {A} (body : M A) (catches : Exn -> bool)
    (handler : Exn -> M A) : M A :=
  fun w => match body w with
           | (Ok a, w1) => (Ok a, w1)
           | (Raise e, w1) => if catches e then handler e w1 else (Raise e, w1)
           end.

(** [try: body / except <catches>: handler / else: orelse]; the [else]
    suite is outside the protection of the handler. *)
Definition try_except_else {A B} (body : M A) (catches : Exn -> bool)
    (handler : Exn -> M B) (orelse : A -> M B) : M B :=
  fun w => match body w with
           | (Ok a, w1) => orelse a w1
           | (Raise e, w1) => if catches e then handler e w1 else (Raise e, w1)
           end.

(** [try: body / finally: finalbody]: the final suite always runs; an
    exception it raises replaces the pending one. *)
Definition try_finally {A} (body : M A) (finalbody : M unit) : M A :=
  fun w => match body w with
           | (r, w1) => match finalbody w1 with
                        | (Ok _, w2) => (r, w2)
                        | (Raise e, w2) => (Raise e, w2)
                        end
           end.

(** How many requests the trace holds for the input (holding) registers
    that start at [address]. *)
Definition is_read_input (address : Z) (e : Event) : bool :=
  match e with EvReadInput a _ _ => a =? address | _ => false end.

Definition is_read_holding (address : Z) (e : Event) : bool :=
  match e with EvReadHolding a _ _ => a =? address | _ => false end.

Definition requests (p : Event -> bool) (tr : list Event) : nat :=
  List.length (filter p tr).

(** The words of an answer: [count] registers of 16 bits. *)
Definition words (count : nat) (regs : nat -> Z) : list Z :=
  map (fun i => regs i mod 65536) (seq 0 count).

(** ** Primitive steps *)

Section Script.

(** The electrolyser the script is connected to. *)
Variable dev : Device.

(** Recording a step; the step takes the time the device fixes for it. *)
Definition emit (e : Event) (w : World) : World :=
  {| stdin := stdin w;
     clock := clock w + Z.of_nat (latency dev (List.length (trace w)));
     trace := trace w ++ [e] |}.

(** The answer the device gives to the next request for [count] input
    registers from [address]. *)
Definition next_input (w : World) (address : Z) (count : nat)
    : option (list Z) :=
  option_map (words count)
    (input_registers dev address (requests (is_read_input address) (trace w))).

Definition next_holding (w : World) (address : Z) (count : nat)
    : option (list Z) :=
  option_map (words count)
    (holding_registers dev address
       (requests (is_read_holding address) (trace w))).

(** [raise e]. *)
Definition throw {A} (e : Exn) : M A :=
  fun w => (Raise e, emit (EvRaise e) w).

(** The bare [raise] of a handler: the exception caught goes on. *)
Definition reraise {A} (e : Exn) : M A := fun w => (Raise e, w).

(** [sys.exit(msg)]. *)
Definition sys_exit {A} (msg : ExitMsg) : M A := throw (SystemExit msg).

Definition print (m : Msg) : M unit := fun w => (Ok tt, emit (EvPrint m) w).

(** [input()]. *)
Definition input : M string :=
  fun w => match stdin w with
           | [] => throw EOFError (emit (EvInput None) w)
           | line :: rest =>
               let w1 := emit (EvInput (Some line)) w in
               (Ok line,
                {| stdin := rest; clock := clock w1; trace := trace w1 |})
           end.

(** [time.time()], in milliseconds. *)
Definition time_time : M Z := fun w => (Ok (clock w), w).

(** [time.sleep(seconds)]. *)
Definition time_sleep (seconds : Z) : M unit :=
  fun w => let w1 := emit (EvSleep seconds) w in
           (Ok tt,
            {| stdin := stdin w1;
               clock := clock w1 + 1000 * seconds;
               trace := trace w1 |}).

Definition _read_input_registers (address : Z) (count : nat)
    : M (option (list Z)) :=
  fun w => let response := next_input w address count in
           (Ok response, emit (EvReadInput address count response) w).

Definition _read_holding_registers (address : Z) (count : nat)
    : M (option (list Z)) :=
  fun w => let response := next_holding w address count in
           (Ok response, emit (EvReadHolding address count response) w).

Definition _write_single_register (address value : Z) : M unit :=
  (fun w => (Ok tt, emit (EvWrite address value) w)) ;;
  time_sleep REGISTER_WRITE_TIMEOUT.

(** [response[i]] on what a read returned: [None] is not subscriptable. *)
Definition subscript (response : option (list Z)) (i : nat) : M Z :=
  match response with
  | None => throw TypeError
  | Some l => match nth_error l i with
              | Some x => ret x
              | None => throw IndexError
              end
  end.

(** [utils.word_list_to_long(val_list)] of pyModbusTCP with its defaults:
    pairs of words, the high word first; [len(None)] is a [TypeError]. *)
Fixpoint long_list (val_list : list Z) : list Z :=
  match val_list with
  | hi :: lo :: rest => (Z.shiftl hi 16 + lo) :: long_list rest
  | _ => []
  end.

Definition word_list_to_long (val_list : option (list Z))
    : M (option (list Z)) :=
  match val_list with
  | None => throw TypeError
  | Some l => ret (Some (long_list l))
  end.

(** [utils.decode_ieee(val_int)] of pyModbusTCP: the 32-bit pattern read as
    an IEEE 754 single. *)
Definition decode_ieee (val_int : Z) : spec_float :=
  let sign := Z.testbit val_int 31 in
  let exponent := Z.land (Z.shiftr val_int 23) 0xFF in
  let fraction := Z.land val_int 0x7FFFFF in
  if exponent =? 0xFF then
    if fraction =? 0 then S754_infinity sign else S754_nan
  else if exponent =? 0 then
    match fraction with
    | Zpos m => S754_finite sign m (-149)
    | _ => S754_zero sign
    end
  else
    match fraction + 0x800000 with
    | Zpos m => S754_finite sign m (exponent - 150)
    | _ => S754_nan
    end.

(** [bool(x)] of an integer. *)
Definition truth (x : Z) : bool := negb (x =? 0).

(** [str.upper()] on ASCII text. *)
Definition upper_ascii (c : ascii) : ascii :=
  let n := nat_of_ascii c in
  if ((97 <=? n) && (n <=? 122))%nat then ascii_of_nat (n - 32) else c.

Fixpoint upper (s : string) : string :=
  match s with
  | EmptyString => EmptyString
  | String c rest => String (upper_ascii c) (upper rest)
  end.

(** ** Events *)

(** [hex(value)]. *)
Definition hex (value : Z) : string := HexString.of_Z value.

Definition _format_event (name : string) (value : Z) : string :=
  name ++ " (" ++ hex value ++ ")".

(** [_format_warning(warning)] for the member of [ElWarning] of the given
    value. *)
Definition _format_warning (value : Z) : string :=
  _format_event (member_name ElWarning value) value.

(** [raw[lo:hi]]. *)
Definition slice {A} (l : list A) (lo hi : nat) : list A :=
  firstn (hi - lo) (skipn lo l).

Definition _decode_events (register : Z) (event_type : EventTable)
    : M (list string) :=
  raw_events_data <- _read_input_registers register 33 ;;
  events_count <- subscript raw_events_data 0 ;;
  if truth events_count then
    ret (map (fun event => _format_event (member_name event_type event) event)
             (slice (match raw_events_data with Some l => l | None => [] end)
                    1 (Z.to_nat (events_count + 1))))
  else ret [].

Definition _decode_warnings : M (list string) :=
  _decode_events Inputs.WARNINGS ElWarning.

Definition _decode_errors : M (list string) :=
  _decode_events Inputs.ERRORS ElError.

Definition WR_10 : Z := 0x318A.
Definition WR_20 : Z := 0x3194.
Definition WR_21 : Z := 0x3195.
Definition WR_22 : Z := 0x3196.

Definition string_in (s : string) (l : list string) : bool :=
  existsb (String.eqb s) l.

Definition _check_refilling_warnings : M unit :=
  print PCheckingWarnings ;;
  active_warnings <- _decode_warnings ;;
  match active_warnings with
  | _ :: _ =>
      if existsb
           (fun warning =>
              string_in warning
                [_format_warning WR_10; _format_warning WR_20;
                 _format_warning WR_21; _format_warning WR_22])
           active_warnings
      then throw (MaintenanceModeException (RefillingWarnings active_warnings))
      else print (POtherWarnings active_warnings)
  | [] => print PNoWarnings
  end.

(** ** Reading the device state *)

Definition _actual_state : M State.t :=
  response <- _read_input_registers Inputs.STATE 1 ;;
  raw <- subscript response 0 ;;
  let state := State.of_value raw in
  print (PStateDetected state) ;;
  ret state.

Definition _actual_water_inlet_pressure : M spec_float :=
  response <- _read_input_registers Inputs.PT105_IN_BAR 2 ;;
  longs <- word_list_to_long response ;;
  val_int <- subscript longs 0 ;;
  ret (decode_ieee val_int).

Definition _actual_refilling_state : M RefillingState.t :=
  response <- _read_input_registers Inputs.REFILLING_STATE 1 ;;
  raw <- subscript response 0 ;;
  ret (RefillingState.of_value raw).

Definition _actual_refilling_mixing_time : M Z :=
  response <- _read_holding_registers Holdings.REFILLING_MIXINGTIME_MS 2 ;;
  longs <- word_list_to_long response ;;
  ms <- subscript longs 0 ;;
  ret (ms / 1000).

Definition _actual_refilling_min_water_pressure : M spec_float :=
  response <-
    _read_holding_registers Holdings.REFILLING_MINWATERPPESSURE_BAR 2 ;;
  longs <- word_list_to_long response ;;
  val_int <- subscript longs 0 ;;
  ret (decode_ieee val_int).

Definition _actual_refilling_max_water_pressure : M spec_float :=
  response <-
    _read_holding_registers Holdings.REFILLING_MAXWATERPPESSURE_BAR 2 ;;
  longs <- word_list_to_long response ;;
  val_int <- subscript longs 0 ;;
  ret (decode_ieee val_int).

(** ** The electrolyte level *)

Definition _low_level_switch : M bool :=
  response <- _read_input_registers Inputs.LSL102D_IN 1 ;;
  raw <- subscript response 0 ;;
  ret (truth raw).

Definition _medium_level_switch : M bool :=
  response <- _read_input_registers Inputs.LSM102C_IN 1 ;;
  raw <- subscript response 0 ;;
  ret (truth raw).

Definition _high_level_switch : M bool :=
  response <- _read_input_registers Inputs.LSH102B_IN 1 ;;
  raw <- subscript response 0 ;;
  ret (truth raw).

Definition _very_high_level_switch : M bool :=
  response <- _read_input_registers Inputs.LSHH102A_IN 1 ;;
  raw <- subscript response 0 ;;
  ret (truth raw).

(** [enumerate(l, start=0)]. *)
Definition enumerate {A} (l : list A) : list (nat * A) :=
  combine (seq 0 (List.length l)) l.

Definition _search_top_switch (switches : list bool) (enabled : bool) : Z :=
  match find (fun entry => Bool.eqb (snd entry) enabled)
             (enumerate (rev switches)) with
  | Some (index, _) => Z.of_nat (List.length switches) - Z.of_nat index
  | None => 0
  end.

(** [ElectrolyteLevel(value)]. *)
Definition level_of (value : Z) : M ElectrolyteLevel.t :=
  match ElectrolyteLevel.of_value value with
  | Some level => ret level
  | None => throw ValueError
  end.

Definition _electrolyte_level (logging : bool) : M ElectrolyteLevel.t :=
  low <- _low_level_switch ;;
  medium <- _medium_level_switch ;;
  high <- _high_level_switch ;;
  very_high <- _very_high_level_switch ;;
  let switches := [low; medium; high; very_high] in
  electrolyte_level <- level_of (_search_top_switch switches true) ;;
  let switches_below_max :=
    firstn (Z.to_nat (ElectrolyteLevel.value electrolyte_level)) switches in
  if negb (forallb (fun switch => switch) switches_below_max) then
    top_disabled_level <-
      level_of (_search_top_switch switches_below_max false) ;;
    throw (MaintenanceModeException
             (SwitchGap electrolyte_level top_disabled_level))
  else
    when logging (print (PLevelDetected electrolyte_level)) ;;
    ret electrolyte_level.

(** ** Waiting *)

(** Every step of the script leaves the clock where it is or moves it
    forward; the loops that wait for a deadline terminate for that reason. *)
Definition steady {A} (m : M A) : Prop :=
  forall w, clock w <= clock (snd (m w)).

Lemma steady_emit e w : clock w <= clock (emit e w).
Proof. unfold emit; simpl; lia. Qed.

Lemma steady_ret {A} (a : A) : steady (ret a).
Proof. intro w; simpl; lia. Qed.

Lemma steady_bind {A B} (m : M A) (f : A -> M B) :
  steady m -> (forall a, steady (f a)) -> steady (bind m f).
Proof.
  intros Hm Hf w. unfold bind. specialize (Hm w).
  destruct (m w) as [[a|e] w1]; simpl in *; [|exact Hm].
  specialize (Hf a w1). lia.
Qed.

Lemma steady_throw {A} e : steady (@throw A e).
Proof. intro w; apply steady_emit. Qed.

Lemma steady_print m : steady (print m).
Proof. intro w; apply steady_emit. Qed.

Lemma steady_read_input address count :
  steady (_read_input_registers address count).
Proof. intro w; apply steady_emit. Qed.

Lemma steady_subscript response i : steady (subscript response i).
Proof.
  unfold subscript. destruct response as [l|]; [|apply steady_throw].
  destruct (nth_error l i); [apply steady_ret|apply steady_throw].
Qed.

Lemma steady_level_of v : steady (level_of v).
Proof.
  unfold level_of. destruct (ElectrolyteLevel.of_value v);
    [apply steady_ret|apply steady_throw].
Qed.

Lemma steady_when c m : steady m -> steady (when c m).
Proof. destruct c; simpl; [trivial|intros _; apply steady_ret]. Qed.

Ltac steady_step :=
  first
    [ apply steady_ret | apply steady_throw | apply steady_print
    | apply steady_read_input | apply steady_subscript
    | apply steady_level_of
    | apply steady_when
    | apply steady_bind; [|intro] ].

Lemma steady_electrolyte_level logging : steady (_electrolyte_level logging).
Proof.
  unfold _electrolyte_level, _low_level_switch, _medium_level_switch,
    _high_level_switch, _very_high_level_switch.
  repeat steady_step.
  match goal with |- steady (if ?c then _ else _) => destruct c end;
    repeat steady_step.
Qed.

Lemma steady_actual_refilling_state : steady _actual_refilling_state.
Proof. unfold _actual_refilling_state. repeat steady_step. Qed.

Definition inspect {A} (a : A) : {b : A | a = b} := exist _ a eq_refl.

(** How many sleeps of at least five seconds fit before the deadline. *)
Definition sleeps_left (wait_until : Z) (w : World) : nat :=
  Z.to_nat ((wait_until - clock w) / 5000 + 1).

Lemma sleeps_left_decreases (wait_until before after : Z) :
  before < wait_until -> before + 5000 <= after ->
  (Z.to_nat ((wait_until - after) / 5000 + 1)
   < Z.to_nat ((wait_until - before) / 5000 + 1))%nat.
Proof.
  intros Hlt Hle.
  assert (H1 : (wait_until - after) / 5000
               <= (wait_until - before + (-1) * 5000) / 5000)
    by (apply Z.div_le_mono; lia).
  rewrite Z.div_add in H1 by lia.
  assert (H2 : 0 <= (wait_until - before) / 5000)
    by (apply Z.div_pos; lia).
  lia.
Qed.

(** The [while time.time() < wait_until: ... else: raise ...] loop of
    [_wait_electrolyte_level]. *)
Equations? _wait_electrolyte_level_loop
    (expected_level : ElectrolyteLevel.t) (timeout : Z) (refilling : bool)
    (wait_until : Z) (w : World) : Result unit * World
    by wf (sleeps_left wait_until w) lt :=
_wait_electrolyte_level_loop expected_level timeout refilling wait_until w
  with inspect (clock w <? wait_until) := {
  | exist _ false _ :=
      throw (MaintenanceModeException
               (FailedWaitLevel expected_level (timeout / 60))) w
  | exist _ true Hbefore with inspect (_electrolyte_level true w) := {
    | exist _ (Raise e, w1) _ := (Raise e, w1)
    | exist _ (Ok electrolyte_level, w1) Hlevel :=
        if ElectrolyteLevel.eqb electrolyte_level expected_level then
          (Ok tt, w1)
        else if refilling
                && (ElectrolyteLevel.value electrolyte_level
                    >? ElectrolyteLevel.value expected_level) then
          throw (HighElectrolyteLevelException
                   expected_level electrolyte_level) w1
        else
          _wait_electrolyte_level_loop expected_level timeout refilling
            wait_until
            (snd (time_sleep ELECTROLYTE_PRESENCE_CHECK_TIMEOUT w1)) } }.
Proof.
  pose proof (steady_electrolyte_level true w) as Hw.
  rewrite Hlevel in Hw; simpl in Hw.
  apply Z.ltb_lt in Hbefore.
  unfold sleeps_left, time_sleep, ELECTROLYTE_PRESENCE_CHECK_TIMEOUT in *.
  simpl. apply sleeps_left_decreases; lia.
Qed.

Definition _wait_electrolyte_level (expected_level : ElectrolyteLevel.t)
    (timeout : Z) (refilling : bool) : M unit :=
  now <- time_time ;;
  let wait_until := now + 1000 * timeout in
  _wait_electrolyte_level_loop expected_level timeout refilling wait_until.

(** The loop of [_wait_refilling_state]. *)
Equations? _wait_refilling_state_loop
    (expected_state : RefillingState.t) (timeout : Z)
    (wait_until : Z) (w : World) : Result unit * World
    by wf (sleeps_left wait_until w) lt :=
_wait_refilling_state_loop expected_state timeout wait_until w
  with inspect (clock w <? wait_until) := {
  | exist _ false _ :=
      throw (MaintenanceModeException
               (FailedWaitState expected_state timeout)) w
  | exist _ true Hbefore with inspect (_actual_refilling_state w) := {
    | exist _ (Raise e, w1) _ := (Raise e, w1)
    | exist _ (Ok actual, w1) Hstate :=
        if RefillingState.eqb actual expected_state then (Ok tt, w1)
        else
          _wait_refilling_state_loop expected_state timeout wait_until
            (snd (time_sleep REFILLING_STATE_CHECK_TIMEOUT w1)) } }.
Proof.
  pose proof (steady_actual_refilling_state w) as Hw.
  rewrite Hstate in Hw; simpl in Hw.
  apply Z.ltb_lt in Hbefore.
  unfold sleeps_left, time_sleep, REFILLING_STATE_CHECK_TIMEOUT in *.
  simpl. apply sleeps_left_decreases; lia.
Qed.

Definition _wait_refilling_state (expected_state : RefillingState.t)
    (timeout : Z) : M unit :=
  now <- time_time ;;
  let wait_until := now + 1000 * timeout in
  _wait_refilling_state_loop expected_state timeout wait_until.

(** The [while input().upper() != INPUT_CONFIRMATION] loop of
    [_wait_confirmation]; every turn consumes a line of the input. *)
Equations? _wait_confirmation_loop (w : World) : Result unit * World
    by wf (List.length (stdin w)) lt :=
_wait_confirmation_loop w with inspect (input w) := {
  | exist _ (Raise e, w1) _ := (Raise e, w1)
  | exist _ (Ok line, w1) Hline :=
      if String.eqb (upper line) INPUT_CONFIRMATION then (Ok tt, w1)
      else _wait_confirmation_loop (snd (print PWrongConfirmation w1)) }.
Proof.
  unfold input in Hline. destruct (stdin w) as [|l rest] eqn:Hin.
  - discriminate.
  - inversion Hline; subst; simpl. lia.
Qed.

Definition _wait_confirmation (prompt : Prompt) : M unit :=
  print (PPrompt prompt) ;;
  _wait_confirmation_loop.

(** ** Switching modes and checking states *)

(** [int(b)]. *)
Definition int_of_bool (b : bool) : Z := if b then 1 else 0.

Definition _toggle_maintenance (enable : bool) : M unit :=
  _write_single_register Holdings.MAINTENANCE (int_of_bool enable).

Definition _toggle_flushing (enable : bool) : M unit :=
  _write_single_register Holdings.FLUSHING (int_of_bool (negb enable)).

Definition _flushing_on : M unit :=
  print PTurningFlushingOn ;;
  _toggle_flushing true ;;
  print PTurnedFlushingOn.

Definition _maintenance_on (initial_state : State.t) : M unit :=
  if State.eqb initial_state State.IDLE then
    print PTurningMaintenanceOn ;;
    _toggle_maintenance true ;;
    state <- _actual_state ;;
    if negb (State.eqb state State.MAINTENANCE_MODE) then
      throw (MaintenanceModeException
               (GotState state State.MAINTENANCE_MODE))
    else print PTurnedMaintenanceOn
  else print PMaintenanceAlreadyOn.

Definition _maintenance_off : M unit :=
  print PTurningMaintenanceOff ;;
  _toggle_maintenance false ;;
  state <- _actual_state ;;
  if negb (State.eqb state State.IDLE) then
    throw (MaintenanceModeException (GotState state State.IDLE))
  else print PTurnedMaintenanceOff.

Definition _check_refilling_state
    (expected_refilling_state : RefillingState.t) : M unit :=
  print PCheckingRefillingState ;;
  actual_refilling_state <- _actual_refilling_state ;;
  if negb (RefillingState.eqb actual_refilling_state
             expected_refilling_state) then
    throw (MaintenanceModeException
             (WrongRefillingState expected_refilling_state
                actual_refilling_state))
  else print (PDetectedExpected actual_refilling_state).

(** ** The phases *)

Definition _handle_very_high_electrolyte_level (el_21 : bool) : M unit :=
  level <- _electrolyte_level false ;;
  if ElectrolyteLevel.eqb level ElectrolyteLevel.VERY_HIGH then
    print PDetectedVeryHigh ;;
    if el_21 then
      _wait_confirmation PromptDrainToHigh ;;
      _wait_electrolyte_level ElectrolyteLevel.HIGH REFILLING_TIMEOUT false
    else throw (MaintenanceModeException ContactSupport)
  else ret tt.

Definition _perform_draining : M unit :=
  _check_refilling_state RefillingState.DRAINING ;;
  print PBannerDraining ;;
  _wait_confirmation PromptDraining ;;
  _wait_electrolyte_level ElectrolyteLevel.EMPTY DRAINING_TIMEOUT false.

(** The [while water_pipe_connect_attempts < attempts: ... else: raise ...]
    loop of [_check_water_pipe_connection]; [attempts_left] is
    [attempts - water_pipe_connect_attempts], and [pressure_ok] and
    [electrolyte_ok] are the two flags, which the loop never clears. *)
Fixpoint _check_water_pipe_connection_loop (attempts_left : nat)
    (expect_no_electrolyte : bool) (attempts : Z)
    (min_pressure max_pressure : spec_float)
    (pressure_ok electrolyte_ok : bool) : M unit :=
  match attempts_left with
  | O => throw (WaterPipeException attempts)
  | S attempts_left' =>
      print PCheckingPressure ;;
      actual_water_inlet_pressure <- _actual_water_inlet_pressure ;;
      pressure_ok <-
        (if SFltb min_pressure actual_water_inlet_pressure
            && SFltb actual_water_inlet_pressure max_pressure then
           print PPressureOk ;; ret true
         else
           print (PPressureNotInBounds actual_water_inlet_pressure
                    min_pressure max_pressure) ;;
           ret pressure_ok) ;;
      electrolyte_ok <-
        (if expect_no_electrolyte then
           print PRecheckingElectrolyte ;;
           level <- _electrolyte_level true ;;
           if ElectrolyteLevel.eqb level ElectrolyteLevel.EMPTY then
             print PElectrolyteOk ;; ret true
           else
             print PElectrolytePresence ;;
             _perform_draining ;;
             _check_refilling_state RefillingState.WAIT_FLUSHING ;;
             ret electrolyte_ok
         else ret true) ;;
      if pressure_ok && electrolyte_ok then ret tt
      else
        _wait_confirmation PromptWaterPipeProblems ;;
        _check_water_pipe_connection_loop attempts_left'
          expect_no_electrolyte attempts min_pressure max_pressure
          pressure_ok electrolyte_ok
  end.

Definition _check_water_pipe_connection (expect_no_electrolyte : bool)
    (attempts : Z) : M unit :=
  min_pressure <- _actual_refilling_min_water_pressure ;;
  max_pressure <- _actual_refilling_max_water_pressure ;;
  _check_water_pipe_connection_loop (Z.to_nat attempts)
    expect_no_electrolyte attempts min_pressure max_pressure false false.

Definition _perform_flushing : M unit :=
  print PBannerFlushing ;;
  _check_refilling_state RefillingState.WAIT_FLUSHING ;;
  _wait_confirmation PromptConnectWaterPipe ;;
  _check_water_pipe_connection true MAX_WATER_PIPE_CONNECT_ATTEMPTS ;;
  _wait_confirmation PromptWaterRefill ;;
  _flushing_on ;;
  _wait_electrolyte_level ElectrolyteLevel.HIGH REFILLING_TIMEOUT true ;;
  _check_refilling_warnings ;;
  print PWaitingMixed ;;
  mixing_time <- _actual_refilling_mixing_time ;;
  _wait_refilling_state RefillingState.DRAINING (mixing_time * 2) ;;
  _perform_draining.

Definition _perform_refilling (el_21 : bool) : M unit :=
  _check_refilling_state RefillingState.MAINTENANCE ;;
  print PBannerRefilling ;;
  let refill_to_level :=
    if el_21 then ElectrolyteLevel.HIGH else ElectrolyteLevel.MEDIUM in
  _wait_confirmation (PromptPrepareElectrolyte el_21) ;;
  print (PRaiseBag ElectrolyteLevel.LOW) ;;
  when (negb el_21) (print POverfillWarning) ;;
  print (PWaitingForLevel ElectrolyteLevel.LOW) ;;
  try_finally
    (try_except_else
       (_wait_electrolyte_level ElectrolyteLevel.LOW REFILLING_TIMEOUT true)
       is_HighElectrolyteLevelException
       (fun _ =>
          print PHigherThanLow ;;
          _handle_very_high_electrolyte_level el_21)
       (fun _ => _check_refilling_state RefillingState.KOH_REFILLING))
    (if el_21 then
       level <- _electrolyte_level true ;;
       when (ElectrolyteLevel.value level
             <? ElectrolyteLevel.value ElectrolyteLevel.HIGH)
         (_check_refilling_state RefillingState.KOH_REFILLING)
     else ret tt) ;;
  level <- _electrolyte_level true ;;
  when (ElectrolyteLevel.value level
        <? ElectrolyteLevel.value refill_to_level)
    (print (PRaiseBag refill_to_level) ;;
     when (negb el_21) (print POverfillWarning) ;;
     print (PWaitingForLevel refill_to_level) ;;
     try_except
       (_wait_electrolyte_level refill_to_level REFILLING_TIMEOUT true)
       is_HighElectrolyteLevelException
       (fun _ => _handle_very_high_electrolyte_level el_21)) ;;
  _check_refilling_state RefillingState.KOH_REFILLING_FINISH.

Definition _finish_refilling : M unit :=
  _check_refilling_state RefillingState.SERVICE_REFILLING ;;
  _wait_electrolyte_level ElectrolyteLevel.HIGH REFILLING_TIMEOUT true ;;
  print PWaitingMixed ;;
  mixing_time <- _actual_refilling_mixing_time ;;
  _wait_refilling_state RefillingState.IDLE (mixing_time * 2) ;;
  _check_refilling_warnings ;;
  _check_refilling_state RefillingState.IDLE.

(** ** The two maintenance sequences *)

Definition _run_maintenance_21 (initial_state : State.t) : M unit :=
  print PRunning21 ;;
  _maintenance_on initial_state ;;
  actual_refilling_state <- _actual_refilling_state ;;
  draining_required <-
    match actual_refilling_state with
    | RefillingState.DRAINING => ret true
    | RefillingState.MAINTENANCE => print PFirstRefilling21 ;; ret false
    | _ => throw (MaintenanceModeException
                    (UnexpectedRefillingState actual_refilling_state))
    end ;;
  when draining_required _perform_draining ;;
  _perform_refilling true ;;
  _check_refilling_warnings ;;
  _maintenance_off ;;
  _check_refilling_state RefillingState.IDLE.

Definition _run_maintenance_4x (initial_state : State.t) : M unit :=
  print PRunning4x ;;
  _maintenance_on initial_state ;;
  actual_refilling_state <- _actual_refilling_state ;;
  required <-
    match actual_refilling_state with
    | RefillingState.DRAINING => ret (true, true)
    | RefillingState.WAIT_FLUSHING => ret (false, true)
    | RefillingState.MAINTENANCE =>
        print PFirstRefilling4x ;; ret (false, false)
    | _ => throw (MaintenanceModeException
                    (UnexpectedRefillingState actual_refilling_state))
    end ;;
  let draining_required := fst required in
  let flushing_required := snd required in
  when draining_required _perform_draining ;;
  fresh_refilling_state <- _actual_refilling_state ;;
  let flushing_required :=
    if RefillingState.eqb fresh_refilling_state RefillingState.MAINTENANCE
    then false else flushing_required in
  when flushing_required _perform_flushing ;;
  _perform_refilling false ;;
  _wait_confirmation PromptMaintenanceOff ;;
  _maintenance_off ;;
  try_except_else
    (_check_water_pipe_connection false 1)
    is_WaterPipeException
    (fun _ => print PFailedToFillWater)
    (fun _ => _finish_refilling).

(** ** Decoding the device model *)

(** [f'{n:x}'] for a number that is not negative. *)
Definition format_x (n : Z) : string :=
  match n with
  | Zpos p => HexString.Raw.of_pos p ""
  | _ => "0"
  end.

Definition hex_digit (c : ascii) : option Z :=
  let n := Z.of_nat (nat_of_ascii c) in
  if (48 <=? n) && (n <=? 57) then Some (n - 48)
  else if (97 <=? n) && (n <=? 102) then Some (n - 87)
  else if (65 <=? n) && (n <=? 70) then Some (n - 55)
  else None.

(** [bytes.fromhex(s)] on a string without blanks; [None] is the
    [ValueError] of an odd length or of a character that is no digit. *)
Fixpoint fromhex (s : string) : option (list Z) :=
  match s with
  | EmptyString => Some []
  | String a (String b rest) =>
      match hex_digit a, hex_digit b, fromhex rest with
      | Some x, Some y, Some l => Some (16 * x + y :: l)
      | _, _, _ => None
      end
  | String _ EmptyString => None
  end.

Definition continuation (b : Z) : bool := (0x80 <=? b) && (b <=? 0xBF).

(** Whether the bytes are well-formed UTF-8, as the strict decoder of
    [bytes.decode()] wants them. *)
Fixpoint utf8_valid (bytes : list Z) : bool :=
  match bytes with
  | [] => true
  | b0 :: rest =>
      if b0 <? 0x80 then utf8_valid rest
      else if (0xC2 <=? b0) && (b0 <=? 0xDF) then
        match rest with
        | b1 :: rest1 => continuation b1 && utf8_valid rest1
        | _ => false
        end
      else if (0xE0 <=? b0) && (b0 <=? 0xEF) then
        match rest with
        | b1 :: b2 :: rest2 =>
            continuation b1 && continuation b2
            && (if b0 =? 0xE0 then 0xA0 <=? b1 else true)
            && (if b0 =? 0xED then b1 <=? 0x9F else true)
            && utf8_valid rest2
        | _ => false
        end
      else if (0xF0 <=? b0) && (b0 <=? 0xF4) then
        match rest with
        | b1 :: b2 :: b3 :: rest3 =>
            continuation b1 && continuation b2 && continuation b3
            && (if b0 =? 0xF0 then 0x90 <=? b1 else true)
            && (if b0 =? 0xF4 then b1 <=? 0x8F else true)
            && utf8_valid rest3
        | _ => false
        end
      else false
  end.

Definition string_of_bytes (bytes : list Z) : string :=
  string_of_list_ascii (map (fun b => ascii_of_nat (Z.to_nat b)) bytes).

(** [bytes.fromhex(f'{converted_device_model:x}').decode()]. *)
Definition decode_device_name (converted_device_model : Z) : M string :=
  match fromhex (format_x converted_device_model) with
  | None => throw ValueError
  | Some bytes =>
      if utf8_valid bytes then ret (string_of_bytes bytes)
      else throw UnicodeDecodeError
  end.

Definition _run_maintenance (initial_state : State.t) : M unit :=
  response <- _read_input_registers Inputs.DEVICE_MODEL 2 ;;
  longs <- word_list_to_long response ;;
  converted_device_model <- subscript longs 0 ;;
  decoded_device_name <- decode_device_name converted_device_model ;;
  match DeviceModel.of_value decoded_device_name with
  | DeviceModel.EL21 => _run_maintenance_21 initial_state
  | DeviceModel.EL40 | DeviceModel.ES40 | DeviceModel.ES41 =>
      _run_maintenance_4x initial_state
  | DeviceModel.UNKNOWN =>
      throw (MaintenanceModeException
               (UnknownDeviceModel decoded_device_name))
  end ;;
  print PCompletedOk.

(** ** The session *)

(** [', '.join(events) or default]. *)
Definition join_or (events : list string) (default : string) : string :=
  let joined := String.concat ", " events in
  if String.eqb joined "" then default else joined.

Definition state_allowed (state : State.t) : bool :=
  State.eqb state State.IDLE || State.eqb state State.MAINTENANCE_MODE.

Definition main : M unit :=
  print (PPrompt PromptStart) ;;
  answer <- input ;;
  if negb (String.eqb (upper answer) INPUT_CONFIRMATION) then
    sys_exit StoppedByUser
  else
    try_except
      (print PCheckingConditions ;;
       level <- _electrolyte_level true ;;
       if ElectrolyteLevel.eqb level ElectrolyteLevel.VERY_HIGH then
         sys_exit VeryHighSwitchEnabled
       else
         state <- _actual_state ;;
         if negb (state_allowed state) then sys_exit (StateNotAllowed state)
         else
           print PConditionsOk ;;
           _run_maintenance state)
      is_Exception
      (fun e =>
         print (PExceptionOccurred e) ;;
         print PModbusError ;;
         print PModbusException ;;
         errors <- _decode_errors ;;
         let active_errors := join_or errors "No errors" in
         warnings <- _decode_warnings ;;
         let active_warnings := join_or warnings "No warnings" in
         print (PDiagnostics active_errors active_warnings) ;;
         reraise e).

End Script.

(** ** Scripted devices

    A device given by a table: for each start address the answers to the
    successive requests; after the last answer the register keeps its last
    value, and an address without answers is one that cannot be read. *)

Definition Script := list (Z * list (list Z)).

Fixpoint answers (script : Script) (address : Z) : list (list Z) :=
  match script with
  | [] => []
  | (a, l) :: rest => if a =? address then l else answers rest address
  end.

Definition scripted (script : Script) (address : Z) (k : nat)
    : option (nat -> Z) :=
  let l := answers script address in
  match l with
  | [] => None
  | first :: _ => Some (fun i => nth i (nth k l (last l first)) 0)
  end.

Definition scripted_device (inputs holdings : Script) : Device :=
  {| input_registers := scripted inputs;
     holding_registers := scripted holdings;
     latency := fun _ => O |}.

Definition initial_world (lines : list string) : World :=
  {| stdin := lines; clock := 0; trace := [] |}.

(** * Properties *)

Unset Implicit Arguments.

Arguments emit : simpl never.
Arguments next_input : simpl never.
Arguments next_holding : simpl never.

(** ** Requests and answers *)

Lemma requests_app p tr1 tr2 :
  requests p (tr1 ++ tr2) = (requests p tr1 + requests p tr2)%nat.
Proof. unfold requests. rewrite filter_app, length_app. reflexivity. Qed.

Lemma next_input_emit dev e w address count :
  is_read_input address e = false ->
  next_input dev (emit dev e w) address count = next_input dev w address count.
Proof.
  intro H. unfold next_input, emit; simpl.
  rewrite requests_app. unfold requests at 2; simpl. rewrite H; simpl.
  rewrite Nat.add_0_r. reflexivity.
Qed.

Lemma words_length count regs : List.length (words count regs) = count.
Proof. unfold words. rewrite length_map, length_seq. reflexivity. Qed.

Lemma next_input_length dev w address count l :
  next_input dev w address count = Some l -> List.length l = count.
Proof.
  unfold next_input. destruct (input_registers dev address _); simpl;
    [|discriminate].
  intro H; inversion H. apply words_length.
Qed.

(** ** The electrolyte level as the switches give it *)

(** The switches are enabled from the bottom up with no gaps. *)
Fixpoint bottom_run (switches : list bool) : bool :=
  match switches with
  | [] => true
  | true :: rest => bottom_run rest
  | false :: rest => forallb negb rest
  end.

(** The position, counted from one, of the last switch of the list that is
    (that is not) enabled; zero when there is none. *)
Fixpoint last_position (enabled : bool) (switches : list bool) : nat :=
  match switches with
  | [] => 0
  | switch :: rest =>
      match last_position enabled rest with
      | O => if Bool.eqb switch enabled then 1 else 0
      | S p => S (S p)
      end
  end.

(** The position, counted from one, of the first switch of the list that is
    not enabled; zero when there is none. *)
Fixpoint first_disabled (switches : list bool) : nat :=
  match switches with
  | [] => 0
  | false :: _ => 1
  | true :: rest =>
      match first_disabled rest with
      | O => 0
      | S p => S (S p)
      end
  end.

Definition ordinal_level (n : nat) : ElectrolyteLevel.t :=
  match n with
  | 0 => ElectrolyteLevel.EMPTY
  | 1 => ElectrolyteLevel.LOW
  | 2 => ElectrolyteLevel.MEDIUM
  | 3 => ElectrolyteLevel.HIGH
  | _ => ElectrolyteLevel.VERY_HIGH
  end%nat.

(** The four switches as [_electrolyte_level] is about to read them. *)
Definition switches_ahead (dev : Device) (w : World) (switches : list bool)
    : Prop :=
  exists low medium high very_high,
    next_input dev w Inputs.LSL102D_IN 1 = Some [low]
    /\ next_input dev w Inputs.LSM102C_IN 1 = Some [medium]
    /\ next_input dev w Inputs.LSH102B_IN 1 = Some [high]
    /\ next_input dev w Inputs.LSHH102A_IN 1 = Some [very_high]
    /\ switches = [truth low; truth medium; truth high; truth very_high].

(** The world after the four switches have been read. *)
Definition switches_read (dev : Device) (w : World) : World :=
  emit dev
    (EvReadInput Inputs.LSHH102A_IN 1 (next_input dev w Inputs.LSHH102A_IN 1))
    (emit dev
       (EvReadInput Inputs.LSH102B_IN 1 (next_input dev w Inputs.LSH102B_IN 1))
       (emit dev
          (EvReadInput Inputs.LSM102C_IN 1
             (next_input dev w Inputs.LSM102C_IN 1))
          (emit dev
             (EvReadInput Inputs.LSL102D_IN 1
                (next_input dev w Inputs.LSL102D_IN 1))
             w))).

(** What [_electrolyte_level] does once the switches are known. *)
Lemma electrolyte_level_run dev logging w low medium high very_high :
  next_input dev w Inputs.LSL102D_IN 1 = Some [low] ->
  next_input dev w Inputs.LSM102C_IN 1 = Some [medium] ->
  next_input dev w Inputs.LSH102B_IN 1 = Some [high] ->
  next_input dev w Inputs.LSHH102A_IN 1 = Some [very_high] ->
  let switches := [truth low; truth medium; truth high; truth very_high] in
  _electrolyte_level dev logging w =
  (if bottom_run switches then
     (Ok (ordinal_level (last_position true switches)),
      if logging then
        emit dev
          (EvPrint
             (PLevelDetected (ordinal_level (last_position true switches))))
          (switches_read dev w)
      else switches_read dev w)
   else
     let e :=
       MaintenanceModeException
         (SwitchGap
            (ordinal_level (last_position true switches))
            (ordinal_level
               (last_position false
                  (firstn (last_position true switches) switches)))) in
     (Raise e, emit dev (EvRaise e) (switches_read dev w))).
Proof.
  intros Hl Hm Hh Hv switches.
  unfold _electrolyte_level, _low_level_switch, _medium_level_switch,
    _high_level_switch, _very_high_level_switch, _read_input_registers,
    switches_read, bind.
  rewrite Hl; simpl.
  rewrite !next_input_emit by reflexivity. rewrite Hm; simpl.
  rewrite !next_input_emit by reflexivity. rewrite Hh; simpl.
  rewrite !next_input_emit by reflexivity. rewrite Hv; simpl.
  subst switches.
  destruct (truth low), (truth medium), (truth high), (truth very_high);
    destruct logging; reflexivity.
Qed.

(** A device whose four level switches (low, medium, high, very high) hold
    the given words. *)
Definition switches_device (low medium high very_high : Z) : Device :=
  scripted_device
    [ (Inputs.LSL102D_IN, [[low]]); (Inputs.LSM102C_IN, [[medium]]);
      (Inputs.LSH102B_IN, [[high]]); (Inputs.LSHH102A_IN, [[very_high]]) ]
    [].

(** C1 (as amended).  For every reading of the four level switches:
    when the enabled switches form a contiguous run from the bottom,
    [_electrolyte_level] returns the level whose ordinal is the position of
    the highest enabled switch (EMPTY when none is enabled); when a switch
    below the highest enabled one is disabled, it raises
    [MaintenanceModeException], and the message names the detected level
    and the HIGHEST disabled switch below it.  The level is never clamped:
    with a gap no level is returned. *)
Theorem electrolyte_level_of_switches dev logging w switches :
  switches_ahead dev w switches ->
  (bottom_run switches = true ->
   fst (_electrolyte_level dev logging w)
   = Ok (ordinal_level (last_position true switches)))
  /\ (bottom_run switches = false ->
      fst (_electrolyte_level dev logging w)
      = Raise
          (MaintenanceModeException
             (SwitchGap
                (ordinal_level (last_position true switches))
                (ordinal_level
                   (last_position false
                      (firstn (last_position true switches) switches)))))).
Proof.
  intros (low & medium & high & very_high & Hl & Hm & Hh & Hv & ->).
  rewrite (electrolyte_level_run dev logging w _ _ _ _ Hl Hm Hh Hv).
  split; intros ->; reflexivity.
Qed.

Lemma electrolyte_level_of_switches_witness :
  fst (_electrolyte_level (switches_device 1 1 0 0) true (initial_world []))
  = Ok ElectrolyteLevel.MEDIUM.
Proof.
  refine (proj1
            (electrolyte_level_of_switches (switches_device 1 1 0 0) true
               (initial_world []) [true; true; false; false] _)
            eq_refl).
  exists 1, 1, 0, 0. repeat split; reflexivity.
Defined.

(** C1 as stated fails: with only the high switch enabled the message names
    MEDIUM, the highest disabled switch below HIGH, while the lowest
    disabled switch below HIGH is LOW. *)
Lemma electrolyte_level_gap_names_highest_disabled :
  let switches := [false; false; true; false] in
  switches_ahead (switches_device 0 0 1 0) (initial_world []) switches
  /\ fst (_electrolyte_level (switches_device 0 0 1 0) true
            (initial_world []))
     = Raise
         (MaintenanceModeException
            (SwitchGap ElectrolyteLevel.HIGH ElectrolyteLevel.MEDIUM))
  /\ ordinal_level (first_disabled (firstn 3 switches))
     = ElectrolyteLevel.LOW
  /\ fst (_electrolyte_level (switches_device 0 0 1 0) true
            (initial_world []))
     <> Raise
          (MaintenanceModeException
             (SwitchGap ElectrolyteLevel.HIGH
                (ordinal_level (first_disabled (firstn 3 switches))))).
Proof.
  repeat split; try reflexivity.
  - exists 0, 0, 1, 0. repeat split; reflexivity.
  - vm_compute. discriminate.
Qed.

(** ** Decoding an events register *)

Lemma words_range count regs x :
  In x (words count regs) -> 0 <= x < 65536.
Proof.
  unfold words. rewrite in_map_iff. intros (i & <- & _).
  apply Z.mod_pos_bound. lia.
Qed.

Lemma next_input_range dev w address count l x :
  next_input dev w address count = Some l -> In x l -> 0 <= x < 65536.
Proof.
  unfold next_input. destruct (input_registers dev address _); simpl;
    [|discriminate].
  intro H; inversion H. apply words_range.
Qed.

Lemma member_name_missing event_type v :
  (forall name, ~ In (v, name) event_type) ->
  member_name event_type v = "UNKNOWN".
Proof.
  intro H. unfold member_name.
  destruct (find (fun m => fst m =? v) event_type) as [[v' name]|] eqn:Hf;
    [|reflexivity].
  apply find_some in Hf. destruct Hf as [Hin Heq]. simpl in Heq.
  apply Z.eqb_eq in Heq. subst v'. elim (H name Hin).
Qed.

(** What [_decode_events] returns once the register is known. *)
Lemma decode_events_run dev register event_type w raw :
  next_input dev w register 33 = Some raw ->
  fst (_decode_events dev register event_type w)
  = Ok (if nth 0 raw 0 =? 0 then []
        else map (fun event =>
                    _format_event (member_name event_type event) event)
                 (firstn (Z.to_nat (nth 0 raw 0)) (skipn 1 raw))).
Proof.
  intro H. pose proof (next_input_length _ _ _ _ _ H) as Hlen.
  unfold _decode_events, bind, _read_input_registers. rewrite H.
  destruct raw as [|count rest]; [discriminate|]. simpl.
  assert (Hc : 0 <= count < 65536)
    by (apply (next_input_range _ _ _ _ _ count H); left; reflexivity).
  unfold truth. destruct (count =? 0) eqn:Hz; simpl; [reflexivity|].
  unfold slice. simpl skipn.
  replace (Z.to_nat (count + 1) - 1)%nat with (Z.to_nat count) by lia.
  reflexivity.
Qed.

(** C4.  Decoding an events register (errors or warnings): when the leading
    count word is 0 the result is the empty list, whatever the other 32
    words hold; when it is N > 0 the result has N entries, bounded to the
    32 codes of the array, and the entry at position i is the formatted
    (i+1)-th word, its name being UNKNOWN when the code is no member of the
    table; nothing is raised. *)
Theorem decode_events_counted dev register event_type w raw :
  next_input dev w register 33 = Some raw ->
  let count := nth 0 raw 0 in
  exists events,
    fst (_decode_events dev register event_type w) = Ok events
    /\ (count = 0 -> events = [])
    /\ (0 < count -> List.length events = Z.to_nat (Z.min count 32))
    /\ (forall i, (i < List.length events)%nat ->
        let code := nth (S i) raw 0 in
        nth i events "" = _format_event (member_name event_type code) code
        /\ ((forall name, ~ In (code, name) event_type) ->
            nth i events "" = ("UNKNOWN (" ++ hex code ++ ")")%string)).
Proof.
  intros H count.
  pose proof (next_input_length _ _ _ _ _ H) as Hlen.
  rewrite (decode_events_run _ _ event_type _ _ H). fold count.
  eexists; split; [reflexivity|].
  destruct raw as [|c rest]; [discriminate|].
  simpl in Hlen. simpl in count. subst count. simpl skipn.
  split; [|split].
  - intros ->. reflexivity.
  - intro Hpos. destruct (c =? 0) eqn:Hz; [apply Z.eqb_eq in Hz; lia|].
    rewrite length_map, length_firstn. lia.
  - intros i Hi code.
    destruct (c =? 0) eqn:Hz; [simpl in Hi; lia|].
    rewrite length_map, length_firstn in Hi.
    assert (Hnth : nth i
                     (map (fun event =>
                             _format_event (member_name event_type event)
                               event)
                        (firstn (Z.to_nat c) rest)) ""
                   = _format_event (member_name event_type code) code).
    { rewrite nth_indep with (d' := _format_event
                                        (member_name event_type 0) 0)
        by (rewrite length_map, length_firstn; lia).
      rewrite (map_nth (fun event =>
                          _format_event (member_name event_type event)
                            event)).
      subst code. simpl nth. rewrite nth_firstn.
      destruct (Nat.ltb_spec i (Z.to_nat c)); [reflexivity|lia]. }
    split; [exact Hnth|].
    intro Hmissing. rewrite Hnth.
    rewrite (member_name_missing _ _ Hmissing). reflexivity.
Qed.

(** An errors register that announces two events, the second of them a
    code the table does not know, followed by garbage. *)
Definition two_errors_device : Device :=
  scripted_device
    [ (Inputs.ERRORS, [[2; 0x1F81; 0xBEEF; 0x1234; 7]]) ] [].

Lemma decode_events_counted_witness :
  exists events,
    fst (_decode_errors two_errors_device (initial_world [])) = Ok events
    /\ List.length events = 2%nat.
Proof.
  destruct (decode_events_counted two_errors_device Inputs.ERRORS ElError
              (initial_world [])
              ([2; 0x1F81; 0xBEEF; 0x1234; 7] ++ repeat 0 28) eq_refl)
    as (events & Hrun & _ & Hlen & _).
  exists events. split; [exact Hrun | exact (Hlen eq_refl)].
Defined.

(** ** Equality on the enumerations *)

Lemma level_eqb_eq a b : ElectrolyteLevel.eqb a b = true <-> a = b.
Proof.
  unfold ElectrolyteLevel.eqb; destruct a, b; simpl; split; congruence.
Qed.

Lemma level_eqb_neq a b : ElectrolyteLevel.eqb a b = false <-> a <> b.
Proof.
  unfold ElectrolyteLevel.eqb; destruct a, b; simpl; split; congruence.
Qed.

Lemma state_eqb_eq a b : State.eqb a b = true <-> a = b.
Proof. unfold State.eqb; destruct a, b; simpl; split; congruence. Qed.

Lemma refilling_eqb_eq a b : RefillingState.eqb a b = true <-> a = b.
Proof.
  unfold RefillingState.eqb; destruct a, b; simpl; split; congruence.
Qed.

Lemma refilling_eqb_neq a b : RefillingState.eqb a b = false <-> a <> b.
Proof.
  unfold RefillingState.eqb; destruct a, b; simpl; split; congruence.
Qed.

(** ** What a run adds to the trace *)

Lemma trace_emit dev e w : trace (emit dev e w) = trace w ++ [e].
Proof. reflexivity. Qed.

Lemma stdin_emit dev e w : stdin (emit dev e w) = stdin w.
Proof. reflexivity. Qed.

Definition is_read (e : Event) : bool :=
  match e with
  | EvReadInput _ _ _ | EvReadHolding _ _ _ => true
  | _ => false
  end.

(** The events of a run, from the world it starts in to the world it ends
    in. *)
Definition events_since (w w' : World) : list Event :=
  skipn (List.length (trace w)) (trace w').

Lemma events_since_app w w' evs :
  trace w' = trace w ++ evs -> events_since w w' = evs.
Proof.
  intro H. unfold events_since. rewrite H, skipn_app, skipn_all.
  rewrite Nat.sub_diag. reflexivity.
Qed.

(** A request for one register answers with one word or fails. *)
Lemma next_input_one dev w address :
  next_input dev w address 1 = None
  \/ exists x, next_input dev w address 1 = Some [x].
Proof.
  destruct (next_input dev w address 1) as [l|] eqn:H; [right|left; trivial].
  pose proof (next_input_length _ _ _ _ _ H) as Hlen.
  destruct l as [|x [|y l]]; try discriminate. exists x; reflexivity.
Qed.

(** The shape of a run of [_electrolyte_level]: requests to the device,
    then the line that reports the level, or the exception. *)
Lemma electrolyte_level_shape dev logging w :
  exists reads,
    forallb is_read reads = true
    /\ stdin (snd (_electrolyte_level dev logging w)) = stdin w
    /\ trace (snd (_electrolyte_level dev logging w))
       = trace w ++ reads
         ++ match fst (_electrolyte_level dev logging w) with
            | Ok level =>
                if logging then [EvPrint (PLevelDetected level)] else []
            | Raise e => [EvRaise e]
            end.
Proof.
  destruct (next_input_one dev w Inputs.LSL102D_IN) as [Hl|[low Hl]];
  [|destruct (next_input_one dev w Inputs.LSM102C_IN) as [Hm|[medium Hm]];
    [|destruct (next_input_one dev w Inputs.LSH102B_IN) as [Hh|[high Hh]];
      [|destruct (next_input_one dev w Inputs.LSHH102A_IN)
          as [Hv|[very_high Hv]]]]].
  5: { rewrite (electrolyte_level_run dev logging w _ _ _ _ Hl Hm Hh Hv).
       exists [EvReadInput Inputs.LSL102D_IN 1
                 (next_input dev w Inputs.LSL102D_IN 1);
               EvReadInput Inputs.LSM102C_IN 1
                 (next_input dev w Inputs.LSM102C_IN 1);
               EvReadInput Inputs.LSH102B_IN 1
                 (next_input dev w Inputs.LSH102B_IN 1);
               EvReadInput Inputs.LSHH102A_IN 1
                 (next_input dev w Inputs.LSHH102A_IN 1)].
       split; [reflexivity|]. cbv zeta.
       match goal with
       | |- context [bottom_run ?s] => destruct (bottom_run s)
       end; [destruct logging|]; simpl;
         unfold switches_read; rewrite ?trace_emit, <- ?app_assoc; simpl;
         auto. }
  all: unfold _electrolyte_level, _low_level_switch, _medium_level_switch,
    _high_level_switch, _very_high_level_switch, _read_input_registers, bind;
    rewrite ?Hl; simpl;
    rewrite ?next_input_emit by reflexivity; rewrite ?Hm; simpl;
    rewrite ?next_input_emit by reflexivity; rewrite ?Hh; simpl;
    rewrite ?next_input_emit by reflexivity; rewrite ?Hv; simpl;
    unfold throw; simpl; rewrite ?trace_emit, <- ?app_assoc; simpl.
  - exists [EvReadInput Inputs.LSL102D_IN 1 None]. repeat split.
  - eexists [_; _]. split; [|split; reflexivity]. reflexivity.
  - eexists [_; _; _]. split; [|split; reflexivity]. reflexivity.
  - eexists [_; _; _; _]. split; [|split; reflexivity]. reflexivity.
Qed.

(** ** Waiting for a level *)

Lemma wait_level_loop_unfold dev expected timeout refilling wait_until w :
  _wait_electrolyte_level_loop dev expected timeout refilling wait_until w =
  if clock w <? wait_until then
    match _electrolyte_level dev true w with
    | (Ok level, w1) =>
        if ElectrolyteLevel.eqb level expected then (Ok tt, w1)
        else if refilling
                && (ElectrolyteLevel.value level
                    >? ElectrolyteLevel.value expected)
        then throw dev (HighElectrolyteLevelException expected level) w1
        else _wait_electrolyte_level_loop dev expected timeout refilling
               wait_until
               (snd (time_sleep dev ELECTROLYTE_PRESENCE_CHECK_TIMEOUT w1))
    | (Raise e, w1) => (Raise e, w1)
    end
  else throw dev (MaintenanceModeException
                    (FailedWaitLevel expected (timeout / 60))) w.
Proof.
  funelim (_wait_electrolyte_level_loop dev expected timeout refilling
             wait_until w).
  all: try match goal with H : (clock _ <? _) = _ |- _ => rewrite H end;
    try match goal with
        | H : _electrolyte_level _ _ _ = _ |- _ => rewrite H
        end;
    reflexivity.
Qed.

Lemma sleeps_left_after_level dev logging wait_until w :
  clock w < wait_until ->
  (sleeps_left wait_until
     (snd (time_sleep dev ELECTROLYTE_PRESENCE_CHECK_TIMEOUT
             (snd (_electrolyte_level dev logging w))))
   < sleeps_left wait_until w)%nat.
Proof.
  intro H. pose proof (steady_electrolyte_level dev logging w) as Hs.
  unfold sleeps_left, time_sleep, ELECTROLYTE_PRESENCE_CHECK_TIMEOUT.
  simpl. unfold emit; simpl. apply sleeps_left_decreases; lia.
Qed.

Lemma trace_time_sleep dev seconds w :
  trace (snd (time_sleep dev seconds w)) = trace w ++ [EvSleep seconds].
Proof. reflexivity. Qed.

Lemma clock_time_sleep dev seconds w :
  clock w + 1000 * seconds <= clock (snd (time_sleep dev seconds w)).
Proof. unfold time_sleep, emit; simpl. lia. Qed.

Definition is_sleep (e : Event) : bool :=
  match e with EvSleep _ => true | _ => false end.

(** An observation above the target during a refill ends the wait on the
    spot. *)
Lemma wait_level_loop_overshoot dev expected timeout wait_until w :
  exists evs,
    trace (snd (_wait_electrolyte_level_loop dev expected timeout true
                  wait_until w))
    = trace w ++ evs
    /\ forall level,
        In (EvPrint (PLevelDetected level)) evs ->
        ElectrolyteLevel.value expected < ElectrolyteLevel.value level ->
        fst (_wait_electrolyte_level_loop dev expected timeout true
               wait_until w)
        = Raise (HighElectrolyteLevelException expected level)
        /\ exists before,
            evs = before
                  ++ [EvPrint (PLevelDetected level);
                      EvRaise (HighElectrolyteLevelException expected level)].
Proof.
  remember (sleeps_left wait_until w) as n eqn:Hn. revert w Hn.
  induction n as [n IH] using lt_wf_ind. intros w Hn. subst n.
  rewrite wait_level_loop_unfold.
  destruct (clock w <? wait_until) eqn:Hbefore.
  2: { eexists. split; [reflexivity|]. intros level [H|[]]. discriminate. }
  apply Z.ltb_lt in Hbefore.
  destruct (electrolyte_level_shape dev true w) as (reads & Hreads & _ & Htr).
  pose proof (sleeps_left_after_level dev true wait_until w Hbefore) as Hdec.
  destruct (_electrolyte_level dev true w) as [[level1|e] w1];
    cbn [fst snd] in *.
  2: { exists (reads ++ [EvRaise e]). split; [exact Htr|].
       intros level Hin. apply in_app_or in Hin. destruct Hin as [Hin|[Hin|[]]].
       - rewrite forallb_forall in Hreads. apply Hreads in Hin. discriminate.
       - discriminate. }
  assert (Hnot : forall level,
             In (EvPrint (PLevelDetected level)) reads -> False).
  { intros level Hin. rewrite forallb_forall in Hreads.
    apply Hreads in Hin. discriminate. }
  destruct (ElectrolyteLevel.eqb level1 expected) eqn:Heq.
  { exists (reads ++ [EvPrint (PLevelDetected level1)]).
    split; [exact Htr|].
    intros level Hin Hgt. apply in_app_or in Hin.
    destruct Hin as [Hin|[Hin|[]]]; [elim (Hnot _ Hin)|].
    inversion Hin; subst. unfold ElectrolyteLevel.eqb in Heq.
    apply Z.eqb_eq in Heq. lia. }
  simpl andb.
  destruct (ElectrolyteLevel.value level1 >? ElectrolyteLevel.value expected)
    eqn:Hgt1.
  { exists (reads
            ++ [EvPrint (PLevelDetected level1);
                EvRaise (HighElectrolyteLevelException expected level1)]).
    split.
    - unfold throw; simpl. rewrite ?trace_emit, Htr, <- ?app_assoc.
      reflexivity.
    - intros level Hin Hgt. apply in_app_or in Hin.
      destruct Hin as [Hin|[Hin|[Hin|[]]]];
        [elim (Hnot _ Hin)| |discriminate].
      inversion Hin; subst. split; [reflexivity|]. exists reads. reflexivity. }
  destruct (IH _ Hdec _ eq_refl) as (evs & Hevs & Hover).
  exists (reads ++ [EvPrint (PLevelDetected level1)]
          ++ [EvSleep ELECTROLYTE_PRESENCE_CHECK_TIMEOUT] ++ evs).
  split.
  - rewrite Hevs, trace_time_sleep, Htr, <- !app_assoc. reflexivity.
  - intros level Hin Hgt. apply in_app_or in Hin.
    destruct Hin as [Hin|[Hin|[Hin|Hin]]]; [elim (Hnot _ Hin)| |discriminate|].
    + inversion Hin; subst. rewrite Z.gtb_ltb in Hgt1.
      apply Z.ltb_ge in Hgt1. lia.
    + destruct (Hover level Hin Hgt) as (Hr & before & Hb).
      split; [exact Hr|]. rewrite Hb.
      exists (reads ++ [EvPrint (PLevelDetected level1)]
              ++ [EvSleep ELECTROLYTE_PRESENCE_CHECK_TIMEOUT] ++ before).
      rewrite <- !app_assoc. reflexivity.
Qed.

(** C5.  During a refill ([refilling] true), an observed level strictly
    above the target makes [_wait_electrolyte_level] raise
    [HighElectrolyteLevelException] at that observation: the report of the
    level and the exception are the last two events of the wait, so nothing
    of the remaining timeout is waited out. *)
Theorem wait_electrolyte_level_overshoot dev expected timeout w level :
  let run := _wait_electrolyte_level dev expected timeout true w in
  In (EvPrint (PLevelDetected level)) (events_since w (snd run)) ->
  ElectrolyteLevel.value expected < ElectrolyteLevel.value level ->
  fst run = Raise (HighElectrolyteLevelException expected level)
  /\ exists before,
      events_since w (snd run)
      = before
        ++ [EvPrint (PLevelDetected level);
            EvRaise (HighElectrolyteLevelException expected level)].
Proof.
  unfold _wait_electrolyte_level, bind, time_time. cbv zeta.
  destruct (wait_level_loop_overshoot dev expected timeout
              (clock w + 1000 * timeout) w) as (evs & Hevs & Hover).
  rewrite (events_since_app _ _ _ Hevs). exact (Hover level).
Qed.

(** The level sensor of the scenario: EMPTY at the first observation,
    MEDIUM from the second on. *)
Definition empty_then_medium : Device :=
  scripted_device
    [ (Inputs.LSL102D_IN, [[0]; [1]]); (Inputs.LSM102C_IN, [[0]; [1]]);
      (Inputs.LSH102B_IN, [[0]]); (Inputs.LSHH102A_IN, [[0]]) ]
    [].

Lemma wait_electrolyte_level_overshoot_witness :
  let run :=
    _wait_electrolyte_level empty_then_medium ElectrolyteLevel.LOW
      REFILLING_TIMEOUT true (initial_world []) in
  fst run
  = Raise
      (HighElectrolyteLevelException ElectrolyteLevel.LOW
         ElectrolyteLevel.MEDIUM)
  /\ clock (snd run) = 1000 * ELECTROLYTE_PRESENCE_CHECK_TIMEOUT.
Proof.
  split; [|reflexivity].
  refine (proj1
            (wait_electrolyte_level_overshoot empty_then_medium
               ElectrolyteLevel.LOW REFILLING_TIMEOUT (initial_world [])
               ElectrolyteLevel.MEDIUM _ _)).
  - vm_compute. do 10 right. left. reflexivity.
  - reflexivity.
Defined.

(** ** The deadline of a wait *)

Definition sleeps (evs : list Event) : Z :=
  Z.of_nat (List.length (filter is_sleep evs)).

Lemma sleeps_app evs1 evs2 : sleeps (evs1 ++ evs2) = sleeps evs1 + sleeps evs2.
Proof. unfold sleeps. rewrite filter_app, length_app. lia. Qed.

Lemma sleeps_reads reads : forallb is_read reads = true -> sleeps reads = 0.
Proof.
  unfold sleeps. induction reads as [|e reads IH]; [reflexivity|].
  simpl. intro H. apply andb_prop in H. destruct H as [He Hr].
  destruct e; try discriminate; simpl; auto.
Qed.

(** The sensor never reports the target, nor, during a refill, a level
    above it. *)
Definition level_never (dev : Device) (expected : ElectrolyteLevel.t)
    (refilling : bool) : Prop :=
  forall w, exists level,
    fst (_electrolyte_level dev true w) = Ok level
    /\ level <> expected
    /\ (refilling = true ->
        ElectrolyteLevel.value level <= ElectrolyteLevel.value expected).

Lemma wait_level_loop_timeout dev expected timeout refilling wait_until w :
  level_never dev expected refilling ->
  let run :=
    _wait_electrolyte_level_loop dev expected timeout refilling wait_until w in
  fst run
  = Raise (MaintenanceModeException (FailedWaitLevel expected (timeout / 60)))
  /\ wait_until <= clock (snd run)
  /\ exists evs,
      trace (snd run) = trace w ++ evs
      /\ 1000 * ELECTROLYTE_PRESENCE_CHECK_TIMEOUT * sleeps evs
         < Z.max 0 (wait_until - clock w)
           + 1000 * ELECTROLYTE_PRESENCE_CHECK_TIMEOUT.
Proof.
  intros Hnever. cbv zeta.
  remember (sleeps_left wait_until w) as n eqn:Hn. revert w Hn.
  induction n as [n IH] using lt_wf_ind. intros w Hn. subst n.
  rewrite wait_level_loop_unfold.
  destruct (clock w <? wait_until) eqn:Hbefore.
  2: { apply Z.ltb_ge in Hbefore. split; [reflexivity|]. split.
       - pose proof (steady_throw dev (A:=unit)
                       (MaintenanceModeException
                          (FailedWaitLevel expected (timeout / 60))) w).
         lia.
       - eexists. split; [reflexivity|].
         unfold ELECTROLYTE_PRESENCE_CHECK_TIMEOUT, sleeps; simpl. lia. }
  apply Z.ltb_lt in Hbefore.
  destruct (electrolyte_level_shape dev true w) as (reads & Hreads & _ & Htr).
  pose proof (sleeps_left_after_level dev true wait_until w Hbefore) as Hdec.
  pose proof (steady_electrolyte_level dev true w) as Hsteady.
  destruct (Hnever w) as (level & Hlevel & Hneq & Hle).
  destruct (_electrolyte_level dev true w) as [r w1]; cbn [fst snd] in *.
  subst r.
  apply level_eqb_neq in Hneq. rewrite Hneq.
  replace (refilling
           && (ElectrolyteLevel.value level
               >? ElectrolyteLevel.value expected)) with false.
  2: { destruct refilling; [|reflexivity]. simpl. symmetry.
       rewrite Z.gtb_ltb. apply Z.ltb_ge. auto. }
  destruct (IH _ Hdec _ eq_refl) as (Hr & Hclock & evs & Hevs & Hsl).
  split; [exact Hr|]. split; [exact Hclock|].
  exists (reads ++ [EvPrint (PLevelDetected level)]
          ++ [EvSleep ELECTROLYTE_PRESENCE_CHECK_TIMEOUT] ++ evs).
  split.
  - rewrite Hevs, trace_time_sleep, Htr, <- !app_assoc. reflexivity.
  - rewrite !sleeps_app, (sleeps_reads _ Hreads).
    pose proof (clock_time_sleep dev ELECTROLYTE_PRESENCE_CHECK_TIMEOUT w1).
    unfold ELECTROLYTE_PRESENCE_CHECK_TIMEOUT in *.
    change (sleeps [EvPrint (PLevelDetected level)]) with 0.
    change (sleeps [EvSleep 10]) with 1. lia.
Qed.

(** C6.  When the sensor never reports the target level (nor, during a
    refill, a level above it), [_wait_electrolyte_level] ends with
    [MaintenanceModeException] "Failed to wait for ... level": it returns
    once the clock has reached the deadline, after a number of sleeps that
    the timeout bounds, so it does not loop for ever. *)
Theorem wait_electrolyte_level_times_out dev expected timeout refilling w :
  level_never dev expected refilling ->
  let run := _wait_electrolyte_level dev expected timeout refilling w in
  fst run
  = Raise (MaintenanceModeException (FailedWaitLevel expected (timeout / 60)))
  /\ clock w + 1000 * timeout <= clock (snd run)
  /\ ELECTROLYTE_PRESENCE_CHECK_TIMEOUT * sleeps (events_since w (snd run))
     < Z.max 0 timeout + ELECTROLYTE_PRESENCE_CHECK_TIMEOUT.
Proof.
  intro Hnever. unfold _wait_electrolyte_level, bind, time_time. cbv zeta.
  destruct (wait_level_loop_timeout dev expected timeout refilling
              (clock w + 1000 * timeout) w Hnever)
    as (Hr & Hclock & evs & Hevs & Hsl).
  split; [exact Hr|]. split; [exact Hclock|].
  rewrite (events_since_app _ _ _ Hevs).
  unfold ELECTROLYTE_PRESENCE_CHECK_TIMEOUT in *. lia.
Qed.

(** A register with a single scripted answer holds it for ever. *)
Lemma held_input inputs holdings w address count l :
  answers inputs address = [l] ->
  next_input (scripted_device inputs holdings) w address count
  = Some (words count (fun i => nth i l 0)).
Proof.
  intro H. unfold next_input, scripted_device, scripted; simpl. rewrite H.
  simpl. destruct (requests _ _) as [|[|k]]; reflexivity.
Qed.

Lemma switches_device_ahead low medium high very_high w :
  switches_ahead (switches_device low medium high very_high) w
    [truth (low mod 65536); truth (medium mod 65536);
     truth (high mod 65536); truth (very_high mod 65536)].
Proof.
  exists (low mod 65536), (medium mod 65536), (high mod 65536),
    (very_high mod 65536).
  unfold switches_device.
  repeat split; try (erewrite held_input by reflexivity; reflexivity).
Qed.

Lemma always_medium_never_empty :
  level_never (switches_device 1 1 0 0) ElectrolyteLevel.EMPTY false.
Proof.
  intro w. exists ElectrolyteLevel.MEDIUM.
  split; [|split; [discriminate|discriminate]].
  destruct (switches_device_ahead 1 1 0 0 w)
    as (low & medium & high & very_high & Hl & Hm & Hh & Hv & Hs).
  rewrite (electrolyte_level_run _ true w _ _ _ _ Hl Hm Hh Hv).
  cbv zeta. rewrite <- Hs. reflexivity.
Qed.

Lemma wait_electrolyte_level_times_out_witness :
  fst (_wait_electrolyte_level (switches_device 1 1 0 0)
         ElectrolyteLevel.EMPTY 1 false (initial_world []))
  = Raise
      (MaintenanceModeException (FailedWaitLevel ElectrolyteLevel.EMPTY 0)).
Proof.
  exact (proj1
           (wait_electrolyte_level_times_out (switches_device 1 1 0 0)
              ElectrolyteLevel.EMPTY 1 false (initial_world [])
              always_medium_never_empty)).
Defined.


Lemma wait_state_loop_unfold dev expected timeout wait_until w :
  _wait_refilling_state_loop dev expected timeout wait_until w =
  if clock w <? wait_until then
    match _actual_refilling_state dev w with
    | (Ok actual, w1) =>
        if RefillingState.eqb actual expected then (Ok tt, w1)
        else _wait_refilling_state_loop dev expected timeout wait_until
               (snd (time_sleep dev REFILLING_STATE_CHECK_TIMEOUT w1))
    | (Raise e, w1) => (Raise e, w1)
    end
  else throw dev (MaintenanceModeException
                    (FailedWaitState expected timeout)) w.
Proof.
  funelim (_wait_refilling_state_loop dev expected timeout wait_until w).
  all: try match goal with H : (clock _ <? _) = _ |- _ => rewrite H end;
    try match goal with
        | H : _actual_refilling_state _ _ = _ |- _ => rewrite H
        end;
    reflexivity.
Qed.

Lemma sleeps_left_after_state dev wait_until w :
  clock w < wait_until ->
  (sleeps_left wait_until
     (snd (time_sleep dev REFILLING_STATE_CHECK_TIMEOUT
             (snd (_actual_refilling_state dev w))))
   < sleeps_left wait_until w)%nat.
Proof.
  intro H. pose proof (steady_actual_refilling_state dev w) as Hs.
  unfold sleeps_left, time_sleep, REFILLING_STATE_CHECK_TIMEOUT.
  simpl. unfold emit; simpl. apply sleeps_left_decreases; lia.
Qed.

Lemma wait_confirmation_loop_unfold dev w :
  _wait_confirmation_loop dev w =
  match input dev w with
  | (Ok line, w1) =>
      if String.eqb (upper line) INPUT_CONFIRMATION then (Ok tt, w1)
      else _wait_confirmation_loop dev (snd (print dev PWrongConfirmation w1))
  | (Raise e, w1) => (Raise e, w1)
  end.
Proof.
  funelim (_wait_confirmation_loop dev w).
  all: try match goal with H : input _ _ = _ |- _ => rewrite H end;
    reflexivity.
Qed.

Lemma stdin_after_input dev w line w1 :
  input dev w = (Ok line, w1) -> stdin w = line :: stdin w1.
Proof.
  unfold input. destruct (stdin w) as [|l rest]; [discriminate|].
  intro H; inversion H; subst. reflexivity.
Qed.

(** ** A logic of runs

    [sat Q m] says that every run of [m] only appends to the trace, and that
    the outcome of the run ([None] when it returns, the exception when it
    raises) and the events it appends are related by [Q].  The rules below
    hold for every [Q] that is closed under sequencing; the events a step
    may append are those that [allowed] accepts. *)

Definition outcome {A} (r : Result A) : option Exn :=
  match r with Ok _ => None | Raise e => Some e end.

Definition is_raise (ev : Event) : bool :=
  match ev with EvRaise _ => true | _ => false end.


(** *** Alphabets

    For each procedure, a superset of the events its runs append.  Sleeps,
    lines read from the console and the exceptions of a failed request or
    an exhausted input are in every alphabet. *)

Definition harmless (ev : Event) : bool :=
  match ev with
  | EvSleep _ | EvInput _ => true
  | EvRaise (TypeError | IndexError | ValueError | EOFError) => true
  | _ => false
  end.

(** Requests for the input (holding) registers at one of the addresses. *)
Definition read_in (addresses : list Z) (ev : Event) : bool :=
  match ev with
  | EvReadInput a _ _ => existsb (Z.eqb a) addresses
  | _ => false
  end.

Definition read_hold (addresses : list Z) (ev : Event) : bool :=
  match ev with
  | EvReadHolding a _ _ => existsb (Z.eqb a) addresses
  | _ => false
  end.

Definition alpha_read_in (address : Z) (ev : Event) : bool :=
  harmless ev || read_in [address] ev.

Definition alpha_read_hold (address : Z) (ev : Event) : bool :=
  harmless ev || read_hold [address] ev.

Definition printed (p : Msg -> bool) (ev : Event) : bool :=
  match ev with EvPrint m => p m | _ => false end.

Definition raised (p : Exn -> bool) (ev : Event) : bool :=
  match ev with EvRaise e => p e | _ => false end.

Definition written (p : Z -> Z -> bool) (ev : Event) : bool :=
  match ev with EvWrite a v => p a v | _ => false end.

Definition prompt_code (p : Prompt) : Z :=
  match p with
  | PromptStart => 0
  | PromptDrainToHigh => 1
  | PromptDraining => 2
  | PromptConnectWaterPipe => 3
  | PromptWaterRefill => 4
  | PromptPrepareElectrolyte true => 5
  | PromptPrepareElectrolyte false => 6
  | PromptWaterPipeProblems => 7
  | PromptMaintenanceOff => 8
  end.

Definition prompt_eqb (p q : Prompt) : bool := prompt_code p =? prompt_code q.

Definition alpha_warnings (ev : Event) : bool :=
  alpha_read_in Inputs.WARNINGS ev
  || printed (fun m => match m with
                       | PCheckingWarnings | POtherWarnings _ | PNoWarnings =>
                           true
                       | _ => false
                       end) ev
  || raised (fun e => match e with
                      | MaintenanceModeException (RefillingWarnings _) => true
                      | _ => false
                      end) ev.

Definition alpha_state (ev : Event) : bool :=
  alpha_read_in Inputs.STATE ev
  || printed (fun m => match m with PStateDetected _ => true | _ => false end)
       ev.

Definition alpha_level (ev : Event) : bool :=
  harmless ev
  || read_in [Inputs.LSL102D_IN; Inputs.LSM102C_IN; Inputs.LSH102B_IN;
              Inputs.LSHH102A_IN] ev
  || printed (fun m => match m with PLevelDetected _ => true | _ => false end)
       ev
  || raised (fun e => match e with
                      | MaintenanceModeException (SwitchGap _ _) => true
                      | _ => false
                      end) ev.

Definition alpha_wait_level (expected : ElectrolyteLevel.t) (ev : Event)
    : bool :=
  alpha_level ev
  || raised (fun e => match e with
                      | HighElectrolyteLevelException x _
                      | MaintenanceModeException (FailedWaitLevel x _) =>
                          ElectrolyteLevel.eqb x expected
                      | _ => false
                      end) ev.

Definition alpha_wait_state (expected : RefillingState.t) (ev : Event)
    : bool :=
  alpha_read_in Inputs.REFILLING_STATE ev
  || raised (fun e => match e with
                      | MaintenanceModeException (FailedWaitState x _) =>
                          RefillingState.eqb x expected
                      | _ => false
                      end) ev.

Definition alpha_confirm (prompt : Prompt) (ev : Event) : bool :=
  harmless ev
  || printed (fun m => match m with
                       | PPrompt p => prompt_eqb p prompt
                       | PWrongConfirmation => true
                       | _ => false
                       end) ev.

Definition alpha_write (address : Z) (ev : Event) : bool :=
  harmless ev || written (fun a _ => a =? address) ev.

Definition alpha_check_state (expected : RefillingState.t) (ev : Event)
    : bool :=
  alpha_read_in Inputs.REFILLING_STATE ev
  || printed (fun m => match m with
                       | PCheckingRefillingState => true
                       | PDetectedExpected s => RefillingState.eqb s expected
                       | _ => false
                       end) ev
  || raised (fun e => match e with
                      | MaintenanceModeException (WrongRefillingState s _) =>
                          RefillingState.eqb s expected
                      | _ => false
                      end) ev.

Definition alpha_flushing_on (ev : Event) : bool :=
  alpha_write Holdings.FLUSHING ev
  || printed (fun m => match m with
                       | PTurningFlushingOn | PTurnedFlushingOn => true
                       | _ => false
                       end) ev.

Definition alpha_maintenance_on (ev : Event) : bool :=
  alpha_write Holdings.MAINTENANCE ev
  || alpha_state ev
  || printed (fun m => match m with
                       | PTurningMaintenanceOn | PTurnedMaintenanceOn
                       | PMaintenanceAlreadyOn => true
                       | _ => false
                       end) ev
  || raised (fun e => match e with
                      | MaintenanceModeException
                          (GotState _ State.MAINTENANCE_MODE) => true
                      | _ => false
                      end) ev.

Definition alpha_maintenance_off (ev : Event) : bool :=
  alpha_write Holdings.MAINTENANCE ev
  || alpha_state ev
  || printed (fun m => match m with
                       | PTurningMaintenanceOff | PTurnedMaintenanceOff =>
                           true
                       | _ => false
                       end) ev
  || raised (fun e => match e with
                      | MaintenanceModeException (GotState _ State.IDLE) =>
                          true
                      | _ => false
                      end) ev.

Definition alpha_handle_very_high (ev : Event) : bool :=
  alpha_level ev
  || printed (fun m => match m with PDetectedVeryHigh => true | _ => false end)
       ev
  || alpha_confirm PromptDrainToHigh ev
  || alpha_wait_level ElectrolyteLevel.HIGH ev
  || raised (fun e => match e with
                      | MaintenanceModeException ContactSupport => true
                      | _ => false
                      end) ev.

Definition alpha_draining (ev : Event) : bool :=
  alpha_check_state RefillingState.DRAINING ev
  || printed (fun m => match m with PBannerDraining => true | _ => false end)
       ev
  || alpha_confirm PromptDraining ev
  || alpha_wait_level ElectrolyteLevel.EMPTY ev.

Definition alpha_pipe (expect_no_electrolyte : bool) (attempts : Z)
    (ev : Event) : bool :=
  alpha_read_in Inputs.PT105_IN_BAR ev
  || read_hold [Holdings.REFILLING_MINWATERPPESSURE_BAR;
                Holdings.REFILLING_MAXWATERPPESSURE_BAR] ev
  || printed (fun m => match m with
                       | PCheckingPressure | PPressureOk
                       | PPressureNotInBounds _ _ _ => true
                       | _ => false
                       end) ev
  || alpha_confirm PromptWaterPipeProblems ev
  || raised (fun e => match e with
                      | WaterPipeException a => a =? attempts
                      | _ => false
                      end) ev
  || (expect_no_electrolyte
      && (printed (fun m => match m with
                            | PRecheckingElectrolyte | PElectrolyteOk
                            | PElectrolytePresence => true
                            | _ => false
                            end) ev
          || alpha_level ev
          || alpha_draining ev
          || alpha_check_state RefillingState.WAIT_FLUSHING ev)).

Definition alpha_flushing (ev : Event) : bool :=
  printed (fun m => match m with
                    | PBannerFlushing | PWaitingMixed => true
                    | _ => false
                    end) ev
  || alpha_check_state RefillingState.WAIT_FLUSHING ev
  || alpha_confirm PromptConnectWaterPipe ev
  || alpha_pipe true MAX_WATER_PIPE_CONNECT_ATTEMPTS ev
  || alpha_confirm PromptWaterRefill ev
  || alpha_flushing_on ev
  || alpha_wait_level ElectrolyteLevel.HIGH ev
  || alpha_warnings ev
  || alpha_read_hold Holdings.REFILLING_MIXINGTIME_MS ev
  || alpha_wait_state RefillingState.DRAINING ev
  || alpha_draining ev.

Definition alpha_finish (ev : Event) : bool :=
  alpha_check_state RefillingState.SERVICE_REFILLING ev
  || alpha_wait_level ElectrolyteLevel.HIGH ev
  || printed (fun m => match m with PWaitingMixed => true | _ => false end) ev
  || alpha_read_hold Holdings.REFILLING_MIXINGTIME_MS ev
  || alpha_wait_state RefillingState.IDLE ev
  || alpha_warnings ev
  || alpha_check_state RefillingState.IDLE ev.

Definition includes (alpha allowed : Event -> bool) : Prop :=
  forall ev, alpha ev = true -> allowed ev = true.

Lemma prompt_eqb_refl p : prompt_eqb p p = true.
Proof. apply Z.eqb_refl. Qed.

Lemma level_eqb_refl a : ElectrolyteLevel.eqb a a = true.
Proof. apply Z.eqb_refl. Qed.

Lemma refilling_eqb_refl a : RefillingState.eqb a a = true.
Proof. apply Z.eqb_refl. Qed.

(** An event of the alphabet is allowed. *)
Ltac alphabets :=
  unfold alpha_flushing, alpha_finish, alpha_pipe, alpha_draining,
    alpha_handle_very_high, alpha_maintenance_on, alpha_maintenance_off,
    alpha_flushing_on, alpha_check_state, alpha_write, alpha_confirm,
    alpha_wait_state, alpha_wait_level, alpha_level, alpha_state,
    alpha_warnings, alpha_read_in, alpha_read_hold,
    is_WaterPipeException in *.

Ltac booleans :=
  repeat match goal with
         | H : (_ || _) = true |- _ => apply orb_prop in H; destruct H
         | H : (_ && _) = true |- _ => apply andb_prop in H; destruct H
         end;
  try discriminate;
  repeat match goal with
         | H : true = true |- _ => clear H
         | H : ?x = true |- _ => rewrite H; clear H
         end;
  cbn [orb andb]; rewrite ?orb_true_r, ?andb_true_r; try reflexivity.

(** An event of the alphabet is allowed. *)
Ltac allow H :=
  apply H; alphabets;
  cbn [harmless printed raised written read_in read_hold existsb orb andb
       negb];
  rewrite ?refilling_eqb_refl, ?level_eqb_refl, ?prompt_eqb_refl,
    ?Z.eqb_refl, ?orb_true_r, ?orb_false_r;
  first [reflexivity | assumption].

(** The alphabet of a callee is part of the alphabet of the caller. *)
Ltac part H :=
  let ev := fresh "ev" in
  let Hev := fresh "Hev" in
  let m := fresh "m" in
  let e := fresh "e" in
  let msg := fresh "msg" in
  intros ev Hev; apply H; alphabets;
  destruct ev as [? ? ?|? ? ?|? ?|?|m|?|e];
  [ | | | |destruct m| |destruct e as [msg|?|? ?| | | | | |?];
                        [destruct msg|..]];
  cbn [harmless printed raised written read_in read_hold existsb orb andb
       negb] in *;
  solve [booleans].

(** What the rules ask of [Q]. *)
Record closed (Q : option Exn -> list Event -> Prop)
    (allowed : Event -> bool) : Prop := {
  closed_nil : Q None [];
  closed_seq :
    forall evs1 o evs2, Q None evs1 -> Q o evs2 -> Q o (evs1 ++ evs2);
  closed_event :
    forall ev, allowed ev = true -> is_raise ev = false -> Q None [ev];
  closed_raise :
    forall e, allowed (EvRaise e) = true -> Q (Some e) [EvRaise e]
}.
Arguments closed_nil {Q allowed}.
Arguments closed_seq {Q allowed}.
Arguments closed_event {Q allowed}.
Arguments closed_raise {Q allowed}.

Section Sat.

Variable dev : Device.
Variable Q : option Exn -> list Event -> Prop.
Variable allowed : Event -> bool.

Hypothesis HQ : closed Q allowed.

Let Q_nil := closed_nil HQ.
Let Q_seq := closed_seq HQ.
Let Q_event := closed_event HQ.
Let Q_raise := closed_raise HQ.

Definition sat {A} (m : M A) : Prop :=
  forall w, exists evs,
    trace (snd (m w)) = trace w ++ evs /\ Q (outcome (fst (m w))) evs.

Lemma sat_ret {A} (a : A) : sat (ret a).
Proof. intro w. exists []. simpl. rewrite app_nil_r. auto. Qed.

Lemma sat_bind {A B} (m : M A) (f : A -> M B) :
  sat m -> (forall a, sat (f a)) -> sat (bind m f).
Proof.
  intros Hm Hf w. unfold bind. destruct (Hm w) as (evs1 & Ht1 & Hq1).
  destruct (m w) as [[a|e] w1]; cbn [fst snd outcome] in *.
  - destruct (Hf a w1) as (evs2 & Ht2 & Hq2).
    exists (evs1 ++ evs2). rewrite Ht2, Ht1, app_assoc. auto.
  - exists evs1. auto.
Qed.

Lemma sat_emit {A} (a : A) ev :
  allowed ev = true -> is_raise ev = false ->
  sat (fun w => (Ok a, emit dev ev w)).
Proof. intros Ha Hr w. exists [ev]. simpl. auto. Qed.

Lemma sat_throw {A} e : allowed (EvRaise e) = true -> sat (@throw dev A e).
Proof. intros Ha w. exists [EvRaise e]. simpl. auto. Qed.

Lemma sat_print m : allowed (EvPrint m) = true -> sat (print dev m).
Proof. intro Ha. apply sat_emit; auto. Qed.

Lemma sat_when c m : sat m -> sat (when c m).
Proof. destruct c; simpl; [trivial|intros _; apply sat_ret]. Qed.

Lemma sat_if {A} (c : bool) (m1 m2 : M A) :
  sat m1 -> sat m2 -> sat (if c then m1 else m2).
Proof. destruct c; trivial. Qed.

Lemma sat_read_input address count :
  includes (alpha_read_in address) allowed ->
  sat (_read_input_registers dev address count).
Proof.
  intros H w. eexists [_]. split; [reflexivity|].
  apply Q_event; [allow H|reflexivity].
Qed.

Lemma sat_read_holding address count :
  includes (alpha_read_hold address) allowed ->
  sat (_read_holding_registers dev address count).
Proof.
  intros H w. eexists [_]. split; [reflexivity|].
  apply Q_event; [allow H|reflexivity].
Qed.

Lemma sat_subscript response i :
  includes harmless allowed -> sat (subscript dev response i).
Proof.
  intro H. unfold subscript. destruct response as [l|].
  - destruct (nth_error l i); [apply sat_ret|apply sat_throw; allow H].
  - apply sat_throw; allow H.
Qed.

Lemma sat_word_list_to_long response :
  includes harmless allowed -> sat (word_list_to_long dev response).
Proof.
  intro H. destruct response; [apply sat_ret|apply sat_throw; allow H].
Qed.

Lemma sat_level_of v : includes harmless allowed -> sat (level_of dev v).
Proof.
  intro H. unfold level_of.
  destruct (ElectrolyteLevel.of_value v);
    [apply sat_ret|apply sat_throw; allow H].
Qed.

Lemma sat_time_sleep seconds :
  includes harmless allowed -> sat (time_sleep dev seconds).
Proof.
  intros H w. exists [EvSleep seconds]. split; [reflexivity|].
  apply Q_event; [allow H|reflexivity].
Qed.

Lemma sat_time_time : sat time_time.
Proof. intro w. exists []. simpl. rewrite app_nil_r. auto. Qed.

Lemma sat_input : includes harmless allowed -> sat (input dev).
Proof.
  intros H w. unfold input. destruct (stdin w) as [|line rest].
  - exists [EvInput None; EvRaise EOFError]. split.
    + unfold throw; simpl. rewrite ?trace_emit, <- ?app_assoc. reflexivity.
    + apply (Q_seq [EvInput None] (Some EOFError) [EvRaise EOFError]).
      * apply Q_event; [allow H|reflexivity].
      * apply Q_raise; allow H.
  - exists [EvInput (Some line)]. split; [reflexivity|].
    apply Q_event; [allow H|reflexivity].
Qed.

Lemma sat_write_single_register address value :
  includes (alpha_write address) allowed ->
  sat (_write_single_register dev address value).
Proof.
  intro H. unfold _write_single_register. apply sat_bind.
  - apply sat_emit; [allow H|reflexivity].
  - intros _. apply sat_time_sleep. part H.
Qed.

(** *** The procedures without handlers *)

Lemma sat_decode_events register event_type :
  includes (alpha_read_in register) allowed ->
  sat (_decode_events dev register event_type).
Proof.
  intro H. unfold _decode_events.
  apply sat_bind; [apply sat_read_input; exact H|intro raw].
  apply sat_bind; [apply sat_subscript; part H|intro count].
  apply sat_if; apply sat_ret.
Qed.

Lemma sat_check_refilling_warnings :
  includes alpha_warnings allowed -> sat (_check_refilling_warnings dev).
Proof.
  intro H. unfold _check_refilling_warnings.
  apply sat_bind; [apply sat_print; allow H|intros _].
  apply sat_bind; [apply sat_decode_events; part H|intro active].
  destruct active; [apply sat_print; allow H|].
  apply sat_if; [apply sat_throw|apply sat_print]; allow H.
Qed.

Lemma sat_actual_state : includes alpha_state allowed -> sat (_actual_state dev).
Proof.
  intro H. unfold _actual_state.
  apply sat_bind; [apply sat_read_input; part H|intro response].
  apply sat_bind; [apply sat_subscript; part H|intro raw].
  apply sat_bind; [apply sat_print; allow H|intros _]. apply sat_ret.
Qed.

Lemma sat_actual_refilling_state :
  includes (alpha_read_in Inputs.REFILLING_STATE) allowed ->
  sat (_actual_refilling_state dev).
Proof.
  intro H. unfold _actual_refilling_state.
  apply sat_bind; [apply sat_read_input; exact H|intro response].
  apply sat_bind; [apply sat_subscript; part H|intro raw]. apply sat_ret.
Qed.

Lemma sat_actual_water_inlet_pressure :
  includes (alpha_read_in Inputs.PT105_IN_BAR) allowed ->
  sat (_actual_water_inlet_pressure dev).
Proof.
  intro H. unfold _actual_water_inlet_pressure.
  apply sat_bind; [apply sat_read_input; exact H|intro response].
  apply sat_bind; [apply sat_word_list_to_long; part H|intro longs].
  apply sat_bind; [apply sat_subscript; part H|intro raw]. apply sat_ret.
Qed.

Lemma sat_actual_refilling_mixing_time :
  includes (alpha_read_hold Holdings.REFILLING_MIXINGTIME_MS) allowed ->
  sat (_actual_refilling_mixing_time dev).
Proof.
  intro H. unfold _actual_refilling_mixing_time.
  apply sat_bind; [apply sat_read_holding; exact H|intro response].
  apply sat_bind; [apply sat_word_list_to_long; part H|intro longs].
  apply sat_bind; [apply sat_subscript; part H|intro raw]. apply sat_ret.
Qed.

Lemma sat_actual_refilling_min_water_pressure :
  includes (alpha_read_hold Holdings.REFILLING_MINWATERPPESSURE_BAR) allowed ->
  sat (_actual_refilling_min_water_pressure dev).
Proof.
  intro H. unfold _actual_refilling_min_water_pressure.
  apply sat_bind; [apply sat_read_holding; exact H|intro response].
  apply sat_bind; [apply sat_word_list_to_long; part H|intro longs].
  apply sat_bind; [apply sat_subscript; part H|intro raw]. apply sat_ret.
Qed.

Lemma sat_actual_refilling_max_water_pressure :
  includes (alpha_read_hold Holdings.REFILLING_MAXWATERPPESSURE_BAR) allowed ->
  sat (_actual_refilling_max_water_pressure dev).
Proof.
  intro H. unfold _actual_refilling_max_water_pressure.
  apply sat_bind; [apply sat_read_holding; exact H|intro response].
  apply sat_bind; [apply sat_word_list_to_long; part H|intro longs].
  apply sat_bind; [apply sat_subscript; part H|intro raw]. apply sat_ret.
Qed.

Lemma sat_switch address :
  includes (alpha_read_in address) allowed ->
  sat (response <- _read_input_registers dev address 1 ;;
       raw <- subscript dev response 0 ;; ret (truth raw)).
Proof.
  intro H.
  apply sat_bind; [apply sat_read_input; exact H|intro response].
  apply sat_bind; [apply sat_subscript; part H|intro raw]. apply sat_ret.
Qed.

Lemma sat_electrolyte_level logging :
  includes alpha_level allowed -> sat (_electrolyte_level dev logging).
Proof.
  intro H. assert (Hh : includes harmless allowed) by part H.
  unfold _electrolyte_level, _low_level_switch, _medium_level_switch,
    _high_level_switch, _very_high_level_switch.
  apply sat_bind; [apply sat_switch; part H|intro low].
  apply sat_bind; [apply sat_switch; part H|intro medium].
  apply sat_bind; [apply sat_switch; part H|intro high].
  apply sat_bind; [apply sat_switch; part H|intro very_high].
  apply sat_bind; [apply sat_level_of; exact Hh|intro level].
  apply sat_if.
  - apply sat_bind; [apply sat_level_of; exact Hh|intro below].
    apply sat_throw; allow H.
  - apply sat_bind; [|intros _; apply sat_ret].
    apply sat_when. apply sat_print; allow H.
Qed.

Lemma sat_wait_electrolyte_level_loop expected timeout refilling wait_until :
  includes (alpha_wait_level expected) allowed ->
  sat (_wait_electrolyte_level_loop dev expected timeout refilling wait_until).
Proof.
  intros H w.
  remember (sleeps_left wait_until w) as n eqn:Hn. revert w Hn.
  induction n as [n IH] using lt_wf_ind. intros w Hn. subst n.
  rewrite wait_level_loop_unfold.
  destruct (clock w <? wait_until) eqn:Hbefore;
    [|apply sat_throw; allow H].
  apply Z.ltb_lt in Hbefore.
  pose proof (sleeps_left_after_level dev true wait_until w Hbefore) as Hdec.
  assert (Hl : includes alpha_level allowed) by part H.
  destruct (sat_electrolyte_level true Hl w) as (evs1 & Ht1 & Hq1).
  destruct (_electrolyte_level dev true w) as [[level|e] w1];
    cbn [fst snd outcome] in *; [|exists evs1; auto].
  destruct (ElectrolyteLevel.eqb level expected) eqn:Heq;
    [exists evs1; auto|].
  destruct (refilling
            && (ElectrolyteLevel.value level
                >? ElectrolyteLevel.value expected)).
  - exists (evs1 ++ [EvRaise (HighElectrolyteLevelException expected level)]).
    split.
    + unfold throw; cbn [fst snd]. rewrite trace_emit, Ht1, app_assoc.
      reflexivity.
    + apply Q_seq; [exact Hq1|]. apply Q_raise; allow H.
  - destruct (IH _ Hdec _ eq_refl) as (evs2 & Ht2 & Hq2).
    exists (evs1 ++ [EvSleep ELECTROLYTE_PRESENCE_CHECK_TIMEOUT] ++ evs2).
    split.
    + rewrite Ht2, trace_time_sleep, Ht1, <- !app_assoc. reflexivity.
    + apply Q_seq; [exact Hq1|]. apply Q_seq; [|exact Hq2].
      apply Q_event; [allow H|reflexivity].
Qed.

Lemma sat_wait_electrolyte_level expected timeout refilling :
  includes (alpha_wait_level expected) allowed ->
  sat (_wait_electrolyte_level dev expected timeout refilling).
Proof.
  intro H. unfold _wait_electrolyte_level.
  apply sat_bind; [apply sat_time_time|intro now].
  apply sat_wait_electrolyte_level_loop; exact H.
Qed.

Lemma sat_wait_refilling_state_loop expected timeout wait_until :
  includes (alpha_wait_state expected) allowed ->
  sat (_wait_refilling_state_loop dev expected timeout wait_until).
Proof.
  intros H w.
  remember (sleeps_left wait_until w) as n eqn:Hn. revert w Hn.
  induction n as [n IH] using lt_wf_ind. intros w Hn. subst n.
  rewrite wait_state_loop_unfold.
  destruct (clock w <? wait_until) eqn:Hbefore;
    [|apply sat_throw; allow H].
  apply Z.ltb_lt in Hbefore.
  pose proof (sleeps_left_after_state dev wait_until w Hbefore) as Hdec.
  assert (Hh : includes (alpha_read_in Inputs.REFILLING_STATE) allowed)
    by part H.
  destruct (sat_actual_refilling_state Hh w) as (evs1 & Ht1 & Hq1).
  destruct (_actual_refilling_state dev w) as [[actual|e] w1];
    cbn [fst snd outcome] in *; [|exists evs1; auto].
  destruct (RefillingState.eqb actual expected) eqn:Heq;
    [exists evs1; auto|].
  destruct (IH _ Hdec _ eq_refl) as (evs2 & Ht2 & Hq2).
  exists (evs1 ++ [EvSleep REFILLING_STATE_CHECK_TIMEOUT] ++ evs2).
  split.
  - rewrite Ht2, trace_time_sleep, Ht1, <- !app_assoc. reflexivity.
  - apply Q_seq; [exact Hq1|]. apply Q_seq; [|exact Hq2].
    apply Q_event; [allow H|reflexivity].
Qed.

Lemma sat_wait_refilling_state expected timeout :
  includes (alpha_wait_state expected) allowed ->
  sat (_wait_refilling_state dev expected timeout).
Proof.
  intro H. unfold _wait_refilling_state.
  apply sat_bind; [apply sat_time_time|intro now].
  apply sat_wait_refilling_state_loop; exact H.
Qed.

Lemma sat_wait_confirmation_loop prompt :
  includes (alpha_confirm prompt) allowed ->
  sat (_wait_confirmation_loop dev).
Proof.
  intros H w.
  remember (List.length (stdin w)) as n eqn:Hn. revert w Hn.
  induction n as [n IH] using lt_wf_ind. intros w Hn. subst n.
  rewrite wait_confirmation_loop_unfold.
  assert (Hh : includes harmless allowed) by part H.
  destruct (sat_input Hh w) as (evs1 & Ht1 & Hq1).
  destruct (input dev w) as [[line|e] w1] eqn:Hin;
    cbn [fst snd outcome] in *; [|exists evs1; auto].
  destruct (String.eqb (upper line) INPUT_CONFIRMATION);
    [exists evs1; auto|].
  apply stdin_after_input in Hin.
  assert (Hdec : (List.length (stdin (snd (print dev PWrongConfirmation w1)))
                  < List.length (stdin w))%nat)
    by (rewrite Hin; simpl; lia).
  destruct (IH _ Hdec _ eq_refl) as (evs2 & Ht2 & Hq2).
  exists (evs1 ++ [EvPrint PWrongConfirmation] ++ evs2). split.
  - rewrite Ht2. cbn [snd print]. rewrite trace_emit, Ht1, <- !app_assoc.
    reflexivity.
  - apply Q_seq; [exact Hq1|]. apply Q_seq; [|exact Hq2].
    apply Q_event; [allow H|reflexivity].
Qed.

Lemma sat_wait_confirmation prompt :
  includes (alpha_confirm prompt) allowed ->
  sat (_wait_confirmation dev prompt).
Proof.
  intro H. unfold _wait_confirmation.
  apply sat_bind; [apply sat_print; allow H|intros _].
  apply (sat_wait_confirmation_loop prompt H).
Qed.

Lemma sat_flushing_on : includes alpha_flushing_on allowed -> sat (_flushing_on dev).
Proof.
  intro H. unfold _flushing_on, _toggle_flushing.
  apply sat_bind; [apply sat_print; allow H|intros _].
  apply sat_bind; [apply sat_write_single_register; part H|intros _].
  apply sat_print; allow H.
Qed.

Lemma sat_maintenance_on initial_state :
  includes alpha_maintenance_on allowed ->
  sat (_maintenance_on dev initial_state).
Proof.
  intro H. unfold _maintenance_on, _toggle_maintenance.
  apply sat_if; [|apply sat_print; allow H].
  apply sat_bind; [apply sat_print; allow H|intros _].
  apply sat_bind; [apply sat_write_single_register; part H|intros _].
  apply sat_bind; [apply sat_actual_state; part H|intro state].
  apply sat_if; [apply sat_throw|apply sat_print]; allow H.
Qed.

Lemma sat_maintenance_off :
  includes alpha_maintenance_off allowed -> sat (_maintenance_off dev).
Proof.
  intro H. unfold _maintenance_off, _toggle_maintenance.
  apply sat_bind; [apply sat_print; allow H|intros _].
  apply sat_bind; [apply sat_write_single_register; part H|intros _].
  apply sat_bind; [apply sat_actual_state; part H|intro state].
  apply sat_if; [apply sat_throw|apply sat_print]; allow H.
Qed.

Lemma sat_check_refilling_state expected :
  includes (alpha_check_state expected) allowed ->
  sat (_check_refilling_state dev expected).
Proof.
  intro H. unfold _check_refilling_state.
  apply sat_bind; [apply sat_print; allow H|intros _].
  apply sat_bind; [apply sat_actual_refilling_state; part H|intro actual].
  destruct (RefillingState.eqb actual expected) eqn:Heq; cbn [negb].
  - apply sat_print; allow H.
  - apply sat_throw; allow H.
Qed.

Lemma sat_handle_very_high_electrolyte_level el_21 :
  includes alpha_handle_very_high allowed ->
  sat (_handle_very_high_electrolyte_level dev el_21).
Proof.
  intro H. unfold _handle_very_high_electrolyte_level.
  apply sat_bind; [apply sat_electrolyte_level; part H|intro level].
  apply sat_if; [|apply sat_ret].
  apply sat_bind; [apply sat_print; allow H|intros _].
  apply sat_if; [|apply sat_throw; allow H].
  apply sat_bind; [apply sat_wait_confirmation; part H|intros _].
  apply sat_wait_electrolyte_level; part H.
Qed.

Lemma sat_perform_draining :
  includes alpha_draining allowed -> sat (_perform_draining dev).
Proof.
  intro H. unfold _perform_draining.
  apply sat_bind; [apply sat_check_refilling_state; part H|intros _].
  apply sat_bind; [apply sat_print; allow H|intros _].
  apply sat_bind; [apply sat_wait_confirmation; part H|intros _].
  apply sat_wait_electrolyte_level; part H.
Qed.

Lemma sat_check_water_pipe_connection_loop attempts_left expect attempts
    min_pressure max_pressure pressure_ok electrolyte_ok :
  includes (alpha_pipe expect attempts) allowed ->
  sat (_check_water_pipe_connection_loop dev attempts_left expect attempts
         min_pressure max_pressure pressure_ok electrolyte_ok).
Proof.
  intro H. revert pressure_ok electrolyte_ok.
  induction attempts_left as [|n IH]; intros pressure_ok electrolyte_ok;
    cbn [_check_water_pipe_connection_loop].
  - apply sat_throw; allow H.
  - apply sat_bind; [apply sat_print; allow H|intros _].
    apply sat_bind; [apply sat_actual_water_inlet_pressure; part H|intro p].
    apply sat_bind.
    { apply sat_if;
        (apply sat_bind; [apply sat_print; allow H|intros _; apply sat_ret]). }
    intro pok. apply sat_bind.
    { destruct expect; [|apply sat_ret].
      apply sat_bind; [apply sat_print; allow H|intros _].
      apply sat_bind; [apply sat_electrolyte_level; part H|intro level].
      apply sat_if.
      - apply sat_bind; [apply sat_print; allow H|intros _; apply sat_ret].
      - apply sat_bind; [apply sat_print; allow H|intros _].
        apply sat_bind; [apply sat_perform_draining; part H|intros _].
        apply sat_bind; [apply sat_check_refilling_state; part H|intros _].
        apply sat_ret. }
    intro eok. apply sat_if; [apply sat_ret|].
    apply sat_bind; [apply sat_wait_confirmation; part H|intros _].
    apply IH.
Qed.

Lemma sat_check_water_pipe_connection expect attempts :
  includes (alpha_pipe expect attempts) allowed ->
  sat (_check_water_pipe_connection dev expect attempts).
Proof.
  intro H. unfold _check_water_pipe_connection.
  apply sat_bind;
    [apply sat_actual_refilling_min_water_pressure; part H|intro lo].
  apply sat_bind;
    [apply sat_actual_refilling_max_water_pressure; part H|intro hi].
  apply sat_check_water_pipe_connection_loop; exact H.
Qed.

Lemma sat_perform_flushing :
  includes alpha_flushing allowed -> sat (_perform_flushing dev).
Proof.
  intro H. unfold _perform_flushing.
  apply sat_bind; [apply sat_print; allow H|intros _].
  apply sat_bind; [apply sat_check_refilling_state; part H|intros _].
  apply sat_bind; [apply sat_wait_confirmation; part H|intros _].
  apply sat_bind; [apply sat_check_water_pipe_connection; part H|intros _].
  apply sat_bind; [apply sat_wait_confirmation; part H|intros _].
  apply sat_bind; [apply sat_flushing_on; part H|intros _].
  apply sat_bind; [apply sat_wait_electrolyte_level; part H|intros _].
  apply sat_bind; [apply sat_check_refilling_warnings; part H|intros _].
  apply sat_bind; [apply sat_print; allow H|intros _].
  apply sat_bind; [apply sat_actual_refilling_mixing_time; part H|intro t].
  apply sat_bind; [apply sat_wait_refilling_state; part H|intros _].
  apply sat_perform_draining; part H.
Qed.

Lemma sat_finish_refilling :
  includes alpha_finish allowed -> sat (_finish_refilling dev).
Proof.
  intro H. unfold _finish_refilling.
  apply sat_bind; [apply sat_check_refilling_state; part H|intros _].
  apply sat_bind; [apply sat_wait_electrolyte_level; part H|intros _].
  apply sat_bind; [apply sat_print; allow H|intros _].
  apply sat_bind; [apply sat_actual_refilling_mixing_time; part H|intro t].
  apply sat_bind; [apply sat_wait_refilling_state; part H|intros _].
  apply sat_bind; [apply sat_check_refilling_warnings; part H|intros _].
  apply sat_check_refilling_state; part H.
Qed.

End Sat.

(** *** The procedures with handlers

    The suite a handler protects is judged by [Qb], the procedure around it
    by [Q]. *)

Definition refill_to_level (el_21 : bool) : ElectrolyteLevel.t :=
  if el_21 then ElectrolyteLevel.HIGH else ElectrolyteLevel.MEDIUM.

Definition alpha_refilling (el_21 : bool) (ev : Event) : bool :=
  alpha_check_state RefillingState.MAINTENANCE ev
  || printed (fun m => match m with
                       | PBannerRefilling | PHigherThanLow => true
                       | POverfillWarning => negb el_21
                       | PRaiseBag level | PWaitingForLevel level =>
                           ElectrolyteLevel.eqb level ElectrolyteLevel.LOW
                           || ElectrolyteLevel.eqb level
                                (refill_to_level el_21)
                       | _ => false
                       end) ev
  || alpha_confirm (PromptPrepareElectrolyte el_21) ev
  || alpha_wait_level ElectrolyteLevel.LOW ev
  || alpha_handle_very_high ev
  || alpha_check_state RefillingState.KOH_REFILLING ev
  || alpha_level ev
  || alpha_wait_level (refill_to_level el_21) ev
  || alpha_check_state RefillingState.KOH_REFILLING_FINISH ev.

Ltac alphabets ::=
  unfold alpha_refilling, alpha_flushing, alpha_finish, alpha_pipe,
    alpha_draining, alpha_handle_very_high, alpha_maintenance_on,
    alpha_maintenance_off, alpha_flushing_on, alpha_check_state, alpha_write,
    alpha_confirm, alpha_wait_state, alpha_wait_level, alpha_level,
    alpha_state, alpha_warnings, alpha_read_in, alpha_read_hold,
    is_WaterPipeException in *.

(** The run of a sequence. *)
Lemma bind_run {A B} (m : M A) (f : A -> M B) w :
  (x <- m ;; f x) w
  = match m w with
    | (Ok a, w1) => f a w1
    | (Raise e, w1) => (Raise e, w1)
    end.
Proof. unfold bind. destruct (m w) as [[?|?] ?]; reflexivity. Qed.

(** A sequence that returns has gone through both parts. *)
Lemma bind_ok {A B} (m : M A) (f : A -> M B) w b w' :
  (x <- m ;; f x) w = (Ok b, w') ->
  exists a w1, m w = (Ok a, w1) /\ f a w1 = (Ok b, w').
Proof.
  rewrite bind_run. destruct (m w) as [[a|e] w1]; [|discriminate].
  intro H. exists a, w1. split; [reflexivity|exact H].
Qed.

Lemma bind_assoc {A B C} (m : M A) (f : A -> M B) (g : B -> M C) w :
  (y <- (x <- m ;; f x) ;; g y) w = (x <- m ;; y <- f x ;; g y) w.
Proof. unfold bind. destruct (m w) as [[?|?] ?]; reflexivity. Qed.

Lemma sat_ext Q {A} (m m' : M A) :
  (forall w, m w = m' w) -> sat Q m -> sat Q m'.
Proof. intros H Hm w. rewrite <- H. apply Hm. Qed.

(** The steps of [_perform_refilling] between its banner and its last
    assertion. *)
Definition refilling_steps (dev : Device) (el_21 : bool) : M unit :=
  _wait_confirmation dev (PromptPrepareElectrolyte el_21) ;;
  print dev (PRaiseBag ElectrolyteLevel.LOW) ;;
  when (negb el_21) (print dev POverfillWarning) ;;
  print dev (PWaitingForLevel ElectrolyteLevel.LOW) ;;
  try_finally
    (try_except_else
       (_wait_electrolyte_level dev ElectrolyteLevel.LOW REFILLING_TIMEOUT
          true)
       is_HighElectrolyteLevelException
       (fun _ =>
          print dev PHigherThanLow ;;
          _handle_very_high_electrolyte_level dev el_21)
       (fun _ => _check_refilling_state dev RefillingState.KOH_REFILLING))
    (if el_21 then
       level <- _electrolyte_level dev true ;;
       when (ElectrolyteLevel.value level
             <? ElectrolyteLevel.value ElectrolyteLevel.HIGH)
         (_check_refilling_state dev RefillingState.KOH_REFILLING)
     else ret tt) ;;
  level <- _electrolyte_level dev true ;;
  when (ElectrolyteLevel.value level
        <? ElectrolyteLevel.value (refill_to_level el_21))
    (print dev (PRaiseBag (refill_to_level el_21)) ;;
     when (negb el_21) (print dev POverfillWarning) ;;
     print dev (PWaitingForLevel (refill_to_level el_21)) ;;
     try_except
       (_wait_electrolyte_level dev (refill_to_level el_21) REFILLING_TIMEOUT
          true)
       is_HighElectrolyteLevelException
       (fun _ => _handle_very_high_electrolyte_level dev el_21)).

(** Its two stages: the electrolyte is filled to LOW; then the level is
    read and, while it is below the target, the electrolyte is filled to the
    target. *)
Definition refill_to_low (dev : Device) (el_21 : bool) : M unit :=
  _wait_confirmation dev (PromptPrepareElectrolyte el_21) ;;
  print dev (PRaiseBag ElectrolyteLevel.LOW) ;;
  when (negb el_21) (print dev POverfillWarning) ;;
  print dev (PWaitingForLevel ElectrolyteLevel.LOW) ;;
  try_finally
    (try_except_else
       (_wait_electrolyte_level dev ElectrolyteLevel.LOW REFILLING_TIMEOUT
          true)
       is_HighElectrolyteLevelException
       (fun _ =>
          print dev PHigherThanLow ;;
          _handle_very_high_electrolyte_level dev el_21)
       (fun _ => _check_refilling_state dev RefillingState.KOH_REFILLING))
    (if el_21 then
       level <- _electrolyte_level dev true ;;
       when (ElectrolyteLevel.value level
             <? ElectrolyteLevel.value ElectrolyteLevel.HIGH)
         (_check_refilling_state dev RefillingState.KOH_REFILLING)
     else ret tt).

Definition refill_to_target (dev : Device) (el_21 : bool) : M unit :=
  level <- _electrolyte_level dev true ;;
  when (ElectrolyteLevel.value level
        <? ElectrolyteLevel.value (refill_to_level el_21))
    (print dev (PRaiseBag (refill_to_level el_21)) ;;
     when (negb el_21) (print dev POverfillWarning) ;;
     print dev (PWaitingForLevel (refill_to_level el_21)) ;;
     try_except
       (_wait_electrolyte_level dev (refill_to_level el_21) REFILLING_TIMEOUT
          true)
       is_HighElectrolyteLevelException
       (fun _ => _handle_very_high_electrolyte_level dev el_21)).

Ltac same_step :=
  match goal with
  | |- bind ?m ?f ?w = bind ?m ?g ?w =>
      rewrite (bind_run m f w), (bind_run m g w);
      destruct (m w) as [[?|?] ?]; [|reflexivity]
  end.

Ltac assoc_step :=
  match goal with
  | |- bind ?m ?f ?w = bind (bind ?m ?f') ?g ?w =>
      rewrite (bind_assoc m f' g w);
      rewrite (bind_run m f w), (bind_run m (fun x => bind (f' x) g) w);
      destruct (m w) as [[?|?] ?]; [|reflexivity]
  end.

Lemma perform_refilling_steps dev el_21 w :
  _perform_refilling dev el_21 w
  = (_check_refilling_state dev RefillingState.MAINTENANCE ;;
     print dev PBannerRefilling ;;
     refilling_steps dev el_21 ;;
     _check_refilling_state dev RefillingState.KOH_REFILLING_FINISH) w.
Proof.
  unfold _perform_refilling, refilling_steps. cbv zeta.
  fold (refill_to_level el_21).
  do 2 same_step. do 5 assoc_step. rewrite bind_assoc. reflexivity.
Qed.

Lemma refilling_steps_stages dev el_21 w :
  refilling_steps dev el_21 w
  = (refill_to_low dev el_21 ;; refill_to_target dev el_21) w.
Proof.
  unfold refilling_steps, refill_to_low, refill_to_target.
  do 3 assoc_step. rewrite bind_assoc. reflexivity.
Qed.

Definition caught (e : Exn) : bool :=
  is_HighElectrolyteLevelException e || is_WaterPipeException e.

Section Handlers.

Variable dev : Device.
Variables Qb Q : option Exn -> list Event -> Prop.
Variables allowed_b allowed : Event -> bool.

Hypothesis HQb : closed Qb allowed_b.
Hypothesis HQ : closed Q allowed.
Hypothesis Q_pass : forall o evs, Qb o evs -> Q o evs.
Hypothesis Q_catch :
  forall e evs1 o evs2,
    caught e = true -> Qb (Some e) evs1 -> Q o evs2 -> Q o (evs1 ++ evs2).
Hypothesis Q_finally :
  forall o1 evs1 o2 evs2,
    Q o1 evs1 -> Qb o2 evs2 ->
    Q (match o2 with Some e => Some e | None => o1 end) (evs1 ++ evs2).

Lemma sat_try_except_else {A B} (body : M A) (catches : Exn -> bool)
    (handler : Exn -> M B) (orelse : A -> M B) :
  (forall e, catches e = true -> caught e = true) ->
  sat Qb body -> (forall e, sat Q (handler e)) ->
  (forall a, sat Q (orelse a)) ->
  sat Q (try_except_else body catches handler orelse).
Proof.
  intros Hc Hb Hh Ho w. unfold try_except_else.
  destruct (Hb w) as (evs1 & Ht1 & Hq1).
  destruct (body w) as [[a|e] w1]; cbn [fst snd outcome] in *.
  - destruct (Ho a w1) as (evs2 & Ht2 & Hq2).
    exists (evs1 ++ evs2). rewrite Ht2, Ht1, app_assoc. split; [reflexivity|].
    apply (closed_seq HQ); auto.
  - destruct (catches e) eqn:Hce.
    + destruct (Hh e w1) as (evs2 & Ht2 & Hq2).
      exists (evs1 ++ evs2). rewrite Ht2, Ht1, app_assoc.
      split; [reflexivity|]. apply (Q_catch e); auto.
    + exists evs1. auto.
Qed.

Lemma sat_try_except {A} (body : M A) (catches : Exn -> bool)
    (handler : Exn -> M A) :
  (forall e, catches e = true -> caught e = true) ->
  sat Qb body -> (forall e, sat Q (handler e)) ->
  sat Q (try_except body catches handler).
Proof.
  intros Hc Hb Hh w. unfold try_except.
  destruct (Hb w) as (evs1 & Ht1 & Hq1).
  destruct (body w) as [[a|e] w1]; cbn [fst snd outcome] in *.
  - exists evs1. auto.
  - destruct (catches e) eqn:Hce.
    + destruct (Hh e w1) as (evs2 & Ht2 & Hq2).
      exists (evs1 ++ evs2). rewrite Ht2, Ht1, app_assoc.
      split; [reflexivity|]. apply (Q_catch e); auto.
    + exists evs1. auto.
Qed.

Lemma sat_try_finally {A} (body : M A) (finalbody : M unit) :
  sat Q body -> sat Qb finalbody -> sat Q (try_finally body finalbody).
Proof.
  intros Hb Hf w. unfold try_finally.
  destruct (Hb w) as (evs1 & Ht1 & Hq1).
  destruct (body w) as [r w1]; cbn [fst snd] in *.
  destruct (Hf w1) as (evs2 & Ht2 & Hq2).
  destruct (finalbody w1) as [[u|e] w2]; cbn [fst snd outcome] in *;
    exists (evs1 ++ evs2); rewrite Ht2, Ht1, app_assoc;
    (split; [reflexivity|]).
  - exact (Q_finally _ _ None _ Hq1 Hq2).
  - exact (Q_finally _ _ (Some e) _ Hq1 Hq2).
Qed.

Lemma high_caught e : is_HighElectrolyteLevelException e = true -> caught e = true.
Proof. unfold caught. intros ->. reflexivity. Qed.

Lemma water_pipe_caught e : is_WaterPipeException e = true -> caught e = true.
Proof. unfold caught. intros ->. apply orb_true_r. Qed.

Lemma sat_refill_to_low el_21 :
  includes (alpha_refilling el_21) allowed_b ->
  includes (alpha_refilling el_21) allowed ->
  sat Q (refill_to_low dev el_21).
Proof.
  intros Hb H. unfold refill_to_low.
  pose proof (@sat_bind Q allowed HQ) as bindQ.
  pose proof (@sat_bind Qb allowed_b HQb) as bindQb.
  pose proof (sat_print dev Q allowed HQ) as printQ.
  pose proof (sat_check_refilling_state dev Q allowed HQ) as checkQ.
  pose proof (sat_check_refilling_state dev Qb allowed_b HQb) as checkQb.
  pose proof (sat_electrolyte_level dev Qb allowed_b HQb) as levelQb.
  pose proof (sat_wait_electrolyte_level dev Qb allowed_b HQb) as waitQb.
  pose proof (sat_handle_very_high_electrolyte_level dev Q allowed HQ)
    as handleQ.
  pose proof (sat_wait_confirmation dev Q allowed HQ) as confirmQ.
  apply bindQ; [apply confirmQ; part H|intros _].
  apply bindQ; [apply printQ; allow H|intros _].
  apply bindQ; [|intros _].
  { destruct el_21; cbn [negb when]; [apply (@sat_ret Q allowed HQ)|].
    apply printQ. allow H. }
  apply bindQ; [apply printQ; allow H|intros _].
  apply sat_try_finally.
  - apply sat_try_except_else.
    + exact high_caught.
    + apply waitQb. part Hb.
    + intros _. apply bindQ; [apply printQ; allow H|intros _].
      apply handleQ. part H.
    + intros _. apply checkQ. part H.
  - apply sat_if; [|apply (@sat_ret Qb allowed_b HQb)].
    apply bindQb; [apply levelQb; part Hb|intro level].
    apply (sat_when Qb allowed_b HQb). apply checkQb. part Hb.
Qed.

Lemma sat_refill_to_target el_21 :
  includes (alpha_refilling el_21) allowed_b ->
  includes (alpha_refilling el_21) allowed ->
  sat Q (refill_to_target dev el_21).
Proof.
  intros Hb H. unfold refill_to_target.
  pose proof (@sat_bind Q allowed HQ) as bindQ.
  pose proof (sat_print dev Q allowed HQ) as printQ.
  apply bindQ;
    [apply (sat_electrolyte_level dev Q allowed HQ); part H|intro level].
  apply (sat_when Q allowed HQ).
  apply bindQ; [apply printQ; allow H|intros _].
  apply bindQ; [|intros _].
  { destruct el_21; cbn [negb when]; [apply (@sat_ret Q allowed HQ)|].
    apply printQ. allow H. }
  apply bindQ; [apply printQ; allow H|intros _].
  apply sat_try_except.
  - exact high_caught.
  - apply (sat_wait_electrolyte_level dev Qb allowed_b HQb). part Hb.
  - intros _.
    apply (sat_handle_very_high_electrolyte_level dev Q allowed HQ). part H.
Qed.

Lemma sat_refilling_steps el_21 :
  includes (alpha_refilling el_21) allowed_b ->
  includes (alpha_refilling el_21) allowed ->
  sat Q (refilling_steps dev el_21).
Proof.
  intros Hb H.
  apply (sat_ext Q _ _ (fun w => eq_sym (refilling_steps_stages dev el_21 w))).
  apply (@sat_bind Q allowed HQ);
    [apply sat_refill_to_low|intros _; apply sat_refill_to_target];
    assumption.
Qed.

Lemma sat_perform_refilling el_21 :
  includes (alpha_refilling el_21) allowed_b ->
  includes (alpha_refilling el_21) allowed ->
  sat Q (_perform_refilling dev el_21).
Proof.
  intros Hb H.
  pose proof (@sat_bind Q allowed HQ) as bindQ.
  apply (sat_ext Q _ _ (fun w => eq_sym (perform_refilling_steps dev el_21 w))).
  apply bindQ;
    [apply (sat_check_refilling_state dev Q allowed HQ); part H|intros _].
  apply bindQ; [apply (sat_print dev Q allowed HQ); allow H|intros _].
  apply bindQ; [apply sat_refilling_steps; assumption|intros _].
  apply (sat_check_refilling_state dev Q allowed HQ); part H.
Qed.

(** The three procedures that sequence the phases, when every event is
    allowed outside the protected suites. *)

Hypothesis allowed_all : forall ev, allowed ev = true.






End Handlers.

(** *** Two instances of the logic *)

(** Every event of the run is allowed. *)
Definition every (allowed : Event -> bool) (_ : option Exn)
    (evs : list Event) : Prop :=
  forallb allowed evs = true.

Lemma every_closed allowed : closed (every allowed) allowed.
Proof.
  split; unfold every.
  - reflexivity.
  - intros evs1 o evs2 H1 H2. rewrite forallb_app, H1, H2. reflexivity.
  - intros ev Ha _. cbn [forallb]. rewrite Ha. reflexivity.
  - intros e Ha. cbn [forallb]. rewrite Ha. reflexivity.
Qed.

(** The exceptions raised during a run, in the order of the [raise]
    statements. *)
Definition raises (evs : list Event) : list Event := filter is_raise evs.

Lemma raises_app evs1 evs2 : raises (evs1 ++ evs2) = raises evs1 ++ raises evs2.
Proof. apply filter_app. Qed.

(** A suite without handlers raises at most once, and only to end. *)
Definition once (o : option Exn) (evs : list Event) : Prop :=
  raises evs = match o with None => [] | Some e => [EvRaise e] end.






Definition anything (_ : Event) : bool := true.







(** ** The session *)

(** The suite that [main] protects, and its handler. *)
Definition session_checks (dev : Device) : M unit :=
  print dev PCheckingConditions ;;
  level <- _electrolyte_level dev true ;;
  if ElectrolyteLevel.eqb level ElectrolyteLevel.VERY_HIGH then
    sys_exit dev VeryHighSwitchEnabled
  else
    state <- _actual_state dev ;;
    if negb (state_allowed state) then sys_exit dev (StateNotAllowed state)
    else
      print dev PConditionsOk ;;
      _run_maintenance dev state.

Definition session_report (dev : Device) (e : Exn) : M unit :=
  print dev (PExceptionOccurred e) ;;
  print dev PModbusError ;;
  print dev PModbusException ;;
  errors <- _decode_errors dev ;;
  let active_errors := join_or errors "No errors" in
  warnings <- _decode_warnings dev ;;
  let active_warnings := join_or warnings "No warnings" in
  print dev (PDiagnostics active_errors active_warnings) ;;
  reraise e.

Lemma main_unfold dev :
  main dev
  = (print dev (PPrompt PromptStart) ;;
     answer <- input dev ;;
     if negb (String.eqb (upper answer) INPUT_CONFIRMATION) then
       sys_exit dev StoppedByUser
     else try_except (session_checks dev) is_Exception (session_report dev)).
Proof. reflexivity. Qed.










(** ** The pre-flight gate *)

(** What the device answers next does not change while the script makes no
    request to that address. *)
Lemma next_input_later dev w w' address count evs :
  trace w' = trace w ++ evs ->
  forallb (fun ev => negb (is_read_input address ev)) evs = true ->
  next_input dev w' address count = next_input dev w address count.
Proof.
  intros Ht Hevs. unfold next_input. rewrite Ht, requests_app.
  replace (requests (is_read_input address) evs) with O;
    [rewrite Nat.add_0_r; reflexivity|].
  clear Ht. unfold requests. induction evs as [|ev evs IH]; [reflexivity|].
  cbn [forallb] in Hevs. apply andb_prop in Hevs. destruct Hevs as [H1 H2].
  cbn [filter]. destruct (is_read_input address ev); [discriminate|].
  apply IH. exact H2.
Qed.

Definition is_write (ev : Event) : bool :=
  match ev with EvWrite _ _ => true | _ => false end.

Definition is_report (ev : Event) : bool :=
  match ev with
  | EvPrint (PExceptionOccurred _) | EvPrint (PDiagnostics _ _) => true
  | _ => false
  end.

(** Neither a write to a register nor a line of the failure report. *)
Definition quiet (ev : Event) : bool := negb (is_write ev || is_report ev).

(** C9.  Once the operator has confirmed the opening prompt: when the level
    read at the pre-flight check is VERY_HIGH (all four switches enabled),
    or when the level is another one and the operating state is neither
    IDLE nor MAINTENANCE_MODE, [main] ends with [sys.exit] and its message,
    which the handler of [main] does not catch (no failure report is
    printed), and the whole run contains no write to a register. *)
Theorem preflight_gate_exits_without_writes dev w answer rest :
  stdin w = answer :: rest ->
  upper answer = INPUT_CONFIRMATION ->
  let run := main dev w in
  let evs := events_since w (snd run) in
  (switches_ahead dev w [true; true; true; true] ->
   fst run = Raise (SystemExit VeryHighSwitchEnabled)
   /\ forallb quiet evs = true)
  /\ (forall switches raw,
        switches_ahead dev w switches ->
        bottom_run switches = true ->
        switches <> [true; true; true; true] ->
        next_input dev w Inputs.STATE 1 = Some [raw] ->
        state_allowed (State.of_value raw) = false ->
        fst run = Raise (SystemExit (StateNotAllowed (State.of_value raw)))
        /\ forallb quiet evs = true).
Proof.
  intros Hin Hyes. cbv zeta.
  destruct (main dev w) as [r w'] eqn:Hrun. cbn [fst snd].
  rewrite main_unfold in Hrun. unfold bind at 1 in Hrun.
  unfold print at 1 in Hrun. cbn [fst snd] in Hrun.
  unfold bind at 1 in Hrun. unfold input at 1 in Hrun.
  rewrite stdin_emit, Hin in Hrun. rewrite Hyes, String.eqb_refl in Hrun.
  cbn [negb] in Hrun.
  unfold try_except, session_checks in Hrun.
  unfold bind at 1 in Hrun. unfold print at 1 in Hrun. cbn [fst snd] in Hrun.
  unfold bind at 1 in Hrun.
  set (w3 := emit dev (EvPrint PCheckingConditions) _) in Hrun.
  assert (Hw3 : trace w3
                = trace w ++ [EvPrint (PPrompt PromptStart);
                              EvInput (Some answer);
                              EvPrint PCheckingConditions])
    by (subst w3; rewrite trace_emit; cbn [trace];
        rewrite !trace_emit, <- !app_assoc; reflexivity).
  clearbody w3.
  assert (Hnext : forall address count,
             next_input dev w3 address count
             = next_input dev w address count)
    by (intros; apply (next_input_later _ _ _ _ _ _ Hw3); reflexivity).
  assert (Hread : trace (switches_read dev w3)
                  = trace w3
                    ++ [EvReadInput Inputs.LSL102D_IN 1
                          (next_input dev w3 Inputs.LSL102D_IN 1);
                        EvReadInput Inputs.LSM102C_IN 1
                          (next_input dev w3 Inputs.LSM102C_IN 1);
                        EvReadInput Inputs.LSH102B_IN 1
                          (next_input dev w3 Inputs.LSH102B_IN 1);
                        EvReadInput Inputs.LSHH102A_IN 1
                          (next_input dev w3 Inputs.LSHH102A_IN 1)])
    by (unfold switches_read; rewrite !trace_emit, <- !app_assoc;
        reflexivity).
  split.
  - intros (low & medium & high & very_high & Hl & Hm & Hh & Hv & Hs).
    rewrite <- Hnext in Hl, Hm, Hh, Hv.
    rewrite (electrolyte_level_run dev true w3 _ _ _ _ Hl Hm Hh Hv) in Hrun.
    cbv zeta in Hrun. rewrite <- Hs in Hrun.
    cbn [bottom_run last_position Bool.eqb ordinal_level] in Hrun.
    cbn [ElectrolyteLevel.eqb ElectrolyteLevel.value Z.eqb] in Hrun.
    unfold sys_exit, throw in Hrun. cbn [is_Exception] in Hrun.
    injection Hrun as <- <-. split; [reflexivity|].
    erewrite events_since_app
      by (rewrite !trace_emit, Hread, Hw3, <- !app_assoc; reflexivity).
    reflexivity.
  - intros switches raw
      (low & medium & high & very_high & Hl & Hm & Hh & Hv & Hs)
      Hrun_ok Hnot Hstate Hbad.
    rewrite <- Hnext in Hl, Hm, Hh, Hv.
    rewrite (electrolyte_level_run dev true w3 _ _ _ _ Hl Hm Hh Hv) in Hrun.
    cbv zeta in Hrun. rewrite <- Hs in Hrun. rewrite Hrun_ok in Hrun.
    assert (Hlevel : ElectrolyteLevel.eqb
                       (ordinal_level (last_position true switches))
                       ElectrolyteLevel.VERY_HIGH = false).
    { rewrite Hs in *. clear Hrun.
      destruct (truth low), (truth medium), (truth high), (truth very_high);
        try reflexivity; try discriminate. elim Hnot; reflexivity. }
    rewrite Hlevel in Hrun.
    unfold bind at 1 in Hrun. unfold _actual_state in Hrun.
    unfold bind at 1 2 in Hrun. unfold _read_input_registers at 1 in Hrun.
    cbn [fst snd] in Hrun.
    set (w4 := emit dev (EvPrint (PLevelDetected _)) _) in Hrun.
    assert (Hw4 : trace w4
                  = trace (switches_read dev w3)
                    ++ [EvPrint
                          (PLevelDetected
                             (ordinal_level (last_position true switches)))])
      by (subst w4; rewrite trace_emit; reflexivity).
    clearbody w4.
    assert (Hstate4 : next_input dev w4 Inputs.STATE 1 = Some [raw]).
    { rewrite <- Hstate.
      apply (next_input_later dev w w4 _ _
               ([EvPrint (PPrompt PromptStart); EvInput (Some answer);
                 EvPrint PCheckingConditions]
                ++ [EvReadInput Inputs.LSL102D_IN 1
                      (next_input dev w3 Inputs.LSL102D_IN 1);
                    EvReadInput Inputs.LSM102C_IN 1
                      (next_input dev w3 Inputs.LSM102C_IN 1);
                    EvReadInput Inputs.LSH102B_IN 1
                      (next_input dev w3 Inputs.LSH102B_IN 1);
                    EvReadInput Inputs.LSHH102A_IN 1
                      (next_input dev w3 Inputs.LSHH102A_IN 1)]
                ++ [EvPrint
                      (PLevelDetected
                         (ordinal_level (last_position true switches)))])).
      - rewrite Hw4, Hread, Hw3, <- !app_assoc. reflexivity.
      - reflexivity. }
    rewrite Hstate4 in Hrun. cbn [subscript nth_error] in Hrun.
    unfold ret at 1 in Hrun. unfold bind at 1 in Hrun.
    unfold print at 1 in Hrun. cbn [fst snd] in Hrun.
    unfold ret at 1 in Hrun. rewrite Hbad in Hrun. cbn [negb] in Hrun.
    unfold sys_exit, throw in Hrun. cbn [is_Exception] in Hrun.
    injection Hrun as <- <-. split; [reflexivity|].
    erewrite events_since_app
      by (rewrite !trace_emit, Hw4, Hread, Hw3, <- !app_assoc; reflexivity).
    reflexivity.
Qed.

Lemma preflight_gate_exits_without_writes_witness :
  let run := main (switches_device 1 1 1 1) (initial_world ["yes"]) in
  fst run = Raise (SystemExit VeryHighSwitchEnabled)
  /\ forallb quiet (events_since (initial_world ["yes"]) (snd run)) = true.
Proof.
  refine (proj1
            (preflight_gate_exits_without_writes (switches_device 1 1 1 1)
               (initial_world ["yes"]) "yes" [] eq_refl eq_refl)
            _).
  exists 1, 1, 1, 1. repeat split; reflexivity.
Defined.

(** ** The check of the water pipe *)

(** Every event of the run is allowed, and the run raises at most once, to
    end. *)
Definition strict (allowed : Event -> bool) (o : option Exn)
    (evs : list Event) : Prop :=
  once o evs /\ every allowed o evs.

Lemma strict_closed allowed : closed (strict allowed) allowed.
Proof.
  split; unfold strict, once, every.
  - split; reflexivity.
  - intros evs1 o evs2 [H1 H1'] [H2 H2'].
    rewrite raises_app, H1, H2, forallb_app, H1', H2'. split; reflexivity.
  - intros ev Ha Hr. split.
    + unfold raises; cbn [filter]. rewrite Hr. reflexivity.
    + cbn [forallb]. rewrite Ha. reflexivity.
  - intros e Ha. split; [reflexivity|].
    cbn [forallb]. rewrite Ha. reflexivity.
Qed.

(** A strict run that raises has the exception among its events. *)
Lemma strict_raised allowed e evs :
  strict allowed (Some e) evs -> allowed (EvRaise e) = true.
Proof.
  intros [H1 H2]. unfold once in H1. unfold every in H2.
  rewrite forallb_forall in H2. apply H2.
  assert (Hin : In (EvRaise e) (raises evs)) by (rewrite H1; left; reflexivity).
  unfold raises in Hin. apply filter_In in Hin. tauto.
Qed.

Definition count (p : Event -> bool) (evs : list Event) : nat :=
  List.length (filter p evs).







































(** ** The paths of the EL4.x sequence *)

Lemma every_catch allowed e evs1 o evs2 :
  caught e = true -> every allowed (Some e) evs1 -> every allowed o evs2 ->
  every allowed o (evs1 ++ evs2).
Proof.
  unfold every. intros _ H1 H2. rewrite forallb_app, H1, H2. reflexivity.
Qed.

Lemma every_finally allowed (o1 : option Exn) evs1 (o2 : option Exn) evs2 :
  every allowed o1 evs1 -> every allowed o2 evs2 ->
  every allowed match o2 with Some e => Some e | None => o1 end
    (evs1 ++ evs2).
Proof.
  unfold every. intros H1 H2. rewrite forallb_app, H1, H2. reflexivity.
Qed.

Lemma perform_refilling_every dev allowed el_21 :
  includes (alpha_refilling el_21) allowed ->
  sat (every allowed) (_perform_refilling dev el_21).
Proof.
  intro H.
  apply (sat_perform_refilling dev (every allowed) (every allowed) allowed
           allowed (every_closed allowed) (every_closed allowed)
           (fun _ _ H => H) (every_catch allowed) (every_finally allowed)
           el_21 H H).
Qed.

(** The steps of [_run_maintenance_4x] from the refilling phase on. *)
Definition refill_and_finish_4x (dev : Device) : M unit :=
  _perform_refilling dev false ;;
  _wait_confirmation dev PromptMaintenanceOff ;;
  _maintenance_off dev ;;
  try_except_else
    (_check_water_pipe_connection dev false 1)
    is_WaterPipeException
    (fun _ => print dev PFailedToFillWater)
    (fun _ => _finish_refilling dev).

Lemma refilling_steps_every dev allowed el_21 :
  includes (alpha_refilling el_21) allowed ->
  sat (every allowed) (refilling_steps dev el_21).
Proof.
  intro H.
  apply (sat_refilling_steps dev (every allowed) (every allowed) allowed
           allowed (every_closed allowed) (every_closed allowed)
           (fun _ _ H => H) (every_catch allowed) (every_finally allowed)
           el_21 H H).
Qed.

(** The end of the EL4.x sequence, once the electrolyte is refilled. *)
Lemma turn_off_and_finish_4x_every dev allowed :
  includes (alpha_confirm PromptMaintenanceOff) allowed ->
  includes alpha_maintenance_off allowed ->
  includes (alpha_pipe false 1) allowed ->
  includes alpha_finish allowed ->
  allowed (EvPrint PFailedToFillWater) = true ->
  sat (every allowed)
    (_wait_confirmation dev PromptMaintenanceOff ;;
     _maintenance_off dev ;;
     try_except_else
       (_check_water_pipe_connection dev false 1)
       is_WaterPipeException
       (fun _ => print dev PFailedToFillWater)
       (fun _ => _finish_refilling dev)).
Proof.
  intros Hc Ho Hp Hf Hw. pose proof (every_closed allowed) as HQ.
  apply (sat_bind _ _ HQ); [apply (sat_wait_confirmation _ _ _ HQ); exact Hc|].
  intros _.
  apply (sat_bind _ _ HQ); [apply (sat_maintenance_off _ _ _ HQ); exact Ho|].
  intros _.
  apply (sat_try_except_else (every allowed) (every allowed) allowed HQ
           (fun _ _ H => H) (every_catch allowed)).
  - intros e He. unfold caught. rewrite He. apply orb_true_r.
  - apply (sat_check_water_pipe_connection _ _ _ HQ). exact Hp.
  - intros _. apply (sat_print _ _ _ HQ). exact Hw.
  - intros _. apply (sat_finish_refilling _ _ _ HQ). exact Hf.
Qed.

Lemma refill_and_finish_4x_every dev allowed :
  includes (alpha_refilling false) allowed ->
  includes (alpha_confirm PromptMaintenanceOff) allowed ->
  includes alpha_maintenance_off allowed ->
  includes (alpha_pipe false 1) allowed ->
  includes alpha_finish allowed ->
  allowed (EvPrint PFailedToFillWater) = true ->
  sat (every allowed) (refill_and_finish_4x dev).
Proof.
  intros Hr Hc Ho Hp Hf Hw. unfold refill_and_finish_4x.
  apply (sat_bind _ _ (every_closed allowed));
    [apply perform_refilling_every; exact Hr|intros _].
  apply turn_off_and_finish_4x_every; assumption.
Qed.

(** The same steps with the flushing phase before them, when it is
    required. *)
Lemma flush_refill_and_finish_4x_extends dev flushing_required w :
  exists evs,
    trace (snd ((when flushing_required (_perform_flushing dev) ;;
                 refill_and_finish_4x dev) w))
    = trace w ++ evs.
Proof.
  pose proof (every_closed anything) as HQ.
  assert (Hall : forall alpha, includes alpha anything)
    by (intros alpha ev _; reflexivity).
  assert (H : sat (every anything)
                (when flushing_required (_perform_flushing dev) ;;
                 refill_and_finish_4x dev)).
  { apply (sat_bind _ _ HQ).
    - apply (sat_when _ _ HQ). apply (sat_perform_flushing _ _ _ HQ).
      apply Hall.
    - intros _. apply refill_and_finish_4x_every; try apply Hall.
      reflexivity. }
  destruct (H w) as [evs [Ht _]]. exists evs. exact Ht.
Qed.

(** The answers to the requests for the refilling state, in the order of
    the requests. *)
Definition refilling_states_read (evs : list Event)
    : list (option (list Z)) :=
  flat_map (fun ev => match ev with
                      | EvReadInput address _ response =>
                          if address =? Inputs.REFILLING_STATE then [response]
                          else []
                      | _ => []
                      end) evs.

(** The refilling state that the request of rank [k] was answered with. *)
Definition state_read (evs : list Event) (k : nat)
    : option RefillingState.t :=
  match nth_error (refilling_states_read evs) k with
  | Some (Some [raw]) => Some (RefillingState.of_value raw)
  | _ => None
  end.

Lemma refilling_states_read_app evs1 evs2 :
  refilling_states_read (evs1 ++ evs2)
  = refilling_states_read evs1 ++ refilling_states_read evs2.
Proof. apply flat_map_app. Qed.

Definition no_state_read (ev : Event) : bool :=
  negb (is_read_input Inputs.REFILLING_STATE ev).

Lemma refilling_states_read_none evs :
  forallb no_state_read evs = true -> refilling_states_read evs = [].
Proof.
  induction evs as [|ev evs IH]; [reflexivity|].
  cbn [forallb]. intro H. apply andb_prop in H. destruct H as [H1 H2].
  cbn [refilling_states_read flat_map]. fold (refilling_states_read evs).
  rewrite (IH H2), app_nil_r.
  destruct ev as [a ? ?|? ? ?|? ?|?|?|?|?]; try reflexivity.
  unfold no_state_read, is_read_input in H1.
  destruct (a =? Inputs.REFILLING_STATE); [discriminate|reflexivity].
Qed.

(** The two runs of [_actual_refilling_state]. *)
Lemma actual_refilling_state_run dev w :
  (exists raw,
     _actual_refilling_state dev w
     = (Ok (RefillingState.of_value raw),
        emit dev (EvReadInput Inputs.REFILLING_STATE 1 (Some [raw])) w))
  \/ _actual_refilling_state dev w
     = (Raise TypeError,
        emit dev (EvRaise TypeError)
          (emit dev (EvReadInput Inputs.REFILLING_STATE 1 None) w)).
Proof.
  unfold _actual_refilling_state, bind, _read_input_registers.
  cbn [fst snd].
  destruct (next_input_one dev w Inputs.REFILLING_STATE) as [H|[raw H]];
    rewrite H; [right|left; exists raw]; reflexivity.
Qed.

(** What only the flushing phase does: its banner, the assertion of the
    state WAIT_FLUSHING, its prompts, the check of the water pipe with the
    electrolyte re-checked, and the write to the flushing register. *)
Definition flushing_event (ev : Event) : bool :=
  match ev with
  | EvWrite address _ => address =? Holdings.FLUSHING
  | EvPrint (PBannerFlushing | PTurningFlushingOn | PTurnedFlushingOn
            | PRecheckingElectrolyte | PElectrolyteOk
            | PElectrolytePresence) => true
  | EvPrint (PPrompt (PromptConnectWaterPipe | PromptWaterRefill)) => true
  | EvPrint (PDetectedExpected s) =>
      RefillingState.eqb s RefillingState.WAIT_FLUSHING
  | EvRaise (MaintenanceModeException (WrongRefillingState s _)) =>
      RefillingState.eqb s RefillingState.WAIT_FLUSHING
  | _ => false
  end.

(** What a check of the water pipe does. *)
Definition pipe_check_event (ev : Event) : bool :=
  match ev with
  | EvPrint (PCheckingPressure | PPressureOk | PPressureNotInBounds _ _ _) =>
      true
  | EvPrint (PPrompt PromptWaterPipeProblems) => true
  | EvReadInput address _ _ => address =? Inputs.PT105_IN_BAR
  | EvReadHolding address _ _ =>
      (address =? Holdings.REFILLING_MINWATERPPESSURE_BAR)
      || (address =? Holdings.REFILLING_MAXWATERPPESSURE_BAR)
  | EvRaise (WaterPipeException _) => true
  | _ => false
  end.

Definition flush_free (ev : Event) : bool := negb (flushing_event ev).

Definition pipe_free (ev : Event) : bool :=
  negb (flushing_event ev || pipe_check_event ev).

(** An event of the alphabet is not one of the events left out. *)
Ltac split_or H :=
  lazymatch type of H with
  | (_ || _) = true => apply orb_prop in H; destruct H as [H|H]; split_or H
  | (_ && _) = true =>
      let H' := fresh in
      apply andb_prop in H; destruct H as [H' H]; split_or H
  | _ => idtac
  end.

Ltac leaf H :=
  first
    [ reflexivity
    | discriminate H
    | cbv in H; discriminate H
    | apply refilling_eqb_eq in H; subst; reflexivity
    | apply level_eqb_eq in H; subst; reflexivity
    | apply Z.eqb_eq in H; subst; reflexivity
    | match goal with
      | p : Prompt |- _ =>
          destruct p as [| | | | |[]| |];
            first [reflexivity|cbv in H; discriminate H]
      end ].

Ltac omits :=
  let ev := fresh "ev" in
  let Hev := fresh "Hev" in
  intros ev Hev; alphabets;
  destruct ev as [? ? ?|? ? ?|? ?|?|[]|?|[[]|?|? ?| | | | | |?]];
  try reflexivity;
  cbn [harmless printed raised written read_in read_hold existsb negb
       andb orb] in Hev;
  split_or Hev; leaf Hev.

Lemma draining_pipe_free : includes alpha_draining pipe_free.
Proof. omits. Qed.

Lemma draining_without_state_reads :
  includes
    (fun ev => alpha_confirm PromptDraining ev
               || alpha_wait_level ElectrolyteLevel.EMPTY ev)
    (fun ev => pipe_free ev && no_state_read ev).
Proof. omits. Qed.

(** The draining phase asks for the refilling state once, at its start. *)
Lemma perform_draining_reads dev w :
  exists response evs,
    trace (snd (_perform_draining dev w))
    = trace w
      ++ [EvPrint PCheckingRefillingState;
          EvReadInput Inputs.REFILLING_STATE 1 response] ++ evs
    /\ forallb (fun ev => pipe_free ev && no_state_read ev) evs = true.
Proof.
  set (allowed := fun ev => pipe_free ev && no_state_read ev).
  pose proof (every_closed allowed) as HQ.
  set (rest := fun response : option (list Z) =>
         raw <- subscript dev response 0 ;;
         (if negb (RefillingState.eqb (RefillingState.of_value raw)
                     RefillingState.DRAINING) then
            throw dev (MaintenanceModeException
                         (WrongRefillingState RefillingState.DRAINING
                            (RefillingState.of_value raw)))
          else print dev (PDetectedExpected (RefillingState.of_value raw))) ;;
         print dev PBannerDraining ;;
         _wait_confirmation dev PromptDraining ;;
         _wait_electrolyte_level dev ElectrolyteLevel.EMPTY DRAINING_TIMEOUT
           false).
  set (response := next_input dev (emit dev (EvPrint PCheckingRefillingState) w)
                     Inputs.REFILLING_STATE 1).
  assert (Heq : _perform_draining dev w
                = rest response
                    (emit dev (EvReadInput Inputs.REFILLING_STATE 1 response)
                       (emit dev (EvPrint PCheckingRefillingState) w))).
  { unfold _perform_draining, _check_refilling_state, _actual_refilling_state,
      rest, bind, print, _read_input_registers. cbn [fst snd].
    fold response.
    destruct (subscript dev response 0 _) as [[raw|e] w1]; [|reflexivity].
    cbn [fst snd]. unfold ret.
    destruct (negb _); [reflexivity|]. reflexivity. }
  assert (Hsat : sat (every allowed) (rest response)).
  { unfold rest. apply (sat_bind _ _ HQ).
    - apply (sat_subscript _ _ _ HQ). omits.
    - intro raw. apply (sat_bind _ _ HQ).
      + destruct (RefillingState.eqb (RefillingState.of_value raw)
                    RefillingState.DRAINING) eqn:Hs; cbn [negb].
        * apply refilling_eqb_eq in Hs. rewrite Hs.
          apply (sat_print _ _ _ HQ). reflexivity.
        * apply (sat_throw _ _ _ HQ). reflexivity.
      + intros _. apply (sat_bind _ _ HQ);
          [apply (sat_print _ _ _ HQ); reflexivity|]. intros _.
        apply (sat_bind _ _ HQ).
        * apply (sat_wait_confirmation _ _ _ HQ).
          intros ev Hev. apply draining_without_state_reads.
          rewrite Hev. reflexivity.
        * intros _. apply (sat_wait_electrolyte_level _ _ _ HQ).
          intros ev Hev. apply draining_without_state_reads.
          rewrite Hev. apply orb_true_r. }
  destruct (Hsat (emit dev (EvReadInput Inputs.REFILLING_STATE 1 response)
                    (emit dev (EvPrint PCheckingRefillingState) w)))
    as [evs [Ht Hevs]].
  exists response, evs. rewrite Heq, Ht, !trace_emit, <- !app_assoc.
  split; [reflexivity|exact Hevs].
Qed.

(** The steps of [_run_maintenance_4x] from the fresh read of the
    refilling state on. *)
Definition continue_4x (dev : Device) (flushing_required : bool) : M unit :=
  fresh_refilling_state <- _actual_refilling_state dev ;;
  let flushing_required :=
    if RefillingState.eqb fresh_refilling_state RefillingState.MAINTENANCE
    then false else flushing_required in
  when flushing_required (_perform_flushing dev) ;;
  refill_and_finish_4x dev.

(** The steps of [_run_maintenance_4x] once the refilling state has been
    read for the first time. *)
Definition decide_4x (dev : Device) (actual_refilling_state : RefillingState.t)
    : M unit :=
  required <-
    match actual_refilling_state with
    | RefillingState.DRAINING => ret (true, true)
    | RefillingState.WAIT_FLUSHING => ret (false, true)
    | RefillingState.MAINTENANCE =>
        print dev PFirstRefilling4x ;; ret (false, false)
    | _ => throw dev (MaintenanceModeException
                        (UnexpectedRefillingState actual_refilling_state))
    end ;;
  when (fst required) (_perform_draining dev) ;;
  continue_4x dev (snd required).

Lemma run_maintenance_4x_steps dev initial_state :
  _run_maintenance_4x dev initial_state
  = (print dev PRunning4x ;;
     _maintenance_on dev initial_state ;;
     actual_refilling_state <- _actual_refilling_state dev ;;
     decide_4x dev actual_refilling_state).
Proof. reflexivity. Qed.

Lemma continue_4x_extends dev flushing_required w :
  exists evs,
    trace (snd (continue_4x dev flushing_required w)) = trace w ++ evs.
Proof.
  unfold continue_4x. rewrite bind_run.
  destruct (actual_refilling_state_run dev w) as [[raw Hr]|Hr]; rewrite Hr.
  - destruct (flush_refill_and_finish_4x_extends dev
                (if RefillingState.eqb (RefillingState.of_value raw)
                      RefillingState.MAINTENANCE
                 then false else flushing_required)
                (emit dev (EvReadInput Inputs.REFILLING_STATE 1 (Some [raw]))
                   w)) as [evs Ht].
    exists ([EvReadInput Inputs.REFILLING_STATE 1 (Some [raw])] ++ evs).
    cbv zeta. rewrite Ht, trace_emit, <- app_assoc. reflexivity.
  - eexists. cbn [snd]. rewrite !trace_emit, <- app_assoc. reflexivity.
Qed.

Lemma decide_4x_extends dev actual_refilling_state w :
  exists evs,
    trace (snd (decide_4x dev actual_refilling_state w)) = trace w ++ evs.
Proof.
  assert (Hd : forall required w,
             exists evs,
               trace (snd ((when (fst required) (_perform_draining dev) ;;
                            continue_4x dev (snd required)) w))
               = trace w ++ evs).
  { intros [draining_required flushing_required] w0. cbn [fst snd].
    rewrite bind_run. destruct draining_required; cbn [when].
    - destruct (perform_draining_reads dev w0) as (response & evs & Ht & _).
      destruct (_perform_draining dev w0) as [[[]|e] w1]; cbn [snd] in *.
      + destruct (continue_4x_extends dev flushing_required w1) as [evs' Ht'].
        eexists. rewrite Ht', Ht, <- !app_assoc. reflexivity.
      + eexists. exact Ht.
    - unfold ret. apply continue_4x_extends. }
  unfold decide_4x. rewrite bind_run.
  destruct actual_refilling_state;
    try (unfold throw; cbn [snd]; eexists; rewrite trace_emit; reflexivity);
    try (unfold ret; apply Hd).
  rewrite bind_run. unfold print, ret.
  destruct (Hd (false, false) (emit dev (EvPrint PFirstRefilling4x) w))
    as [evs Ht].
  eexists. rewrite Ht, trace_emit, <- app_assoc. reflexivity.
Qed.

Lemma state_read_prefix pre tail k :
  (k < List.length (refilling_states_read pre))%nat ->
  state_read (pre ++ tail) k = state_read pre k.
Proof.
  intro H. unfold state_read.
  rewrite refilling_states_read_app, nth_error_app1 by exact H. reflexivity.
Qed.

Lemma forallb_both (p q : Event -> bool) evs :
  forallb (fun ev => p ev && q ev) evs = true ->
  forallb p evs = true /\ forallb q evs = true.
Proof.
  induction evs as [|ev evs IH]; [split; reflexivity|].
  cbn [forallb]. intro H. apply andb_prop in H. destruct H as [H1 H2].
  apply andb_prop in H1. destruct H1 as [Hp Hq]. destruct (IH H2) as [IHp IHq].
  rewrite Hp, Hq, IHp, IHq. split; reflexivity.
Qed.

Lemma forallb_weaken (p q : Event -> bool) evs :
  (forall ev, p ev = true -> q ev = true) ->
  forallb p evs = true -> forallb q evs = true.
Proof.
  intros Hpq H. rewrite forallb_forall in *. intros ev Hin.
  apply Hpq, H, Hin.
Qed.

Lemma pipe_free_flush_free ev : pipe_free ev = true -> flush_free ev = true.
Proof.
  unfold pipe_free, flush_free. destruct (flushing_event ev);
    [discriminate|reflexivity].
Qed.

(** When the fresh read reports MAINTENANCE, the sequence goes on with the
    refilling phase at once. *)
Lemma continue_4x_skipped dev flushing_required w0 w pre :
  trace w = trace w0 ++ pre ->
  state_read (events_since w0 (snd (continue_4x dev flushing_required w)))
    (List.length (refilling_states_read pre))
  = Some RefillingState.MAINTENANCE ->
  exists raw,
    RefillingState.of_value raw = RefillingState.MAINTENANCE
    /\ continue_4x dev flushing_required w
       = refill_and_finish_4x dev
           (emit dev (EvReadInput Inputs.REFILLING_STATE 1 (Some [raw])) w).
Proof.
  intros Hpre Hfresh. unfold continue_4x in *. rewrite bind_run in *.
  destruct (actual_refilling_state_run dev w) as [[raw Hr]|Hr];
    rewrite Hr in *.
  - exists raw. cbv zeta in *.
    destruct (flush_refill_and_finish_4x_extends dev
                (if RefillingState.eqb (RefillingState.of_value raw)
                      RefillingState.MAINTENANCE
                 then false else flushing_required)
                (emit dev (EvReadInput Inputs.REFILLING_STATE 1 (Some [raw]))
                   w)) as [tail Ht].
    rewrite trace_emit, Hpre, <- !app_assoc in Ht.
    rewrite (events_since_app _ _ _ Ht) in Hfresh.
    unfold state_read in Hfresh.
    rewrite refilling_states_read_app, nth_error_app2 in Hfresh by lia.
    rewrite Nat.sub_diag in Hfresh. cbn in Hfresh.
    injection Hfresh as Hs. split; [exact Hs|].
    rewrite Hs, refilling_eqb_refl, bind_run. reflexivity.
  - exfalso. cbn [snd] in Hfresh.
    rewrite (events_since_app w0 _
               (pre ++ [EvReadInput Inputs.REFILLING_STATE 1 None;
                        EvRaise TypeError])) in Hfresh
      by (rewrite !trace_emit, Hpre, <- !app_assoc; reflexivity).
    unfold state_read in Hfresh.
    rewrite refilling_states_read_app, nth_error_app2 in Hfresh by lia.
    rewrite Nat.sub_diag in Hfresh. discriminate.
Qed.

Lemma refill_and_finish_4x_flush_free dev :
  sat (every flush_free) (refill_and_finish_4x dev).
Proof. apply refill_and_finish_4x_every; try omits. reflexivity. Qed.

Lemma perform_refilling_pipe_free dev :
  sat (every pipe_free) (_perform_refilling dev false).
Proof. apply perform_refilling_every. omits. Qed.

Lemma maintenance_on_quiet dev initial_state :
  sat (every (fun ev => pipe_free ev && no_state_read ev))
    (_maintenance_on dev initial_state).
Proof.
  apply (sat_maintenance_on _ _ _ (every_closed _)). omits.
Qed.

(** The rank, among the requests for the refilling state, of the fresh read
    that follows the draining decision: the draining phase, when it runs,
    asks for the state once. *)
Definition fresh_read_rank (initial : RefillingState.t) : nat :=
  if RefillingState.eqb initial RefillingState.DRAINING then 2%nat else 1%nat.

(** C10.  For every EL4.x maintenance run whose first read of the refilling
    state reports DRAINING or WAIT_FLUSHING, and whose fresh read after the
    draining decision reports MAINTENANCE: nothing of the flushing phase or
    of a water-pipe check happens before the fresh read; from the fresh
    read on the run is the refilling phase followed by the end of the
    sequence; the refilling phase makes no water-pipe check (the only one
    left is the check that ends the sequence, once maintenance is off); and
    the whole run has no flushing banner, no assertion of WAIT_FLUSHING, no
    prompt of the flushing phase, no re-check of the electrolyte and no
    write to the flushing register. *)
Theorem flushing_skipped_when_maintenance dev initial_state w initial :
  let run := _run_maintenance_4x dev initial_state w in
  let evs := events_since w (snd run) in
  initial = RefillingState.DRAINING
  \/ initial = RefillingState.WAIT_FLUSHING ->
  state_read evs 0 = Some initial ->
  state_read evs (fresh_read_rank initial) = Some RefillingState.MAINTENANCE ->
  exists before raw w1,
    RefillingState.of_value raw = RefillingState.MAINTENANCE
    /\ trace w1
       = trace w ++ before
         ++ [EvReadInput Inputs.REFILLING_STATE 1 (Some [raw])]
    /\ forallb pipe_free before = true
    /\ run
       = (_perform_refilling dev false ;;
          _wait_confirmation dev PromptMaintenanceOff ;;
          _maintenance_off dev ;;
          try_except_else
            (_check_water_pipe_connection dev false 1)
            is_WaterPipeException
            (fun _ => print dev PFailedToFillWater)
            (fun _ => _finish_refilling dev)) w1
    /\ forallb pipe_free
         (events_since w1 (snd (_perform_refilling dev false w1))) = true
    /\ forallb flush_free evs = true.
Proof.
  intros run evs Hinit H0 Hfresh.
  assert (Hrun : run = _run_maintenance_4x dev initial_state w)
    by reflexivity.
  clearbody run. subst evs.
  rewrite run_maintenance_4x_steps, bind_run in Hrun.
  unfold print at 1 in Hrun. rewrite bind_run in Hrun.
  destruct (maintenance_on_quiet dev initial_state
              (emit dev (EvPrint PRunning4x) w)) as [evs1 [Ht1 He1]].
  unfold every in He1. apply forallb_both in He1. destruct He1 as [Hp1 Hn1].
  pose proof (refilling_states_read_none _ Hn1) as Hs1.
  rewrite trace_emit, <- app_assoc in Ht1.
  destruct (_maintenance_on dev initial_state
              (emit dev (EvPrint PRunning4x) w)) as [[[]|e] w1];
    cbn [fst snd outcome] in Ht1.
  2: { exfalso. rewrite Hrun in H0. cbn [snd] in H0.
       rewrite (events_since_app _ _ _ Ht1) in H0. unfold state_read in H0.
       rewrite refilling_states_read_app, Hs1 in H0. discriminate. }
  rewrite bind_run in Hrun.
  destruct (actual_refilling_state_run dev w1) as [[raw0 Hr0]|Hr0];
    rewrite Hr0 in Hrun.
  2: { exfalso. rewrite Hrun in H0. cbn [snd] in H0.
       rewrite (events_since_app w _
                  ([EvPrint PRunning4x] ++ evs1
                   ++ [EvReadInput Inputs.REFILLING_STATE 1 None;
                       EvRaise TypeError])) in H0
         by (rewrite !trace_emit, Ht1, <- !app_assoc; reflexivity).
       unfold state_read in H0.
       rewrite !refilling_states_read_app, Hs1 in H0. discriminate. }
  set (pre := [EvPrint PRunning4x] ++ evs1
              ++ [EvReadInput Inputs.REFILLING_STATE 1 (Some [raw0])]).
  assert (Hreads : refilling_states_read pre = [Some [raw0]])
    by (unfold pre; rewrite !refilling_states_read_app, Hs1; reflexivity).
  assert (Hfree : forallb pipe_free pre = true)
    by (unfold pre; rewrite !forallb_app, Hp1; reflexivity).
  assert (Ht2 : trace (emit dev
                         (EvReadInput Inputs.REFILLING_STATE 1 (Some [raw0]))
                         w1) = trace w ++ pre)
    by (unfold pre; rewrite trace_emit, Ht1, <- !app_assoc; reflexivity).
  set (w2 := emit dev (EvReadInput Inputs.REFILLING_STATE 1 (Some [raw0])) w1)
    in *.
  clearbody pre w2.
  assert (Hs0 : RefillingState.of_value raw0 = initial).
  { destruct (decide_4x_extends dev (RefillingState.of_value raw0) w2)
      as [tail Htail].
    rewrite Ht2, <- app_assoc in Htail. rewrite <- Hrun in Htail.
    rewrite (events_since_app _ _ _ Htail) in H0.
    rewrite state_read_prefix in H0 by (rewrite Hreads; cbn; lia).
    unfold state_read in H0. rewrite Hreads in H0. cbn in H0. congruence. }
  rewrite Hs0 in Hrun. unfold decide_4x in Hrun. rewrite bind_run in Hrun.
  assert (Hend :
            forall before w3,
              trace w3 = trace w ++ before ->
              forallb pipe_free before = true ->
              List.length (refilling_states_read before)
              = fresh_read_rank initial ->
              run = continue_4x dev true w3 ->
              exists before raw w1,
                RefillingState.of_value raw = RefillingState.MAINTENANCE
                /\ trace w1
                   = trace w ++ before
                     ++ [EvReadInput Inputs.REFILLING_STATE 1 (Some [raw])]
                /\ forallb pipe_free before = true
                /\ run = refill_and_finish_4x dev w1
                /\ forallb pipe_free
                     (events_since w1 (snd (_perform_refilling dev false w1)))
                   = true
                /\ forallb flush_free (events_since w (snd run)) = true).
  { intros before w3 Ht3 Hb Hrank Hrun'.
    rewrite <- Hrank, Hrun' in Hfresh.
    destruct (continue_4x_skipped dev true w w3 before Ht3 Hfresh)
      as (raw & Hraw & Hgo).
    rewrite Hgo in Hrun'.
    set (w4 := emit dev (EvReadInput Inputs.REFILLING_STATE 1 (Some [raw])) w3)
      in *.
    exists before, raw, w4. split; [exact Hraw|].
    split; [unfold w4; rewrite trace_emit, Ht3, <- app_assoc; reflexivity|].
    split; [exact Hb|]. split; [exact Hrun'|]. split.
    - destruct (perform_refilling_pipe_free dev w4) as [evs_r [Htr Her]].
      rewrite (events_since_app _ _ _ Htr). exact Her.
    - destruct (refill_and_finish_4x_flush_free dev w4) as [evs_t [Htt Het]].
      rewrite Hrun'.
      rewrite (events_since_app w _
                 (before
                  ++ [EvReadInput Inputs.REFILLING_STATE 1 (Some [raw])]
                  ++ evs_t))
        by (rewrite Htt; unfold w4;
            rewrite trace_emit, Ht3, <- !app_assoc; reflexivity).
      rewrite !forallb_app, Het, (forallb_weaken _ _ _ pipe_free_flush_free Hb).
      reflexivity. }
  destruct Hinit as [-> | ->]; unfold ret at 1 in Hrun; cbn [fst snd] in Hrun;
    rewrite bind_run in Hrun; cbn [when] in Hrun.
  - destruct (perform_draining_reads dev w2) as (resp_d & evs_d & Htd & Hed).
    apply forallb_both in Hed. destruct Hed as [Hpd Hnd].
    pose proof (refilling_states_read_none _ Hnd) as Hsd.
    rewrite Ht2, <- app_assoc in Htd.
    destruct (_perform_draining dev w2) as [[[]|e] w3]; cbn [snd] in Htd.
    + apply (Hend _ w3 Htd).
      * rewrite !forallb_app, Hfree, Hpd. reflexivity.
      * rewrite !refilling_states_read_app, Hreads, Hsd. reflexivity.
      * exact Hrun.
    + exfalso. rewrite Hrun in Hfresh. cbn [snd] in Hfresh.
      rewrite (events_since_app _ _ _ Htd) in Hfresh.
      unfold state_read in Hfresh.
      rewrite !refilling_states_read_app, Hreads, Hsd in Hfresh.
      discriminate.
  - unfold ret at 1 in Hrun.
    apply (Hend pre w2 Ht2 Hfree); [rewrite Hreads; reflexivity|].
    exact Hrun.
Qed.

(** An EL4.0 whose maintenance was interrupted: the refilling state is
    DRAINING at first and MAINTENANCE once the electrolyte is drained; water
    at 2.0 bar between the bounds 1.0 and 4.0; a mixing time of 10 s. *)
Definition el40_interrupted : Device :=
  scripted_device
    [ (Inputs.STATE, [[2]]);
      (Inputs.REFILLING_STATE, [[4]; [4]; [5]; [5]; [6]; [8]; [13]; [2]]);
      (Inputs.WARNINGS, [[0]]);
      (Inputs.LSL102D_IN, [[0]; [1]]);
      (Inputs.LSM102C_IN, [[0]; [0]; [0]; [1]]);
      (Inputs.LSH102B_IN, [[0]; [0]; [0]; [0]; [1]]);
      (Inputs.LSHH102A_IN, [[0]]);
      (Inputs.PT105_IN_BAR, [[0x4000; 0]]) ]
    [ (Holdings.REFILLING_MINWATERPPESSURE_BAR, [[0x3F80; 0]]);
      (Holdings.REFILLING_MAXWATERPPESSURE_BAR, [[0x4080; 0]]);
      (Holdings.REFILLING_MIXINGTIME_MS, [[0; 10000]]) ].

Lemma flushing_skipped_when_maintenance_witness :
  let w := initial_world ["YES"; "YES"; "YES"] in
  let run := _run_maintenance_4x el40_interrupted State.MAINTENANCE_MODE w in
  exists before raw w1,
    RefillingState.of_value raw = RefillingState.MAINTENANCE
    /\ trace w1
       = trace w ++ before
         ++ [EvReadInput Inputs.REFILLING_STATE 1 (Some [raw])]
    /\ forallb pipe_free before = true
    /\ run
       = (_perform_refilling el40_interrupted false ;;
          _wait_confirmation el40_interrupted PromptMaintenanceOff ;;
          _maintenance_off el40_interrupted ;;
          try_except_else
            (_check_water_pipe_connection el40_interrupted false 1)
            is_WaterPipeException
            (fun _ => print el40_interrupted PFailedToFillWater)
            (fun _ => _finish_refilling el40_interrupted)) w1
    /\ forallb pipe_free
         (events_since w1 (snd (_perform_refilling el40_interrupted false w1)))
       = true
    /\ forallb flush_free (events_since w (snd run)) = true.
Proof.
  apply (flushing_skipped_when_maintenance el40_interrupted
           State.MAINTENANCE_MODE (initial_world ["YES"; "YES"; "YES"])
           RefillingState.DRAINING).
  - left. reflexivity.
  - vm_compute. reflexivity.
  - vm_compute. reflexivity.
Defined.

(** ** The phases of a run that ends well *)

(** What a part that returns has added to the trace. *)
Lemma ok_every allowed {A} (m : M A) w a w' :
  sat (every allowed) m -> m w = (Ok a, w') ->
  exists evs, trace w' = trace w ++ evs /\ forallb allowed evs = true.
Proof.
  intros Hm Hrun. destruct (Hm w) as [evs [Ht He]]. rewrite Hrun in Ht.
  exists evs. split; [exact Ht|exact He].
Qed.

(** The banners of the three phases. *)
Definition draining_banner (ev : Event) : bool :=
  match ev with EvPrint PBannerDraining => true | _ => false end.

Definition flushing_banner (ev : Event) : bool :=
  match ev with EvPrint PBannerFlushing => true | _ => false end.

Definition refilling_banner (ev : Event) : bool :=
  match ev with EvPrint PBannerRefilling => true | _ => false end.

(** No banner at all; no banner but that of the draining phase; no banner
    but that of the refilling phase. *)
Definition no_banner (ev : Event) : bool :=
  negb (draining_banner ev || flushing_banner ev || refilling_banner ev).

Definition draining_only (ev : Event) : bool :=
  negb (flushing_banner ev || refilling_banner ev).

Definition refilling_only (ev : Event) : bool :=
  negb (draining_banner ev || flushing_banner ev).

(** The steps of [_perform_flushing] between its banner and the read of the
    mixing time. *)
Definition flushing_steps (dev : Device) : M unit :=
  _check_refilling_state dev RefillingState.WAIT_FLUSHING ;;
  _wait_confirmation dev PromptConnectWaterPipe ;;
  _check_water_pipe_connection dev true MAX_WATER_PIPE_CONNECT_ATTEMPTS ;;
  _wait_confirmation dev PromptWaterRefill ;;
  _flushing_on dev ;;
  _wait_electrolyte_level dev ElectrolyteLevel.HIGH REFILLING_TIMEOUT true ;;
  _check_refilling_warnings dev ;;
  print dev PWaitingMixed.

Lemma perform_flushing_steps dev w :
  _perform_flushing dev w
  = (print dev PBannerFlushing ;;
     flushing_steps dev ;;
     mixing_time <- _actual_refilling_mixing_time dev ;;
     _wait_refilling_state dev RefillingState.DRAINING (mixing_time * 2) ;;
     _perform_draining dev) w.
Proof.
  unfold _perform_flushing, flushing_steps.
  same_step. do 6 assoc_step. rewrite bind_assoc. reflexivity.
Qed.

(** The events of these steps: those of the flushing phase without its
    banner, the mixing time and the wait that follows. *)
Definition alpha_flushing_steps (ev : Event) : bool :=
  alpha_check_state RefillingState.WAIT_FLUSHING ev
  || alpha_confirm PromptConnectWaterPipe ev
  || alpha_pipe true MAX_WATER_PIPE_CONNECT_ATTEMPTS ev
  || alpha_confirm PromptWaterRefill ev
  || alpha_flushing_on ev
  || alpha_wait_level ElectrolyteLevel.HIGH ev
  || alpha_warnings ev
  || printed (fun m => match m with PWaitingMixed => true | _ => false end) ev.

Ltac alphabets ::=
  unfold alpha_flushing_steps, alpha_refilling, alpha_flushing, alpha_finish,
    alpha_pipe, alpha_draining, alpha_handle_very_high, alpha_maintenance_on,
    alpha_maintenance_off, alpha_flushing_on, alpha_check_state, alpha_write,
    alpha_confirm, alpha_wait_state, alpha_wait_level, alpha_level,
    alpha_state, alpha_warnings, alpha_read_in, alpha_read_hold,
    is_WaterPipeException in *.

Lemma flushing_steps_every dev allowed :
  includes alpha_flushing_steps allowed ->
  sat (every allowed) (flushing_steps dev).
Proof.
  intro H. pose proof (every_closed allowed) as HQ. unfold flushing_steps.
  apply (sat_bind _ _ HQ);
    [apply (sat_check_refilling_state _ _ _ HQ); part H|intros _].
  apply (sat_bind _ _ HQ);
    [apply (sat_wait_confirmation _ _ _ HQ); part H|intros _].
  apply (sat_bind _ _ HQ);
    [apply (sat_check_water_pipe_connection _ _ _ HQ); part H|intros _].
  apply (sat_bind _ _ HQ);
    [apply (sat_wait_confirmation _ _ _ HQ); part H|intros _].
  apply (sat_bind _ _ HQ); [apply (sat_flushing_on _ _ _ HQ); part H|intros _].
  apply (sat_bind _ _ HQ);
    [apply (sat_wait_electrolyte_level _ _ _ HQ); part H|intros _].
  apply (sat_bind _ _ HQ);
    [apply (sat_check_refilling_warnings _ _ _ HQ); part H|intros _].
  apply (sat_print _ _ _ HQ). allow H.
Qed.

(** The mixing time, in whole seconds, of a read that succeeds. *)
Lemma actual_refilling_mixing_time_ok dev w mixing_time w' :
  _actual_refilling_mixing_time dev w = (Ok mixing_time, w') ->
  exists hi lo,
    w' = emit dev
           (EvReadHolding Holdings.REFILLING_MIXINGTIME_MS 2 (Some [hi; lo]))
           w
    /\ mixing_time = (Z.shiftl hi 16 + lo) / 1000.
Proof.
  unfold _actual_refilling_mixing_time, bind, _read_holding_registers.
  cbn [fst snd].
  destruct (next_holding dev w Holdings.REFILLING_MIXINGTIME_MS 2)
    as [l|] eqn:Hl; [|discriminate].
  assert (Hlen : List.length l = 2%nat).
  { unfold next_holding in Hl.
    destruct (holding_registers dev _ _); [|discriminate].
    injection Hl as <-. apply words_length. }
  destruct l as [|hi [|lo [|? ?]]]; try discriminate.
  cbn. intro H. injection H as <- <-. exists hi, lo. split; reflexivity.
Qed.

Lemma perform_draining_ok dev w w' :
  _perform_draining dev w = (Ok tt, w') ->
  exists before after,
    trace w' = trace w ++ before ++ [EvPrint PBannerDraining] ++ after
    /\ forallb no_banner before = true
    /\ forallb no_banner after = true
    /\ List.length (refilling_states_read
                      (before ++ [EvPrint PBannerDraining] ++ after)) = 1%nat.
Proof.
  intro Hrun.
  destruct (perform_draining_reads dev w) as (response & evs & Hreads & He).
  rewrite Hrun in Hreads. cbn [snd] in Hreads.
  apply forallb_both in He. destruct He as [_ Hn].
  unfold _perform_draining in Hrun.
  apply bind_ok in Hrun. destruct Hrun as ([] & w1 & Hcheck & Hrun).
  apply (ok_every no_banner) in Hcheck;
    [|apply (sat_check_refilling_state _ _ _ (every_closed _)); omits].
  destruct Hcheck as (before & Ht1 & He1).
  apply bind_ok in Hrun. destruct Hrun as ([] & w2 & Hprint & Hrun).
  unfold print in Hprint. injection Hprint as <-.
  apply (ok_every no_banner) in Hrun.
  2: { pose proof (every_closed no_banner) as HQ.
       apply (sat_bind _ _ HQ);
         [apply (sat_wait_confirmation _ _ _ HQ); omits|intros _].
       apply (sat_wait_electrolyte_level _ _ _ HQ). omits. }
  destruct Hrun as (after & Ht2 & He2).
  rewrite trace_emit, Ht1, <- !app_assoc in Ht2.
  exists before, after. repeat split; try assumption.
  rewrite Hreads in Ht2. apply app_inv_head in Ht2. rewrite <- Ht2.
  rewrite refilling_states_read_app, (refilling_states_read_none _ Hn).
  reflexivity.
Qed.

(** C7 (as amended).  For every EL4.x maintenance run that ends well, whose
    first read of the refilling state reports DRAINING and whose fresh read
    after the draining phase (the third read of the state) does not report
    MAINTENANCE: the banner of the draining phase comes first, then the
    banner of the flushing phase, then the banner of the refilling phase;
    the flushing banner appears once; and in the flushing phase, right after
    the mixing time [hi; lo] (in milliseconds) has been read, the wait for
    the refilling state DRAINING runs with a timeout of twice that time
    converted to whole seconds. *)
Theorem el4x_phases_in_order dev initial_state w fresh :
  let run := _run_maintenance_4x dev initial_state w in
  let evs := events_since w (snd run) in
  state_read evs 0 = Some RefillingState.DRAINING ->
  state_read evs 2 = Some fresh ->
  fresh <> RefillingState.MAINTENANCE ->
  fst run = Ok tt ->
  exists a b c hi lo w1 w2 c' d,
    trace w1
    = trace w ++ a ++ [EvPrint PBannerDraining] ++ b
      ++ [EvPrint PBannerFlushing] ++ c
      ++ [EvReadHolding Holdings.REFILLING_MIXINGTIME_MS 2 (Some [hi; lo])]
    /\ _wait_refilling_state dev RefillingState.DRAINING
         ((Z.shiftl hi 16 + lo) / 1000 * 2) w1 = (Ok tt, w2)
    /\ trace (snd run)
       = trace w2 ++ c' ++ [EvPrint PBannerRefilling] ++ d
    /\ forallb no_banner a = true
    /\ forallb no_banner b = true
    /\ forallb draining_only (c ++ events_since w1 w2 ++ c') = true
    /\ forallb refilling_only d = true.
Proof.
  intros run evs H0 Hfresh Hne Hok. subst evs run.
  destruct (_run_maintenance_4x dev initial_state w) as [r wf] eqn:Hrun.
  cbn [fst snd] in *. subst r.
  rewrite run_maintenance_4x_steps in Hrun.
  apply bind_ok in Hrun. destruct Hrun as ([] & w0 & Hp & Hrun).
  unfold print in Hp. injection Hp as <-.
  apply bind_ok in Hrun. destruct Hrun as ([] & w1 & Hon & Hrun).
  apply (ok_every (fun ev => no_banner ev && no_state_read ev)) in Hon;
    [|apply (sat_maintenance_on _ _ _ (every_closed _)); omits].
  destruct Hon as (evs1 & Ht1 & He1).
  apply forallb_both in He1. destruct He1 as [Hb1 Hn1].
  pose proof (refilling_states_read_none _ Hn1) as Hs1.
  rewrite trace_emit, <- app_assoc in Ht1.
  apply bind_ok in Hrun. destruct Hrun as (s0 & w2 & Hread & Hrun).
  destruct (actual_refilling_state_run dev w1) as [[raw0 Hr0]|Hr0];
    rewrite Hr0 in Hread; [|discriminate].
  injection Hread as <- <-.
  set (pre := [EvPrint PRunning4x] ++ evs1
              ++ [EvReadInput Inputs.REFILLING_STATE 1 (Some [raw0])]).
  assert (Hreads : refilling_states_read pre = [Some [raw0]])
    by (unfold pre; rewrite !refilling_states_read_app, Hs1; reflexivity).
  assert (Hpre : forallb no_banner pre = true)
    by (unfold pre; rewrite !forallb_app, Hb1; reflexivity).
  assert (Ht2 : trace (emit dev
                         (EvReadInput Inputs.REFILLING_STATE 1 (Some [raw0]))
                         w1) = trace w ++ pre)
    by (unfold pre; rewrite trace_emit, Ht1, <- !app_assoc; reflexivity).
  set (w2 := emit dev (EvReadInput Inputs.REFILLING_STATE 1 (Some [raw0])) w1)
    in *.
  clearbody pre w2.
  assert (Hs0 : RefillingState.of_value raw0 = RefillingState.DRAINING).
  { destruct (decide_4x_extends dev (RefillingState.of_value raw0) w2)
      as [tail Htail].
    rewrite Hrun in Htail. cbn [snd] in Htail.
    rewrite Ht2, <- app_assoc in Htail.
    rewrite (events_since_app _ _ _ Htail) in H0.
    rewrite state_read_prefix in H0 by (rewrite Hreads; cbn; lia).
    unfold state_read in H0. rewrite Hreads in H0. cbn in H0. congruence. }
  rewrite Hs0 in Hrun. unfold decide_4x in Hrun.
  apply bind_ok in Hrun. destruct Hrun as (required & w2' & Hret & Hrun).
  unfold ret in Hret. injection Hret as <- <-. cbn [fst snd when] in Hrun.
  apply bind_ok in Hrun. destruct Hrun as ([] & w3 & Hdrain & Hrun).
  apply perform_draining_ok in Hdrain.
  destruct Hdrain as (before & after & Ht3 & Hbb & Hba & Hone).
  rewrite Ht2, <- !app_assoc in Ht3.
  unfold continue_4x in Hrun.
  apply bind_ok in Hrun. destruct Hrun as (s & w4 & Hread & Hrun).
  destruct (actual_refilling_state_run dev w3) as [[raw Hr]|Hr];
    rewrite Hr in Hread; [|discriminate].
  injection Hread as <- <-. cbv zeta in Hrun.
  assert (Hs : RefillingState.of_value raw = fresh).
  { destruct (flush_refill_and_finish_4x_extends dev
                (if RefillingState.eqb (RefillingState.of_value raw)
                      RefillingState.MAINTENANCE
                 then false else true)
                (emit dev (EvReadInput Inputs.REFILLING_STATE 1 (Some [raw]))
                   w3)) as [tail Htail].
    rewrite Hrun in Htail.
    cbn [snd] in Htail. rewrite trace_emit, Ht3 in Htail.
    assert (Hall : trace wf
                   = trace w
                     ++ (pre ++ before ++ [EvPrint PBannerDraining] ++ after)
                     ++ [EvReadInput Inputs.REFILLING_STATE 1 (Some [raw])]
                     ++ tail)
      by (rewrite Htail, <- !app_assoc; reflexivity).
    rewrite (events_since_app _ _ _ Hall) in Hfresh.
    assert (Hlen : List.length
                     (refilling_states_read
                        (pre ++ before ++ [EvPrint PBannerDraining] ++ after))
                   = 2%nat)
      by (rewrite refilling_states_read_app, length_app, Hreads, Hone;
          reflexivity).
    unfold state_read in Hfresh.
    rewrite refilling_states_read_app, nth_error_app2 in Hfresh
      by (rewrite Hlen; lia).
    rewrite Hlen in Hfresh. cbn in Hfresh. congruence. }
  rewrite Hs in Hrun. apply refilling_eqb_neq in Hne. rewrite Hne in Hrun.
  cbn [when] in Hrun.
  apply bind_ok in Hrun. destruct Hrun as ([] & w5 & Hflush & Hfin).
  set (w4 := emit dev (EvReadInput Inputs.REFILLING_STATE 1 (Some [raw])) w3)
    in *.
  assert (Ht4 : trace w4
                = trace w ++ (pre ++ before) ++ [EvPrint PBannerDraining]
                  ++ (after
                      ++ [EvReadInput Inputs.REFILLING_STATE 1 (Some [raw])]))
    by (unfold w4; rewrite trace_emit, Ht3, <- !app_assoc; reflexivity).
  clearbody w4.
  (* the flushing phase *)
  rewrite perform_flushing_steps in Hflush.
  apply bind_ok in Hflush. destruct Hflush as ([] & w4a & Hp & Hflush).
  unfold print in Hp. injection Hp as <-.
  apply bind_ok in Hflush. destruct Hflush as ([] & w4b & Hsteps & Hflush).
  apply (ok_every draining_only) in Hsteps;
    [|apply flushing_steps_every; omits].
  destruct Hsteps as (c & Htc & Hec). rewrite trace_emit in Htc.
  apply bind_ok in Hflush.
  destruct Hflush as (mixing_time & wm & Hmix & Hflush).
  apply actual_refilling_mixing_time_ok in Hmix.
  destruct Hmix as (hi & lo & -> & ->).
  apply bind_ok in Hflush. destruct Hflush as ([] & ww & Hwait & Hdrain).
  pose proof Hwait as Hwait'.
  apply (ok_every draining_only) in Hwait';
    [|apply (sat_wait_refilling_state _ _ _ (every_closed _)); omits].
  destruct Hwait' as (evs_w & Htw & Hew).
  apply (ok_every draining_only) in Hdrain;
    [|apply (sat_perform_draining _ _ _ (every_closed _)); omits].
  destruct Hdrain as (evs_d & Htd & Hed).
  (* the refilling phase and the end of the sequence *)
  unfold refill_and_finish_4x in Hfin.
  apply bind_ok in Hfin. destruct Hfin as ([] & w6 & Hrefill & Hfin).
  rewrite perform_refilling_steps in Hrefill.
  apply bind_ok in Hrefill. destruct Hrefill as ([] & w5a & Hcheck & Hrefill).
  apply (ok_every draining_only) in Hcheck;
    [|apply (sat_check_refilling_state _ _ _ (every_closed _)); omits].
  destruct Hcheck as (evs_c & Htck & Heck).
  apply bind_ok in Hrefill. destruct Hrefill as ([] & w5b & Hp & Hrefill).
  unfold print in Hp. injection Hp as <-.
  apply (ok_every refilling_only) in Hrefill.
  2: { apply (sat_bind _ _ (every_closed _));
         [apply refilling_steps_every; omits|intros _].
       apply (sat_check_refilling_state _ _ _ (every_closed _)). omits. }
  destruct Hrefill as (evs_r & Htr & Her). rewrite trace_emit in Htr.
  apply (ok_every refilling_only) in Hfin;
    [|apply turn_off_and_finish_4x_every; try omits; reflexivity].
  destruct Hfin as (evs_f & Htf & Hef).
  exists (pre ++ before),
    (after ++ [EvReadInput Inputs.REFILLING_STATE 1 (Some [raw])]),
    c, hi, lo,
    (emit dev
       (EvReadHolding Holdings.REFILLING_MIXINGTIME_MS 2 (Some [hi; lo])) w4b),
    ww, (evs_d ++ evs_c), (evs_r ++ evs_f).
  split; [rewrite trace_emit, Htc, Ht4, <- !app_assoc; reflexivity|].
  split; [exact Hwait|].
  split; [rewrite Htf, Htr, Htck, Htd, <- !app_assoc; reflexivity|].
  split; [rewrite forallb_app, Hpre, Hbb; reflexivity|].
  split; [rewrite forallb_app, Hba; reflexivity|].
  split.
  - rewrite (events_since_app _ _ _ Htw).
    rewrite !forallb_app, Hec, Hew, Hed, Heck. reflexivity.
  - rewrite forallb_app, Her, Hef. reflexivity.
Qed.

(** An EL4.0 that goes through the three phases: drained, flushed with
    water at 2.0 bar, refilled to MEDIUM and then to HIGH; the mixing time
    is 10 s. *)
Definition el40_drained_and_flushed : Device :=
  scripted_device
    [ (Inputs.STATE, [[2]]);
      (Inputs.REFILLING_STATE,
       [[4]; [4]; [11]; [11]; [4]; [4]; [5]; [6]; [8]; [13]; [2]]);
      (Inputs.WARNINGS, [[0]]);
      (Inputs.LSL102D_IN, [[0]; [0]; [1]; [0]; [1]]);
      (Inputs.LSM102C_IN, [[0]; [0]; [1]; [0]; [0]; [0]; [1]]);
      (Inputs.LSH102B_IN, [[0]; [0]; [1]; [0]; [0]; [0]; [0]; [1]]);
      (Inputs.LSHH102A_IN, [[0]]);
      (Inputs.PT105_IN_BAR, [[0x4000; 0]]) ]
    [ (Holdings.REFILLING_MINWATERPPESSURE_BAR, [[0x3F80; 0]]);
      (Holdings.REFILLING_MAXWATERPPESSURE_BAR, [[0x4080; 0]]);
      (Holdings.REFILLING_MIXINGTIME_MS, [[0; 10000]]) ].

Lemma el4x_phases_in_order_witness :
  let w := initial_world ["YES"; "YES"; "YES"; "YES"; "YES"; "YES"] in
  let run :=
    _run_maintenance_4x el40_drained_and_flushed State.MAINTENANCE_MODE w in
  exists a b c hi lo w1 w2 c' d,
    trace w1
    = trace w ++ a ++ [EvPrint PBannerDraining] ++ b
      ++ [EvPrint PBannerFlushing] ++ c
      ++ [EvReadHolding Holdings.REFILLING_MIXINGTIME_MS 2 (Some [hi; lo])]
    /\ _wait_refilling_state el40_drained_and_flushed RefillingState.DRAINING
         ((Z.shiftl hi 16 + lo) / 1000 * 2) w1 = (Ok tt, w2)
    /\ trace (snd run)
       = trace w2 ++ c' ++ [EvPrint PBannerRefilling] ++ d
    /\ forallb no_banner a = true
    /\ forallb no_banner b = true
    /\ forallb draining_only (c ++ events_since w1 w2 ++ c') = true
    /\ forallb refilling_only d = true.
Proof.
  apply (el4x_phases_in_order el40_drained_and_flushed State.MAINTENANCE_MODE
           (initial_world ["YES"; "YES"; "YES"; "YES"; "YES"; "YES"])
           RefillingState.WAIT_FLUSHING).
  - vm_compute. reflexivity.
  - vm_compute. reflexivity.
  - discriminate.
  - vm_compute. reflexivity.
Defined.

(** C7 as stated fails when the maintenance was interrupted: the refilling
    state is DRAINING at first, the run ends well with the draining and the
    refilling phases, and the flushing phase never runs. *)
Lemma interrupted_run_has_no_flushing_phase :
  let w := initial_world ["YES"; "YES"; "YES"] in
  let run := _run_maintenance_4x el40_interrupted State.MAINTENANCE_MODE w in
  state_read (events_since w (snd run)) 0 = Some RefillingState.DRAINING
  /\ fst run = Ok tt
  /\ existsb draining_banner (trace (snd run)) = true
  /\ existsb refilling_banner (trace (snd run)) = true
  /\ existsb flushing_banner (trace (snd run)) = false
  /\ existsb flushing_event (trace (snd run)) = false.
Proof. vm_compute. repeat split. Qed.

(** ** The EL2.1 sequence at the first filling *)


(** Maintenance turned off: the register is written, and the operating
    state is then IDLE. *)
Lemma maintenance_off_ok dev w w' :
  _maintenance_off dev w = (Ok tt, w') ->
  exists raw,
    State.of_value raw = State.IDLE
    /\ trace w'
       = trace w
         ++ [EvPrint PTurningMaintenanceOff;
             EvWrite Holdings.MAINTENANCE 0;
             EvSleep REGISTER_WRITE_TIMEOUT;
             EvReadInput Inputs.STATE 1 (Some [raw]);
             EvPrint (PStateDetected State.IDLE);
             EvPrint PTurnedMaintenanceOff].
Proof.
  unfold _maintenance_off, _toggle_maintenance, _write_single_register,
    _actual_state.
  intro H.
  apply bind_ok in H. destruct H as ([] & w1 & Hp & H).
  unfold print in Hp. injection Hp as <-.
  apply bind_ok in H. destruct H as ([] & w2 & Hwrite & H).
  apply bind_ok in Hwrite. destruct Hwrite as ([] & w1' & Hw & Hsleep).
  injection Hw as <-.
  assert (Ht2 : trace w2
                = trace w
                  ++ [EvPrint PTurningMaintenanceOff;
                      EvWrite Holdings.MAINTENANCE 0;
                      EvSleep REGISTER_WRITE_TIMEOUT]).
  { pose proof (trace_time_sleep dev REGISTER_WRITE_TIMEOUT
                  (emit dev (EvWrite Holdings.MAINTENANCE 0)
                     (emit dev (EvPrint PTurningMaintenanceOff) w))) as Ht.
    rewrite Hsleep in Ht. cbn [snd] in Ht.
    rewrite Ht, !trace_emit, <- !app_assoc. reflexivity. }
  clear Hsleep.
  apply bind_ok in H. destruct H as (state & w3 & Hstate & H).
  apply bind_ok in Hstate. destruct Hstate as (response & w2a & Hread & Hstate).
  unfold _read_input_registers in Hread. injection Hread as <- <-.
  apply bind_ok in Hstate. destruct Hstate as (raw & w2b & Hsub & Hstate).
  destruct (next_input_one dev w2 Inputs.STATE) as [Hn|[raw' Hn]];
    rewrite Hn in Hsub; [discriminate|].
  cbn in Hsub. injection Hsub as <- <-. cbv zeta in Hstate.
  apply bind_ok in Hstate. destruct Hstate as ([] & w2c & Hp & Hstate).
  unfold print in Hp. injection Hp as <-.
  unfold ret in Hstate. injection Hstate as <- <-.
  destruct (State.eqb (State.of_value raw') State.IDLE) eqn:Hs;
    cbn [negb] in H; [|discriminate].
  apply state_eqb_eq in Hs. unfold print in H. injection H as <-.
  exists raw'. split; [exact Hs|].
  rewrite Hs, !trace_emit, Ht2, <- !app_assoc. reflexivity.
Qed.

(** The steps of [_run_maintenance_21] from the refilling phase on. *)
Definition refill_and_finish_21 (dev : Device) : M unit :=
  _perform_refilling dev true ;;
  _check_refilling_warnings dev ;;
  _maintenance_off dev ;;
  _check_refilling_state dev RefillingState.IDLE.

(** The steps of [_run_maintenance_21] once the refilling state has been
    read. *)
Definition decide_21 (dev : Device) (actual_refilling_state : RefillingState.t)
    : M unit :=
  draining_required <-
    match actual_refilling_state with
    | RefillingState.DRAINING => ret true
    | RefillingState.MAINTENANCE => print dev PFirstRefilling21 ;; ret false
    | _ => throw dev (MaintenanceModeException
                        (UnexpectedRefillingState actual_refilling_state))
    end ;;
  when draining_required (_perform_draining dev) ;;
  refill_and_finish_21 dev.

Lemma run_maintenance_21_steps dev initial_state :
  _run_maintenance_21 dev initial_state
  = (print dev PRunning21 ;;
     _maintenance_on dev initial_state ;;
     actual_refilling_state <- _actual_refilling_state dev ;;
     decide_21 dev actual_refilling_state).
Proof. reflexivity. Qed.











(** * Further properties of the procedures *)

(** ** The search for the top switch *)

Lemma find_shifted (p : bool -> bool) (l : list bool) (a : nat) :
  find (fun entry : nat * bool => p (snd entry))
    (combine (seq (S a) (List.length l)) l)
  = option_map (fun entry => (S (fst entry), snd entry))
      (find (fun entry : nat * bool => p (snd entry))
         (combine (seq a (List.length l)) l)).
Proof.
  revert a. induction l as [|s l IH]; intro a; [reflexivity|].
  cbn [List.length seq combine find snd]. destruct (p s); [reflexivity|].
  apply IH.
Qed.

(** The search descends from the top: a list that ends with a switch in the
    state looked for gives its length, any other gives what the list
    without its last switch gives. *)
Lemma search_top_switch_snoc switches switch enabled :
  _search_top_switch (switches ++ [switch]) enabled
  = if Bool.eqb switch enabled then Z.of_nat (List.length switches) + 1
    else _search_top_switch switches enabled.
Proof.
  unfold _search_top_switch, enumerate.
  rewrite rev_app_distr. cbn [rev app List.length seq combine find snd].
  destruct (Bool.eqb switch enabled);
    [rewrite length_app; cbn [List.length]; lia|].
  pose proof (find_shifted (fun s => Bool.eqb s enabled) (rev switches) 0)
    as Hshift.
  cbv beta in Hshift. rewrite Hshift. clear Hshift.
  destruct (find _ (combine (seq 0 (List.length (rev switches)))
                      (rev switches))) as [[index s]|];
    cbn [option_map fst snd]; [|reflexivity].
  rewrite length_app. cbn [List.length]. lia.
Qed.

Lemma search_top_switch_nil enabled : _search_top_switch [] enabled = 0.
Proof. reflexivity. Qed.

(** X1.  [_search_top_switch] returns the position, counted from one, of
    the highest switch that is in the state looked for, and zero when there
    is none: the result lies between zero and the number of switches; it is
    zero exactly when no switch is in that state; otherwise the switch at
    that position is in that state and no switch above it is. *)
Theorem search_top_switch_position switches enabled :
  let top := _search_top_switch switches enabled in
  let other := fun switch : bool => negb (Bool.eqb switch enabled) in
  0 <= top <= Z.of_nat (List.length switches)
  /\ (top = 0 <-> forallb other switches = true)
  /\ (0 < top ->
      nth_error switches (Z.to_nat top - 1) = Some enabled
      /\ forallb other (skipn (Z.to_nat top) switches) = true).
Proof.
  cbv zeta. induction switches as [|switch switches IH] using rev_ind.
  - rewrite search_top_switch_nil. repeat split; try reflexivity; try lia.
  - rewrite search_top_switch_snoc, length_app, forallb_app.
    cbn [List.length forallb]. rewrite andb_true_r.
    destruct IH as (Hbound & Hzero & Htop).
    destruct (Bool.eqb switch enabled) eqn:Heq; cbn [negb].
    + apply eqb_prop in Heq. subst switch.
      split; [lia|]. split.
      * rewrite andb_false_r. split; [lia|discriminate].
      * intros _.
        replace (Z.to_nat (Z.of_nat (List.length switches) + 1) - 1)%nat
          with (List.length switches) by lia.
        replace (Z.to_nat (Z.of_nat (List.length switches) + 1))
          with (List.length (switches ++ [enabled]))
          by (rewrite length_app; cbn; lia).
        rewrite nth_error_app2, Nat.sub_diag, skipn_all by lia.
        split; reflexivity.
    + rewrite andb_true_r. split; [lia|]. split; [exact Hzero|].
      intro Hpos. destruct (Htop Hpos) as [Hnth Habove].
      assert (Hlt : (Z.to_nat (_search_top_switch switches enabled) - 1
                     < List.length switches)%nat) by lia.
      rewrite nth_error_app1 by exact Hlt. split; [exact Hnth|].
      rewrite skipn_app, forallb_app, Habove.
      replace (Z.to_nat (_search_top_switch switches enabled)
               - List.length switches)%nat with O by lia.
      cbn [skipn forallb]. rewrite Heq. reflexivity.
Qed.

(** ** The outcomes of a reading of the level *)

Definition switch_addresses : list Z :=
  [Inputs.LSL102D_IN; Inputs.LSM102C_IN; Inputs.LSH102B_IN;
   Inputs.LSHH102A_IN].

(** X2.  A reading of the electrolyte level fails in two ways only: with
    [TypeError], exactly when the request for one of the four switches
    fails, and with the [MaintenanceModeException] of a gap between the
    switches.  The conversion of the position to a level never fails. *)
Theorem electrolyte_level_outcomes dev logging w :
  let result := fst (_electrolyte_level dev logging w) in
  (result = Raise TypeError
   <-> exists address,
         In address switch_addresses /\ next_input dev w address 1 = None)
  /\ (forall e, result = Raise e ->
        e = TypeError
        \/ exists level below,
             e = MaintenanceModeException (SwitchGap level below)).
Proof.
  cbv zeta.
  destruct (next_input_one dev w Inputs.LSL102D_IN) as [Hl|[low Hl]];
  [|destruct (next_input_one dev w Inputs.LSM102C_IN) as [Hm|[medium Hm]];
    [|destruct (next_input_one dev w Inputs.LSH102B_IN) as [Hh|[high Hh]];
      [|destruct (next_input_one dev w Inputs.LSHH102A_IN)
          as [Hv|[very_high Hv]]]]].
  5: { rewrite (electrolyte_level_run dev logging w _ _ _ _ Hl Hm Hh Hv).
       cbv zeta.
       destruct (bottom_run _); cbn [fst]; split;
         try (split; [discriminate|]);
         try (intros e He; discriminate).
       - intros (address & Hin & Hnone). exfalso.
         cbn in Hin. destruct Hin as [<-|[<-|[<-|[<-|[]]]]]; congruence.
       - intros (address & Hin & Hnone). exfalso.
         cbn in Hin. destruct Hin as [<-|[<-|[<-|[<-|[]]]]]; congruence.
       - intros e He. injection He as <-. right. eexists _, _. reflexivity. }
  all: assert (Hr : fst (_electrolyte_level dev logging w) = Raise TypeError)
    by (unfold _electrolyte_level, _low_level_switch, _medium_level_switch,
          _high_level_switch, _very_high_level_switch, _read_input_registers,
          bind;
        cbn [fst snd];
        repeat (rewrite ?next_input_emit by reflexivity;
                first [rewrite Hl|rewrite Hm|rewrite Hh|rewrite Hv];
                cbn [subscript nth_error throw ret fst snd]);
        reflexivity).
  all: rewrite Hr; split;
    [split; [intros _|reflexivity]
    |intros e He; injection He as <-; left; reflexivity].
  - exists Inputs.LSL102D_IN. split; [cbn; tauto|exact Hl].
  - exists Inputs.LSM102C_IN. split; [cbn; tauto|exact Hm].
  - exists Inputs.LSH102B_IN. split; [cbn; tauto|exact Hh].
  - exists Inputs.LSHH102A_IN. split; [cbn; tauto|exact Hv].
Qed.

(** ** The confirmation of the operator *)








(** ** Waiting for a refilling state *)

(** The polls that did not find the state waited for: the state is read,
    then the script sleeps. *)
Definition waits (raws : list Z) : list Event :=
  flat_map (fun raw =>
              [EvReadInput Inputs.REFILLING_STATE 1 (Some [raw]);
               EvSleep REFILLING_STATE_CHECK_TIMEOUT])
    raws.

Lemma wait_state_loop_ok dev expected timeout wait_until w w' :
  _wait_refilling_state_loop dev expected timeout wait_until w = (Ok tt, w') ->
  exists raws raw,
    trace w'
    = trace w ++ waits raws
      ++ [EvReadInput Inputs.REFILLING_STATE 1 (Some [raw])]
    /\ forallb (fun r => negb (RefillingState.eqb (RefillingState.of_value r)
                                 expected)) raws = true
    /\ RefillingState.of_value raw = expected
    /\ clock w + 1000 * REFILLING_STATE_CHECK_TIMEOUT
                 * Z.of_nat (List.length raws) < wait_until.
Proof.
  remember (sleeps_left wait_until w) as n eqn:Hn. revert w Hn.
  induction n as [n IH] using lt_wf_ind. intros w Hn. subst n.
  rewrite wait_state_loop_unfold.
  destruct (clock w <? wait_until) eqn:Hbefore; [|discriminate].
  apply Z.ltb_lt in Hbefore.
  pose proof (sleeps_left_after_state dev wait_until w Hbefore) as Hdec.
  pose proof (steady_actual_refilling_state dev w) as Hsteady.
  destruct (actual_refilling_state_run dev w) as [[raw Hr]|Hr];
    rewrite Hr in *; [|discriminate].
  cbn [snd] in *.
  destruct (RefillingState.eqb (RefillingState.of_value raw) expected)
    eqn:Hs.
  - intro H. injection H as <-. exists [], raw.
    apply refilling_eqb_eq in Hs.
    repeat split; try assumption; try reflexivity.
    cbn [List.length]. lia.
  - intro H.
    destruct (IH _ Hdec _ eq_refl H) as (raws & raw' & Ht & Hraws & Hlast & Hc).
    exists (raw :: raws), raw'.
    split; [|split; [|split; [exact Hlast|]]].
    + rewrite Ht, trace_time_sleep, trace_emit. cbn [waits flat_map].
      rewrite <- !app_assoc. reflexivity.
    + cbn [forallb]. rewrite Hs, Hraws. reflexivity.
    + pose proof (clock_time_sleep dev REFILLING_STATE_CHECK_TIMEOUT
                    (emit dev
                       (EvReadInput Inputs.REFILLING_STATE 1 (Some [raw])) w))
        as Hsleep.
      cbn [List.length]. unfold REFILLING_STATE_CHECK_TIMEOUT in *. lia.
Qed.

(** X5.  [_wait_refilling_state] returns only when the last state it has
    read is the one waited for: before that it has read the state and slept
    five seconds for each poll that found another state, and these sleeps
    fit into the timeout. *)
Theorem wait_refilling_state_returns dev expected timeout w w' :
  _wait_refilling_state dev expected timeout w = (Ok tt, w') ->
  exists raws raw,
    events_since w w'
    = waits raws ++ [EvReadInput Inputs.REFILLING_STATE 1 (Some [raw])]
    /\ forallb (fun r => negb (RefillingState.eqb (RefillingState.of_value r)
                                 expected)) raws = true
    /\ RefillingState.of_value raw = expected
    /\ REFILLING_STATE_CHECK_TIMEOUT * Z.of_nat (List.length raws) < timeout.
Proof.
  unfold _wait_refilling_state, bind, time_time. cbv zeta. intro H.
  apply wait_state_loop_ok in H.
  destruct H as (raws & raw & Ht & Hraws & Hlast & Hc).
  exists raws, raw. split; [apply events_since_app; exact Ht|].
  split; [exact Hraws|]. split; [exact Hlast|].
  unfold REFILLING_STATE_CHECK_TIMEOUT in *. lia.
Qed.

(** A device whose refilling state is DRAINING for two polls and
    WAIT_FLUSHING from then on. *)
Definition drained_at_third_poll : Device :=
  scripted_device [(Inputs.REFILLING_STATE, [[4]; [4]; [11]])] [].

Lemma wait_refilling_state_returns_witness :
  let run :=
    _wait_refilling_state drained_at_third_poll RefillingState.WAIT_FLUSHING 20
      (initial_world []) in
  exists raws raw,
    events_since (initial_world []) (snd run)
    = waits raws ++ [EvReadInput Inputs.REFILLING_STATE 1 (Some [raw])]
    /\ forallb (fun r => negb (RefillingState.eqb (RefillingState.of_value r)
                                 RefillingState.WAIT_FLUSHING)) raws = true
    /\ RefillingState.of_value raw = RefillingState.WAIT_FLUSHING
    /\ REFILLING_STATE_CHECK_TIMEOUT * Z.of_nat (List.length raws) < 20.
Proof.
  apply (wait_refilling_state_returns drained_at_third_poll
           RefillingState.WAIT_FLUSHING 20 (initial_world [])).
  vm_compute. reflexivity.
Defined.

(** The device never reports the state waited for. *)
Definition state_never (dev : Device) (expected : RefillingState.t) : Prop :=
  forall w, exists actual,
    fst (_actual_refilling_state dev w) = Ok actual /\ actual <> expected.

Lemma wait_state_loop_timeout dev expected timeout wait_until w :
  state_never dev expected ->
  let run := _wait_refilling_state_loop dev expected timeout wait_until w in
  fst run = Raise (MaintenanceModeException (FailedWaitState expected timeout))
  /\ wait_until <= clock (snd run)
  /\ exists evs,
      trace (snd run) = trace w ++ evs
      /\ 1000 * REFILLING_STATE_CHECK_TIMEOUT * sleeps evs
         < Z.max 0 (wait_until - clock w)
           + 1000 * REFILLING_STATE_CHECK_TIMEOUT.
Proof.
  intros Hnever. cbv zeta.
  remember (sleeps_left wait_until w) as n eqn:Hn. revert w Hn.
  induction n as [n IH] using lt_wf_ind. intros w Hn. subst n.
  rewrite wait_state_loop_unfold.
  destruct (clock w <? wait_until) eqn:Hbefore.
  2: { apply Z.ltb_ge in Hbefore. split; [reflexivity|]. split.
       - pose proof (steady_throw dev (A:=unit)
                       (MaintenanceModeException
                          (FailedWaitState expected timeout)) w).
         lia.
       - eexists. split; [reflexivity|].
         unfold REFILLING_STATE_CHECK_TIMEOUT, sleeps; simpl. lia. }
  apply Z.ltb_lt in Hbefore.
  pose proof (sleeps_left_after_state dev wait_until w Hbefore) as Hdec.
  pose proof (steady_actual_refilling_state dev w) as Hsteady.
  destruct (Hnever w) as (actual & Hactual & Hneq).
  destruct (actual_refilling_state_run dev w) as [[raw Hr]|Hr];
    rewrite Hr in *; cbn [fst snd] in *; [|discriminate].
  injection Hactual as Hactual. rewrite Hactual.
  apply refilling_eqb_neq in Hneq. rewrite Hneq.
  destruct (IH _ Hdec _ eq_refl) as (Hres & Hclock & evs & Hevs & Hsl).
  split; [exact Hres|]. split; [exact Hclock|].
  exists ([EvReadInput Inputs.REFILLING_STATE 1 (Some [raw])]
          ++ [EvSleep REFILLING_STATE_CHECK_TIMEOUT] ++ evs).
  split.
  - rewrite Hevs, trace_time_sleep, trace_emit, <- !app_assoc. reflexivity.
  - rewrite !sleeps_app.
    pose proof (clock_time_sleep dev REFILLING_STATE_CHECK_TIMEOUT
                  (emit dev
                     (EvReadInput Inputs.REFILLING_STATE 1 (Some [raw])) w))
      as Hsleep.
    unfold REFILLING_STATE_CHECK_TIMEOUT in *.
    change (sleeps [EvReadInput Inputs.REFILLING_STATE 1 (Some [raw])])
      with 0.
    change (sleeps [EvSleep 5]) with 1. lia.
Qed.

(** X6.  When the device never reports the state waited for,
    [_wait_refilling_state] ends with the [MaintenanceModeException]
    "Failed to wait for ... refilling state during ... seconds", which
    carries the timeout: it does so once the clock has reached the deadline
    and after a number of sleeps that the timeout bounds. *)
Theorem wait_refilling_state_times_out dev expected timeout w :
  state_never dev expected ->
  let run := _wait_refilling_state dev expected timeout w in
  fst run = Raise (MaintenanceModeException (FailedWaitState expected timeout))
  /\ clock w + 1000 * timeout <= clock (snd run)
  /\ REFILLING_STATE_CHECK_TIMEOUT * sleeps (events_since w (snd run))
     < Z.max 0 timeout + REFILLING_STATE_CHECK_TIMEOUT.
Proof.
  intro Hnever. unfold _wait_refilling_state, bind, time_time. cbv zeta.
  destruct (wait_state_loop_timeout dev expected timeout
              (clock w + 1000 * timeout) w Hnever)
    as (Hr & Hclock & evs & Hevs & Hsl).
  split; [exact Hr|]. split; [exact Hclock|].
  rewrite (events_since_app _ _ _ Hevs).
  unfold REFILLING_STATE_CHECK_TIMEOUT in *. lia.
Qed.

(** A device whose refilling state stays DRAINING. *)
Definition stuck_draining : Device :=
  scripted_device [(Inputs.REFILLING_STATE, [[4]])] [].

Lemma stuck_draining_never_idle :
  state_never stuck_draining RefillingState.IDLE.
Proof.
  intro w. exists RefillingState.DRAINING. split; [|discriminate].
  unfold _actual_refilling_state, bind, _read_input_registers.
  cbn [fst snd]. unfold stuck_draining.
  erewrite held_input by reflexivity. reflexivity.
Qed.

Lemma wait_refilling_state_times_out_witness :
  let run :=
    _wait_refilling_state stuck_draining RefillingState.IDLE 20
      (initial_world []) in
  fst run
  = Raise (MaintenanceModeException (FailedWaitState RefillingState.IDLE 20))
  /\ clock (initial_world []) + 1000 * 20 <= clock (snd run)
  /\ REFILLING_STATE_CHECK_TIMEOUT
     * sleeps (events_since (initial_world []) (snd run))
     < Z.max 0 20 + REFILLING_STATE_CHECK_TIMEOUT.
Proof.
  exact (wait_refilling_state_times_out stuck_draining RefillingState.IDLE 20
           (initial_world []) stuck_draining_never_idle).
Defined.

(** X7.  A timeout that is not positive gives [_wait_refilling_state] no
    poll at all: it raises at once, without a request to the device.  This
    is what the waits of the flushing phase and of the end of the refilling
    come to when the device reports a mixing time below one second, since
    their timeout is twice the mixing time in whole seconds. *)
Theorem wait_refilling_state_without_time dev expected w :
  (forall timeout,
     timeout <= 0 ->
     _wait_refilling_state dev expected timeout w
     = (Raise (MaintenanceModeException (FailedWaitState expected timeout)),
        emit dev
          (EvRaise
             (MaintenanceModeException (FailedWaitState expected timeout)))
          w))
  /\ (forall hi lo,
        next_holding dev w Holdings.REFILLING_MIXINGTIME_MS 2
        = Some [hi; lo] ->
        Z.shiftl hi 16 + lo < 1000 ->
        let run :=
          (mixing_time <- _actual_refilling_mixing_time dev ;;
           _wait_refilling_state dev expected (mixing_time * 2)) w in
        fst run
        = Raise (MaintenanceModeException (FailedWaitState expected 0))
        /\ events_since w (snd run)
           = [EvReadHolding Holdings.REFILLING_MIXINGTIME_MS 2
                (Some [hi; lo]);
              EvRaise
                (MaintenanceModeException (FailedWaitState expected 0))]).
Proof.
  assert (Hzero : forall w timeout,
             timeout <= 0 ->
             _wait_refilling_state dev expected timeout w
             = (Raise (MaintenanceModeException
                         (FailedWaitState expected timeout)),
                emit dev
                  (EvRaise
                     (MaintenanceModeException
                        (FailedWaitState expected timeout))) w)).
  { intros w0 timeout Ht. unfold _wait_refilling_state, bind, time_time.
    cbv zeta. cbn [fst snd]. rewrite wait_state_loop_unfold.
    replace (clock w0 <? clock w0 + 1000 * timeout) with false
      by (symmetry; apply Z.ltb_ge; lia).
    reflexivity. }
  split; [apply Hzero|].
  intros hi lo Hread Hshort run. subst run.
  assert (Hwords : forall x, In x [hi; lo] -> 0 <= x < 65536).
  { unfold next_holding in Hread.
    destruct (holding_registers dev _ _) as [regs|]; [|discriminate].
    cbn [option_map] in Hread.
    assert (Heq : words 2 regs = [hi; lo]) by congruence.
    intros x Hx. rewrite <- Heq in Hx. apply (words_range _ _ _ Hx). }
  assert (Hhi : 0 <= hi < 65536) by (apply Hwords; left; reflexivity).
  assert (Hlo : 0 <= lo < 65536)
    by (apply Hwords; right; left; reflexivity).
  assert (Hms : (Z.shiftl hi 16 + lo) / 1000 = 0).
  { apply Z.div_small. rewrite Z.shiftl_mul_pow2 in * by lia.
    change (2 ^ 16) with 65536 in *. lia. }
  rewrite bind_run.
  unfold _actual_refilling_mixing_time, bind, _read_holding_registers.
  cbn [fst snd]. rewrite Hread. cbn [word_list_to_long long_list ret fst snd].
  cbn [subscript nth_error ret fst snd]. rewrite Hms. cbn [Z.mul].
  rewrite Hzero by lia. cbn [fst snd].
  split; [reflexivity|].
  apply events_since_app. rewrite !trace_emit, <- !app_assoc. reflexivity.
Qed.

(** ** Waiting for an electrolyte level *)

(** A report of a level other than the given one, or no report. *)
Definition reports_other (expected : ElectrolyteLevel.t) (ev : Event)
    : bool :=
  match ev with
  | EvPrint (PLevelDetected level) =>
      negb (ElectrolyteLevel.eqb level expected)
  | _ => true
  end.

Lemma reads_report_nothing expected reads :
  forallb is_read reads = true ->
  forallb (reports_other expected) reads = true.
Proof.
  apply forallb_weaken. intros ev Hev. destruct ev; try discriminate;
    reflexivity.
Qed.

Lemma wait_level_loop_ok dev expected timeout refilling wait_until w w' :
  _wait_electrolyte_level_loop dev expected timeout refilling wait_until w
  = (Ok tt, w') ->
  exists evs,
    trace w' = trace w ++ evs ++ [EvPrint (PLevelDetected expected)]
    /\ forallb (reports_other expected) evs = true
    /\ 1000 * ELECTROLYTE_PRESENCE_CHECK_TIMEOUT * sleeps evs
       < wait_until - clock w.
Proof.
  remember (sleeps_left wait_until w) as n eqn:Hn. revert w Hn.
  induction n as [n IH] using lt_wf_ind. intros w Hn. subst n.
  rewrite wait_level_loop_unfold.
  destruct (clock w <? wait_until) eqn:Hbefore; [|discriminate].
  apply Z.ltb_lt in Hbefore.
  pose proof (sleeps_left_after_level dev true wait_until w Hbefore) as Hdec.
  pose proof (steady_electrolyte_level dev true w) as Hsteady.
  destruct (electrolyte_level_shape dev true w) as (reads & Hreads & _ & Htr).
  destruct (_electrolyte_level dev true w) as [[level|e] w1];
    cbn [fst snd] in *; [|discriminate].
  destruct (ElectrolyteLevel.eqb level expected) eqn:Heq.
  - intro H. injection H as <-. apply level_eqb_eq in Heq. subst level.
    exists reads. split; [exact Htr|].
    split; [apply reads_report_nothing; exact Hreads|].
    rewrite (sleeps_reads _ Hreads). lia.
  - destruct (refilling
              && (ElectrolyteLevel.value level
                  >? ElectrolyteLevel.value expected)); [discriminate|].
    intro H. destruct (IH _ Hdec _ eq_refl H) as (evs & Ht & He & Hs).
    exists (reads ++ [EvPrint (PLevelDetected level)]
            ++ [EvSleep ELECTROLYTE_PRESENCE_CHECK_TIMEOUT] ++ evs).
    split; [|split].
    + rewrite Ht, trace_time_sleep, Htr, <- !app_assoc. reflexivity.
    + rewrite !forallb_app, (reads_report_nothing _ _ Hreads), He.
      cbn [forallb reports_other]. rewrite Heq. reflexivity.
    + rewrite !sleeps_app, (sleeps_reads _ Hreads).
      pose proof (clock_time_sleep dev ELECTROLYTE_PRESENCE_CHECK_TIMEOUT w1)
        as Hsleep.
      unfold ELECTROLYTE_PRESENCE_CHECK_TIMEOUT in *.
      change (sleeps [EvPrint (PLevelDetected level)]) with 0.
      change (sleeps [EvSleep 10]) with 1. lia.
Qed.

(** X8.  [_wait_electrolyte_level] returns only when the level it has just
    reported is the one waited for, at its first report of that level, and
    the ten-second sleeps it has made before fit into the timeout. *)
Theorem wait_electrolyte_level_returns dev expected timeout refilling w w' :
  _wait_electrolyte_level dev expected timeout refilling w = (Ok tt, w') ->
  exists evs,
    events_since w w' = evs ++ [EvPrint (PLevelDetected expected)]
    /\ forallb (reports_other expected) evs = true
    /\ ELECTROLYTE_PRESENCE_CHECK_TIMEOUT * sleeps evs < timeout.
Proof.
  unfold _wait_electrolyte_level, bind, time_time. cbv zeta. intro H.
  apply wait_level_loop_ok in H. destruct H as (evs & Ht & He & Hs).
  exists evs. split; [apply events_since_app; exact Ht|].
  split; [exact He|]. unfold ELECTROLYTE_PRESENCE_CHECK_TIMEOUT in *. lia.
Qed.

(** A device whose switches report MEDIUM, then LOW, then EMPTY. *)
Definition draining_device : Device :=
  scripted_device
    [ (Inputs.LSL102D_IN, [[1]; [1]; [0]]);
      (Inputs.LSM102C_IN, [[1]; [0]]);
      (Inputs.LSH102B_IN, [[0]]);
      (Inputs.LSHH102A_IN, [[0]]) ]
    [].

Lemma wait_electrolyte_level_returns_witness :
  let run :=
    _wait_electrolyte_level draining_device ElectrolyteLevel.EMPTY
      DRAINING_TIMEOUT false (initial_world []) in
  exists evs,
    events_since (initial_world []) (snd run)
    = evs ++ [EvPrint (PLevelDetected ElectrolyteLevel.EMPTY)]
    /\ forallb (reports_other ElectrolyteLevel.EMPTY) evs = true
    /\ ELECTROLYTE_PRESENCE_CHECK_TIMEOUT * sleeps evs < DRAINING_TIMEOUT.
Proof.
  apply (wait_electrolyte_level_returns draining_device ElectrolyteLevel.EMPTY
           DRAINING_TIMEOUT false (initial_world [])).
  vm_compute. reflexivity.
Defined.

(** A device that reports a mixing time of 500 ms. *)
Definition short_mixing_device : Device :=
  scripted_device [(Inputs.REFILLING_STATE, [[4]])]
    [(Holdings.REFILLING_MIXINGTIME_MS, [[0; 500]])].

Lemma wait_refilling_state_without_time_witness :
  let run :=
    (mixing_time <- _actual_refilling_mixing_time short_mixing_device ;;
     _wait_refilling_state short_mixing_device RefillingState.DRAINING
       (mixing_time * 2)) (initial_world []) in
  fst run
  = Raise (MaintenanceModeException
             (FailedWaitState RefillingState.DRAINING 0))
  /\ events_since (initial_world []) (snd run)
     = [EvReadHolding Holdings.REFILLING_MIXINGTIME_MS 2 (Some [0; 500]);
        EvRaise
          (MaintenanceModeException
             (FailedWaitState RefillingState.DRAINING 0))].
Proof.
  apply (proj2 (wait_refilling_state_without_time short_mixing_device
                  RefillingState.DRAINING (initial_world [])) 0 500).
  - reflexivity.
  - reflexivity.
Defined.

(** ** Overshoots of the level *)

(** The events of a wait for a level that is not a refilling: a level above
    the expected one is no error there. *)
Definition alpha_wait_level_draining (expected : ElectrolyteLevel.t)
    (ev : Event) : bool :=
  alpha_level ev
  || raised (fun e => match e with
                      | MaintenanceModeException (FailedWaitLevel x _) =>
                          ElectrolyteLevel.eqb x expected
                      | _ => false
                      end) ev.

Ltac alphabets ::=
  unfold alpha_wait_level_draining, alpha_flushing_steps, alpha_refilling,
    alpha_flushing, alpha_finish, alpha_pipe, alpha_draining,
    alpha_handle_very_high, alpha_maintenance_on, alpha_maintenance_off,
    alpha_flushing_on, alpha_check_state, alpha_write, alpha_confirm,
    alpha_wait_state, alpha_wait_level, alpha_level, alpha_state,
    alpha_warnings, alpha_read_in, alpha_read_hold,
    is_WaterPipeException in *.

Lemma sat_wait_electrolyte_level_draining dev Q allowed
    (HQ : closed Q allowed) expected timeout :
  includes (alpha_wait_level_draining expected) allowed ->
  sat Q (_wait_electrolyte_level dev expected timeout false).
Proof.
  intro H. unfold _wait_electrolyte_level.
  apply (sat_bind _ _ HQ); [apply (sat_time_time _ _ HQ)|intro now].
  generalize (now + 1000 * timeout). intros wait_until w.
  remember (sleeps_left wait_until w) as n eqn:Hn. revert w Hn.
  induction n as [n IH] using lt_wf_ind. intros w Hn. subst n.
  rewrite wait_level_loop_unfold.
  destruct (clock w <? wait_until) eqn:Hbefore;
    [|apply (sat_throw _ _ _ HQ); allow H].
  apply Z.ltb_lt in Hbefore.
  pose proof (sleeps_left_after_level dev true wait_until w Hbefore) as Hdec.
  assert (Hl : includes alpha_level allowed) by part H.
  destruct (sat_electrolyte_level dev _ _ HQ true Hl w) as (evs1 & Ht1 & Hq1).
  destruct (_electrolyte_level dev true w) as [[level|e] w1];
    cbn [fst snd outcome andb] in *; [|exists evs1; auto].
  destruct (ElectrolyteLevel.eqb level expected) eqn:Heq;
    [exists evs1; auto|].
  destruct (IH _ Hdec _ eq_refl) as (evs2 & Ht2 & Hq2).
  exists (evs1 ++ [EvSleep ELECTROLYTE_PRESENCE_CHECK_TIMEOUT] ++ evs2).
  split.
  - rewrite Ht2, trace_time_sleep, Ht1, <- !app_assoc. reflexivity.
  - apply (closed_seq HQ); [exact Hq1|].
    apply (closed_seq HQ); [|exact Hq2].
    apply (closed_event HQ); [allow H|reflexivity].
Qed.

(** No event is the [raise] of a [HighElectrolyteLevelException]. *)
Definition no_overshoot (ev : Event) : bool :=
  negb (raised is_HighElectrolyteLevelException ev).

(** X9.  A wait for a level that is not part of a refilling (the draining,
    and the draining down to HIGH after a very high level) never raises
    [HighElectrolyteLevelException], whatever levels the device reports: no
    such exception is raised during the wait and none ends it. *)
Theorem wait_electrolyte_level_draining_no_overshoot dev expected timeout w :
  let run := _wait_electrolyte_level dev expected timeout false w in
  forallb no_overshoot (events_since w (snd run)) = true
  /\ (forall e,
        fst run = Raise e -> is_HighElectrolyteLevelException e = false).
Proof.
  cbv zeta.
  destruct (sat_wait_electrolyte_level_draining dev _ _
              (strict_closed (alpha_wait_level_draining expected))
              expected timeout (fun ev Hev => Hev) w)
    as (evs & Ht & Hq).
  rewrite (events_since_app _ _ _ Ht). split.
  - destruct Hq as [_ Hevery]. unfold every in Hevery.
    apply (forallb_weaken (alpha_wait_level_draining expected));
      [|exact Hevery].
    omits.
  - intros e He. rewrite He in Hq. cbn [outcome] in Hq.
    apply strict_raised in Hq. alphabets.
    destruct e as [[]|?|? ?| | | | | |?]; try reflexivity;
      cbn [raised harmless read_in printed orb] in Hq; discriminate Hq.
Qed.

(** A run is settled when it does not end with a
    [HighElectrolyteLevelException]. *)
Definition settled (o : option Exn) (_ : list Event) : Prop :=
  match o with
  | Some e => is_HighElectrolyteLevelException e = false
  | None => True
  end.

Lemma settled_closed : closed settled no_overshoot.
Proof.
  split; unfold settled; auto.
  intros e He. unfold no_overshoot in He. cbn [raised] in He.
  destruct (is_HighElectrolyteLevelException e); [discriminate He|reflexivity].
Qed.

(** A handler of [HighElectrolyteLevelException] that is settled settles
    the statement, whatever the protected suite does. *)
Lemma settled_try_except_else {A B} (body : M A) (handler : Exn -> M B)
    (orelse : A -> M B) :
  sat (every anything) body ->
  (forall e, sat settled (handler e)) ->
  (forall a, sat settled (orelse a)) ->
  sat settled
    (try_except_else body is_HighElectrolyteLevelException handler orelse).
Proof.
  intros Hb Hh Ho w. unfold try_except_else.
  destruct (Hb w) as (evs1 & Ht1 & _).
  destruct (body w) as [[a|e] w1]; cbn [fst snd] in *.
  - destruct (Ho a w1) as (evs2 & Ht2 & Hq2).
    exists (evs1 ++ evs2). rewrite Ht2, Ht1, app_assoc. auto.
  - destruct (is_HighElectrolyteLevelException e) eqn:He.
    + destruct (Hh e w1) as (evs2 & Ht2 & Hq2).
      exists (evs1 ++ evs2). rewrite Ht2, Ht1, app_assoc. auto.
    + exists evs1. split; [exact Ht1|exact He].
Qed.

Lemma settled_try_except {A} (body : M A) (handler : Exn -> M A) :
  sat (every anything) body ->
  (forall e, sat settled (handler e)) ->
  sat settled (try_except body is_HighElectrolyteLevelException handler).
Proof.
  intros Hb Hh w. unfold try_except.
  destruct (Hb w) as (evs1 & Ht1 & _).
  destruct (body w) as [[a|e] w1]; cbn [fst snd] in *.
  - exists evs1. split; [exact Ht1|exact I].
  - destruct (is_HighElectrolyteLevelException e) eqn:He.
    + destruct (Hh e w1) as (evs2 & Ht2 & Hq2).
      exists (evs1 ++ evs2). rewrite Ht2, Ht1, app_assoc. auto.
    + exists evs1. split; [exact Ht1|exact He].
Qed.

Lemma settled_try_finally {A} (body : M A) (finalbody : M unit) :
  sat settled body -> sat settled finalbody ->
  sat settled (try_finally body finalbody).
Proof.
  intros Hb Hf w. unfold try_finally.
  destruct (Hb w) as (evs1 & Ht1 & Hq1).
  destruct (body w) as [r w1]; cbn [fst snd] in *.
  destruct (Hf w1) as (evs2 & Ht2 & Hq2).
  destruct (finalbody w1) as [[u|e] w2]; cbn [fst snd outcome] in *;
    exists (evs1 ++ evs2); rewrite Ht2, Ht1, app_assoc; auto.
Qed.

Lemma settled_handle_very_high_electrolyte_level dev el_21 :
  sat settled (_handle_very_high_electrolyte_level dev el_21).
Proof.
  pose proof settled_closed as HQ.
  unfold _handle_very_high_electrolyte_level.
  apply (sat_bind _ _ HQ);
    [apply (sat_electrolyte_level _ _ _ HQ); omits|intro level].
  apply sat_if; [|apply (sat_ret _ _ HQ)].
  apply (sat_bind _ _ HQ); [apply (sat_print _ _ _ HQ); reflexivity|intros _].
  apply sat_if; [|apply (sat_throw _ _ _ HQ); reflexivity].
  apply (sat_bind _ _ HQ);
    [apply (sat_wait_confirmation _ _ _ HQ); omits|intros _].
  apply (sat_wait_electrolyte_level_draining _ _ _ HQ). omits.
Qed.

Lemma settled_perform_refilling dev el_21 :
  sat settled (_perform_refilling dev el_21).
Proof.
  pose proof settled_closed as HQ.
  pose proof (every_closed anything) as HA.
  apply (sat_ext settled _ _
           (fun w => eq_sym (perform_refilling_steps dev el_21 w))).
  apply (sat_bind _ _ HQ);
    [apply (sat_check_refilling_state _ _ _ HQ); omits|intros _].
  apply (sat_bind _ _ HQ); [apply (sat_print _ _ _ HQ); reflexivity|intros _].
  apply (sat_bind _ _ HQ);
    [|intros _; apply (sat_check_refilling_state _ _ _ HQ); omits].
  apply (sat_ext settled _ _
           (fun w => eq_sym (refilling_steps_stages dev el_21 w))).
  apply (sat_bind _ _ HQ); [|intros _].
  - unfold refill_to_low.
    apply (sat_bind _ _ HQ);
      [apply (sat_wait_confirmation _ _ _ HQ); omits|intros _].
    apply (sat_bind _ _ HQ);
      [apply (sat_print _ _ _ HQ); reflexivity|intros _].
    apply (sat_bind _ _ HQ); [|intros _].
    { apply (sat_when _ _ HQ). apply (sat_print _ _ _ HQ); reflexivity. }
    apply (sat_bind _ _ HQ);
      [apply (sat_print _ _ _ HQ); reflexivity|intros _].
    apply settled_try_finally.
    + apply settled_try_except_else.
      * apply (sat_wait_electrolyte_level _ _ _ HA). intros ev _. reflexivity.
      * intros _.
        apply (sat_bind _ _ HQ);
          [apply (sat_print _ _ _ HQ); reflexivity|intros _].
        apply settled_handle_very_high_electrolyte_level.
      * intros _. apply (sat_check_refilling_state _ _ _ HQ). omits.
    + apply sat_if; [|apply (sat_ret _ _ HQ)].
      apply (sat_bind _ _ HQ);
        [apply (sat_electrolyte_level _ _ _ HQ); omits|intro level].
      apply (sat_when _ _ HQ).
      apply (sat_check_refilling_state _ _ _ HQ). omits.
  - unfold refill_to_target.
    apply (sat_bind _ _ HQ);
      [apply (sat_electrolyte_level _ _ _ HQ); omits|intro level].
    apply (sat_when _ _ HQ).
    apply (sat_bind _ _ HQ);
      [apply (sat_print _ _ _ HQ); reflexivity|intros _].
    apply (sat_bind _ _ HQ); [|intros _].
    { apply (sat_when _ _ HQ). apply (sat_print _ _ _ HQ); reflexivity. }
    apply (sat_bind _ _ HQ);
      [apply (sat_print _ _ _ HQ); reflexivity|intros _].
    apply settled_try_except.
    + apply (sat_wait_electrolyte_level _ _ _ HA). intros ev _. reflexivity.
    + intros _. apply settled_handle_very_high_electrolyte_level.
Qed.

(** X10.  [HighElectrolyteLevelException] never leaves
    [_perform_refilling]: an overshoot of LOW or of the target level is
    handled inside the phase, and the handling itself waits without
    raising it, so the refilling phase ends in no case with this
    exception. *)
Theorem perform_refilling_handles_overshoot dev el_21 w e :
  fst (_perform_refilling dev el_21 w) = Raise e ->
  is_HighElectrolyteLevelException e = false.
Proof.
  intro He.
  destruct (settled_perform_refilling dev el_21 w) as (evs & _ & Hq).
  rewrite He in Hq. exact Hq.
Qed.

(** An EL4x in MAINTENANCE whose four switches are all on. *)
Definition overfilled_device : Device :=
  scripted_device
    [ (Inputs.REFILLING_STATE, [[5]]);
      (Inputs.LSL102D_IN, [[1]]);
      (Inputs.LSM102C_IN, [[1]]);
      (Inputs.LSH102B_IN, [[1]]);
      (Inputs.LSHH102A_IN, [[1]]) ]
    [].

Lemma perform_refilling_handles_overshoot_witness :
  let run := _perform_refilling overfilled_device false (initial_world ["YES"])
  in
  existsb (raised is_HighElectrolyteLevelException) (trace (snd run)) = true
  /\ fst run = Raise (MaintenanceModeException ContactSupport)
  /\ is_HighElectrolyteLevelException (MaintenanceModeException ContactSupport)
     = false.
Proof.
  split; [vm_compute; reflexivity|]. split; [vm_compute; reflexivity|].
  apply (perform_refilling_handles_overshoot overfilled_device false
           (initial_world ["YES"])).
  vm_compute. reflexivity.
Defined.

(** ** The writes of a run *)

(** The writes to the registers of the device, in the order of the run. *)
Definition writes (evs : list Event) : list Event := filter is_write evs.

Definition no_write (ev : Event) : bool := negb (is_write ev).

(** [subsequence l1 l2]: [l1] is [l2] with some elements left out. *)
Inductive subsequence {A : Type} : list A -> list A -> Prop :=
| subsequence_nil : subsequence [] []
| subsequence_skip x l1 l2 : subsequence l1 l2 -> subsequence l1 (x :: l2)
| subsequence_take x l1 l2 :
    subsequence l1 l2 -> subsequence (x :: l1) (x :: l2).

Lemma subsequence_none {A} (l : list A) : subsequence [] l.
Proof. induction l; constructor; assumption. Qed.

Lemma subsequence_refl {A} (l : list A) : subsequence l l.
Proof. induction l; constructor; assumption. Qed.

Lemma subsequence_app {A} (l1 l1' l2 l2' : list A) :
  subsequence l1 l1' -> subsequence l2 l2' ->
  subsequence (l1 ++ l2) (l1' ++ l2').
Proof.
  intros H1 H2. induction H1; cbn [app]; try constructor; assumption.
Qed.

Lemma subsequence_trans {A} (l1 l2 l3 : list A) :
  subsequence l1 l2 -> subsequence l2 l3 -> subsequence l1 l3.
Proof.
  intros H12 H23. revert l1 H12.
  induction H23 as [|x l2 l3 H23 IH|x l2 l3 H23 IH]; intros l1 H12.
  - exact H12.
  - constructor. apply IH. exact H12.
  - inversion H12; subst; constructor; apply IH; assumption.
Qed.

Lemma subsequence_length {A} (l1 l2 : list A) :
  subsequence l1 l2 -> (List.length l1 <= List.length l2)%nat.
Proof. intro H. induction H; cbn [List.length]; lia. Qed.

Lemma writes_app evs1 evs2 : writes (evs1 ++ evs2) = writes evs1 ++ writes evs2.
Proof. apply filter_app. Qed.

Lemma writes_quiet evs : forallb no_write evs = true -> writes evs = [].
Proof.
  induction evs as [|ev evs IH]; [reflexivity|].
  cbn [forallb]. intro H. apply andb_prop in H. destruct H as [H1 H2].
  unfold writes, no_write in *. cbn [filter].
  destruct (is_write ev); [discriminate H1|]. apply IH. exact H2.
Qed.

(** The writes of the run are among those of [L], in the order of [L]. *)
Definition within (L : list Event) (_ : option Exn) (evs : list Event)
    : Prop :=
  subsequence (writes evs) L.

Lemma within_closed : closed (within []) no_write.
Proof.
  split; unfold within.
  - constructor.
  - intros evs1 o evs2 H1 H2. rewrite writes_app.
    apply (subsequence_app _ [] _ []); assumption.
  - intros ev Ha _. rewrite writes_quiet; [constructor|].
    cbn [forallb]. rewrite Ha. reflexivity.
  - intros e _. constructor.
Qed.

Lemma within_bind L1 L2 {A B} (m : M A) (f : A -> M B) :
  sat (within L1) m -> (forall a, sat (within L2) (f a)) ->
  sat (within (L1 ++ L2)) (x <- m ;; f x).
Proof.
  intros Hm Hf w. rewrite bind_run.
  destruct (Hm w) as (evs1 & Ht1 & Hq1).
  destruct (m w) as [[a|e] w1]; cbn [fst snd] in *.
  - destruct (Hf a w1) as (evs2 & Ht2 & Hq2).
    exists (evs1 ++ evs2). rewrite Ht2, Ht1, app_assoc.
    split; [reflexivity|]. unfold within in *. rewrite writes_app.
    apply subsequence_app; assumption.
  - exists evs1. split; [exact Ht1|]. unfold within in *.
    rewrite <- (app_nil_r (writes evs1)).
    apply subsequence_app; [exact Hq1|apply subsequence_none].
Qed.

Lemma within_first L {A B} (m : M A) (f : A -> M B) :
  sat (within []) m -> (forall a, sat (within L) (f a)) ->
  sat (within L) (x <- m ;; f x).
Proof. apply (within_bind [] L). Qed.

Lemma within_last L {A B} (m : M A) (f : A -> M B) :
  sat (within L) m -> (forall a, sat (within []) (f a)) ->
  sat (within L) (x <- m ;; f x).
Proof.
  intros Hm Hf. rewrite <- (app_nil_r L). apply within_bind; assumption.
Qed.

Lemma within_weaken L L' {A} (m : M A) :
  subsequence L L' -> sat (within L) m -> sat (within L') m.
Proof.
  intros HL Hm w. destruct (Hm w) as (evs & Ht & Hq).
  exists evs. split; [exact Ht|].
  exact (subsequence_trans _ _ _ Hq HL).
Qed.

Lemma within_quiet L {A} (m : M A) :
  sat (every no_write) m -> sat (within L) m.
Proof.
  intros Hm w. destruct (Hm w) as (evs & Ht & Hq).
  exists evs. split; [exact Ht|]. unfold within.
  rewrite (writes_quiet _ Hq). apply subsequence_none.
Qed.

Lemma within_try_except_else L1 L2 {A B} (body : M A) (catches : Exn -> bool)
    (handler : Exn -> M B) (orelse : A -> M B) :
  sat (within L1) body ->
  (forall e, sat (within L2) (handler e)) ->
  (forall a, sat (within L2) (orelse a)) ->
  sat (within (L1 ++ L2)) (try_except_else body catches handler orelse).
Proof.
  intros Hb Hh Ho w. unfold try_except_else.
  destruct (Hb w) as (evs1 & Ht1 & Hq1).
  destruct (body w) as [[a|e] w1]; cbn [fst snd] in *.
  - destruct (Ho a w1) as (evs2 & Ht2 & Hq2).
    exists (evs1 ++ evs2). rewrite Ht2, Ht1, app_assoc.
    split; [reflexivity|]. unfold within in *. rewrite writes_app.
    apply subsequence_app; assumption.
  - destruct (catches e).
    + destruct (Hh e w1) as (evs2 & Ht2 & Hq2).
      exists (evs1 ++ evs2). rewrite Ht2, Ht1, app_assoc.
      split; [reflexivity|]. unfold within in *. rewrite writes_app.
      apply subsequence_app; assumption.
    + exists evs1. split; [exact Ht1|]. unfold within in *.
      rewrite <- (app_nil_r (writes evs1)).
      apply subsequence_app; [exact Hq1|apply subsequence_none].
Qed.

Lemma within_try_except L {A} (body : M A) (catches : Exn -> bool)
    (handler : Exn -> M A) :
  sat (within L) body ->
  (forall e, sat (within []) (handler e)) ->
  sat (within L) (try_except body catches handler).
Proof.
  intros Hb Hh w. unfold try_except.
  destruct (Hb w) as (evs1 & Ht1 & Hq1).
  destruct (body w) as [[a|e] w1]; cbn [fst snd] in *.
  - exists evs1. auto.
  - destruct (catches e).
    + destruct (Hh e w1) as (evs2 & Ht2 & Hq2).
      exists (evs1 ++ evs2). rewrite Ht2, Ht1, app_assoc.
      split; [reflexivity|]. unfold within in *. rewrite writes_app.
      rewrite <- (app_nil_r L). apply subsequence_app; assumption.
    + exists evs1. auto.
Qed.

(** The three writes of the script. *)
Definition write_maintenance_on : Event := EvWrite Holdings.MAINTENANCE 1.
Definition write_flushing_on : Event := EvWrite Holdings.FLUSHING 0.
Definition write_maintenance_off : Event := EvWrite Holdings.MAINTENANCE 0.

Lemma within_write_single_register dev address value :
  sat (within [EvWrite address value])
    (_write_single_register dev address value).
Proof.
  intro w. exists [EvWrite address value; EvSleep REGISTER_WRITE_TIMEOUT].
  split.
  - unfold _write_single_register. rewrite bind_run.
    rewrite trace_time_sleep, trace_emit, <- app_assoc. reflexivity.
  - apply subsequence_refl.
Qed.

Lemma within_maintenance_on dev initial_state :
  sat (within (if State.eqb initial_state State.IDLE
               then [write_maintenance_on] else []))
    (_maintenance_on dev initial_state).
Proof.
  pose proof within_closed as HQ. unfold _maintenance_on.
  destruct (State.eqb initial_state State.IDLE).
  - apply within_first; [apply (sat_print _ _ _ HQ); reflexivity|intros _].
    apply within_last;
      [apply (within_write_single_register dev Holdings.MAINTENANCE 1)|].
    intros _.
    apply (sat_bind _ _ HQ);
      [apply (sat_actual_state _ _ _ HQ); omits|intro state].
    apply sat_if;
      [apply (sat_throw _ _ _ HQ)|apply (sat_print _ _ _ HQ)]; reflexivity.
  - apply (sat_print _ _ _ HQ). reflexivity.
Qed.

Lemma within_maintenance_off dev :
  sat (within [write_maintenance_off]) (_maintenance_off dev).
Proof.
  pose proof within_closed as HQ. unfold _maintenance_off.
  apply within_first; [apply (sat_print _ _ _ HQ); reflexivity|intros _].
  apply within_last;
    [apply (within_write_single_register dev Holdings.MAINTENANCE 0)|].
  intros _.
  apply (sat_bind _ _ HQ);
    [apply (sat_actual_state _ _ _ HQ); omits|intro state].
  apply sat_if;
    [apply (sat_throw _ _ _ HQ)|apply (sat_print _ _ _ HQ)]; reflexivity.
Qed.

Lemma within_perform_flushing dev :
  sat (within [write_flushing_on]) (_perform_flushing dev).
Proof.
  pose proof within_closed as HQ. unfold _perform_flushing.
  apply within_first; [apply (sat_print _ _ _ HQ); reflexivity|intros _].
  apply within_first;
    [apply (sat_check_refilling_state _ _ _ HQ); omits|intros _].
  apply within_first;
    [apply (sat_wait_confirmation _ _ _ HQ); omits|intros _].
  apply within_first;
    [apply (sat_check_water_pipe_connection _ _ _ HQ); omits|intros _].
  apply within_first;
    [apply (sat_wait_confirmation _ _ _ HQ); omits|intros _].
  apply within_last.
  - unfold _flushing_on.
    apply within_first; [apply (sat_print _ _ _ HQ); reflexivity|intros _].
    apply within_last;
      [apply (within_write_single_register dev Holdings.FLUSHING 0)|].
    intros _. apply (sat_print _ _ _ HQ). reflexivity.
  - intros _.
    apply (sat_bind _ _ HQ);
      [apply (sat_wait_electrolyte_level _ _ _ HQ); omits|intros _].
    apply (sat_bind _ _ HQ);
      [apply (sat_check_refilling_warnings _ _ _ HQ); omits|intros _].
    apply (sat_bind _ _ HQ);
      [apply (sat_print _ _ _ HQ); reflexivity|intros _].
    apply (sat_bind _ _ HQ);
      [apply (sat_actual_refilling_mixing_time _ _ _ HQ); omits
      |intro mixing_time].
    apply (sat_bind _ _ HQ);
      [apply (sat_wait_refilling_state _ _ _ HQ); omits|intros _].
    apply (sat_perform_draining _ _ _ HQ). omits.
Qed.

Lemma within_decide_21 dev actual_refilling_state :
  sat (within [write_maintenance_off]) (decide_21 dev actual_refilling_state).
Proof.
  pose proof within_closed as HQ. unfold decide_21, refill_and_finish_21.
  apply within_first; [|intro draining_required].
  { destruct actual_refilling_state;
      try (apply (sat_throw _ _ _ HQ); reflexivity).
    - apply (sat_ret _ _ HQ).
    - apply (sat_bind _ _ HQ);
        [apply (sat_print _ _ _ HQ); reflexivity|intros _].
      apply (sat_ret _ _ HQ). }
  apply within_first; [|intros _].
  { apply (sat_when _ _ HQ). apply (sat_perform_draining _ _ _ HQ). omits. }
  apply within_first;
    [apply within_quiet, perform_refilling_every; omits|intros _].
  apply within_first;
    [apply (sat_check_refilling_warnings _ _ _ HQ); omits|intros _].
  apply within_last; [apply within_maintenance_off|intros _].
  apply (sat_check_refilling_state _ _ _ HQ). omits.
Qed.

Lemma within_refill_and_finish_4x dev :
  sat (within [write_maintenance_off]) (refill_and_finish_4x dev).
Proof.
  pose proof within_closed as HQ. unfold refill_and_finish_4x.
  apply within_first;
    [apply within_quiet, perform_refilling_every; omits|intros _].
  apply within_first;
    [apply (sat_wait_confirmation _ _ _ HQ); omits|intros _].
  apply within_last; [apply within_maintenance_off|intros _].
  apply (within_try_except_else [] []).
  - apply (sat_check_water_pipe_connection _ _ _ HQ). omits.
  - intros _. apply (sat_print _ _ _ HQ). reflexivity.
  - intros _. apply (sat_finish_refilling _ _ _ HQ). omits.
Qed.

Lemma within_decide_4x dev actual_refilling_state :
  sat (within [write_flushing_on; write_maintenance_off])
    (decide_4x dev actual_refilling_state).
Proof.
  pose proof within_closed as HQ. unfold decide_4x, continue_4x.
  apply within_first; [|intro required].
  { destruct actual_refilling_state;
      try (apply (sat_throw _ _ _ HQ); reflexivity);
      try apply (sat_ret _ _ HQ).
    apply (sat_bind _ _ HQ);
      [apply (sat_print _ _ _ HQ); reflexivity|intros _].
    apply (sat_ret _ _ HQ). }
  apply within_first; [|intros _].
  { apply (sat_when _ _ HQ). apply (sat_perform_draining _ _ _ HQ). omits. }
  apply within_first;
    [apply (sat_actual_refilling_state _ _ _ HQ); omits|intro fresh].
  cbv zeta.
  apply (within_bind [write_flushing_on] [write_maintenance_off]).
  - unfold when. destruct (if RefillingState.eqb fresh _ then _ else _).
    + apply within_perform_flushing.
    + apply (within_weaken []); [apply subsequence_none|].
      apply (sat_ret _ _ HQ).
  - intros _. apply within_refill_and_finish_4x.
Qed.

(** The writes of the two sequences. *)
Definition sequence_writes (el_21 : bool) (initial_state : State.t)
    : list Event :=
  (if State.eqb initial_state State.IDLE then [write_maintenance_on] else [])
  ++ (if el_21 then [] else [write_flushing_on])
  ++ [write_maintenance_off].

Lemma within_run_maintenance_21 dev initial_state :
  sat (within (sequence_writes true initial_state))
    (_run_maintenance_21 dev initial_state).
Proof.
  pose proof within_closed as HQ. rewrite run_maintenance_21_steps.
  apply within_first; [apply (sat_print _ _ _ HQ); reflexivity|intros _].
  unfold sequence_writes. apply within_bind;
    [apply within_maintenance_on|intros _].
  apply within_first;
    [apply (sat_actual_refilling_state _ _ _ HQ); omits|intro state].
  apply within_decide_21.
Qed.

Lemma within_run_maintenance_4x dev initial_state :
  sat (within (sequence_writes false initial_state))
    (_run_maintenance_4x dev initial_state).
Proof.
  pose proof within_closed as HQ. rewrite run_maintenance_4x_steps.
  apply within_first; [apply (sat_print _ _ _ HQ); reflexivity|intros _].
  unfold sequence_writes. apply within_bind;
    [apply within_maintenance_on|intros _].
  apply within_first;
    [apply (sat_actual_refilling_state _ _ _ HQ); omits|intro state].
  apply within_decide_4x.
Qed.

Lemma sequence_writes_all el_21 initial_state :
  subsequence (sequence_writes el_21 initial_state)
    [write_maintenance_on; write_flushing_on; write_maintenance_off].
Proof.
  unfold sequence_writes.
  destruct (State.eqb initial_state State.IDLE), el_21; cbn [app];
    repeat first [apply subsequence_nil | apply subsequence_take
                 | apply subsequence_skip].
Qed.

Definition script_writes : list Event :=
  [write_maintenance_on; write_flushing_on; write_maintenance_off].

Lemma within_run_maintenance dev initial_state :
  sat (within script_writes) (_run_maintenance dev initial_state).
Proof.
  pose proof within_closed as HQ. unfold _run_maintenance.
  apply within_first;
    [apply (sat_read_input _ _ _ HQ); omits|intro response].
  apply within_first;
    [apply (sat_word_list_to_long _ _ _ HQ); omits|intro longs].
  apply within_first; [apply (sat_subscript _ _ _ HQ); omits|intro converted].
  apply within_first; [|intro name].
  { unfold decode_device_name. destruct (fromhex _);
      [|apply (sat_throw _ _ _ HQ); reflexivity].
    apply sat_if; [apply (sat_ret _ _ HQ)|].
    apply (sat_throw _ _ _ HQ); reflexivity. }
  apply within_last; [|intros _; apply (sat_print _ _ _ HQ); reflexivity].
  destruct (DeviceModel.of_value name).
  - apply (within_weaken []); [apply subsequence_none|].
    apply (sat_throw _ _ _ HQ); reflexivity.
  - apply (within_weaken (sequence_writes true initial_state));
      [apply sequence_writes_all|apply within_run_maintenance_21].
  - apply (within_weaken (sequence_writes false initial_state));
      [apply sequence_writes_all|apply within_run_maintenance_4x].
  - apply (within_weaken (sequence_writes false initial_state));
      [apply sequence_writes_all|apply within_run_maintenance_4x].
  - apply (within_weaken (sequence_writes false initial_state));
      [apply sequence_writes_all|apply within_run_maintenance_4x].
Qed.

Lemma within_main dev : sat (within script_writes) (main dev).
Proof.
  pose proof within_closed as HQ. unfold main.
  apply within_first; [apply (sat_print _ _ _ HQ); reflexivity|intros _].
  apply within_first; [apply (sat_input _ _ _ HQ); omits|intro answer].
  apply sat_if.
  { apply (within_weaken []); [apply subsequence_none|].
    apply (sat_throw _ _ _ HQ); reflexivity. }
  apply within_try_except.
  - apply within_first; [apply (sat_print _ _ _ HQ); reflexivity|intros _].
    apply within_first;
      [apply (sat_electrolyte_level _ _ _ HQ); omits|intro level].
    apply sat_if.
    { apply (within_weaken []); [apply subsequence_none|].
      apply (sat_throw _ _ _ HQ); reflexivity. }
    apply within_first; [apply (sat_actual_state _ _ _ HQ); omits|intro state].
    apply sat_if.
    { apply (within_weaken []); [apply subsequence_none|].
      apply (sat_throw _ _ _ HQ); reflexivity. }
    apply within_first; [apply (sat_print _ _ _ HQ); reflexivity|intros _].
    apply within_run_maintenance.
  - intro e.
    apply (sat_bind _ _ HQ);
      [apply (sat_print _ _ _ HQ); reflexivity|intros _].
    apply (sat_bind _ _ HQ);
      [apply (sat_print _ _ _ HQ); reflexivity|intros _].
    apply (sat_bind _ _ HQ);
      [apply (sat_print _ _ _ HQ); reflexivity|intros _].
    apply (sat_bind _ _ HQ);
      [apply (sat_decode_events _ _ _ HQ); omits|intro errors].
    apply (sat_bind _ _ HQ);
      [apply (sat_decode_events _ _ _ HQ); omits|intro warnings].
    apply (sat_bind _ _ HQ);
      [apply (sat_print _ _ _ HQ); reflexivity|intros _].
    intro w. exists []. unfold reraise. cbn [fst snd].
    rewrite app_nil_r. split; [reflexivity|constructor].
Qed.

(** X11.  Whatever the device answers and the operator types, a session
    writes to the device at most three times, and only these values, in
    this order and each at most once: 1 to the maintenance register, 0 to
    the flushing register, 0 to the maintenance register. *)
Theorem main_writes_in_order dev w :
  subsequence (writes (events_since w (snd (main dev w))))
    [EvWrite Holdings.MAINTENANCE 1; EvWrite Holdings.FLUSHING 0;
     EvWrite Holdings.MAINTENANCE 0].
Proof.
  destruct (within_main dev w) as (evs & Ht & Hq).
  rewrite (events_since_app _ _ _ Ht). exact Hq.
Qed.

(** X12.  The writes of the two maintenance sequences: maintenance mode is
    switched on only when the state found at the start is IDLE, an EL2.1 is
    never flushed, an EL4.x is flushed at most once, and no write follows
    the one that switches maintenance mode off. *)
Theorem run_maintenance_writes dev initial_state w :
  subsequence
    (writes (events_since w (snd (_run_maintenance_21 dev initial_state w))))
    ((if State.eqb initial_state State.IDLE
      then [EvWrite Holdings.MAINTENANCE 1] else [])
     ++ [EvWrite Holdings.MAINTENANCE 0])
  /\ subsequence
       (writes
          (events_since w (snd (_run_maintenance_4x dev initial_state w))))
       ((if State.eqb initial_state State.IDLE
         then [EvWrite Holdings.MAINTENANCE 1] else [])
        ++ [EvWrite Holdings.FLUSHING 0; EvWrite Holdings.MAINTENANCE 0]).
Proof.
  split.
  - destruct (within_run_maintenance_21 dev initial_state w)
      as (evs & Ht & Hq).
    rewrite (events_since_app _ _ _ Ht). exact Hq.
  - destruct (within_run_maintenance_4x dev initial_state w)
      as (evs & Ht & Hq).
    rewrite (events_since_app _ _ _ Ht). exact Hq.
Qed.

(** ** Sessions that end normally *)

(** Maintenance mode has been switched off, the state read back after the
    write is IDLE, and no write follows. *)
Definition switched_off (evs : list Event) : Prop :=
  exists before raw after,
    evs
    = before
      ++ [EvWrite Holdings.MAINTENANCE 0;
          EvSleep REGISTER_WRITE_TIMEOUT;
          EvReadInput Inputs.STATE 1 (Some [raw]);
          EvPrint (PStateDetected State.IDLE)]
      ++ after
    /\ State.of_value raw = State.IDLE
    /\ forallb no_write after = true.

(** A run that returns has switched maintenance mode off. *)
Definition completed (o : option Exn) (evs : list Event) : Prop :=
  o = None -> switched_off evs.

Lemma switched_off_after evs1 evs2 :
  switched_off evs2 -> switched_off (evs1 ++ evs2).
Proof.
  intros (before & raw & after & -> & Hraw & Hafter).
  exists (evs1 ++ before), raw, after. rewrite <- app_assoc. auto.
Qed.

Lemma switched_off_before evs1 evs2 :
  switched_off evs1 -> forallb no_write evs2 = true ->
  switched_off (evs1 ++ evs2).
Proof.
  intros (before & raw & after & -> & Hraw & Hafter) H2.
  exists before, raw, (after ++ evs2).
  rewrite forallb_app, Hafter, H2, <- !app_assoc. auto.
Qed.

Lemma completed_after {A B} (m : M A) (f : A -> M B) :
  sat (every anything) m -> (forall a, sat completed (f a)) ->
  sat completed (x <- m ;; f x).
Proof.
  intros Hm Hf w. rewrite bind_run.
  destruct (Hm w) as (evs1 & Ht1 & _).
  destruct (m w) as [[a|e] w1]; cbn [fst snd] in *.
  - destruct (Hf a w1) as (evs2 & Ht2 & Hq2).
    exists (evs1 ++ evs2). rewrite Ht2, Ht1, app_assoc.
    split; [reflexivity|]. intro Ho. apply switched_off_after, Hq2, Ho.
  - exists evs1. split; [exact Ht1|discriminate].
Qed.

Lemma completed_before {A B} (m : M A) (f : A -> M B) :
  sat completed m -> (forall a, sat (every no_write) (f a)) ->
  sat completed (x <- m ;; f x).
Proof.
  intros Hm Hf w. rewrite bind_run.
  destruct (Hm w) as (evs1 & Ht1 & Hq1).
  destruct (m w) as [[a|e] w1]; cbn [fst snd outcome] in *.
  - destruct (Hf a w1) as (evs2 & Ht2 & Hq2).
    exists (evs1 ++ evs2). rewrite Ht2, Ht1, app_assoc.
    split; [reflexivity|]. intro Ho.
    apply switched_off_before; [apply Hq1; reflexivity|exact Hq2].
  - exists evs1. split; [exact Ht1|discriminate].
Qed.

Lemma completed_throw dev {A} e : sat completed (@throw dev A e).
Proof.
  intro w. exists [EvRaise e]. unfold throw. cbn [fst snd outcome].
  split; [apply trace_emit|discriminate].
Qed.

Lemma includes_anything alpha : includes alpha anything.
Proof. intros ev _. reflexivity. Qed.

Lemma completed_maintenance_off dev : sat completed (_maintenance_off dev).
Proof.
  intro w.
  destruct (sat_maintenance_off dev _ _ (every_closed anything)
              (includes_anything _) w) as (evs & Ht & _).
  exists evs. split; [exact Ht|]. intro Ho.
  destruct (_maintenance_off dev w) as [[[]|e] w'] eqn:Hrun;
    cbn [fst snd outcome] in *; [|discriminate Ho].
  destruct (maintenance_off_ok dev w w' Hrun) as (raw & Hraw & Ht').
  rewrite Ht' in Ht. apply app_inv_head in Ht. subst evs.
  exists [EvPrint PTurningMaintenanceOff], raw, [EvPrint PTurnedMaintenanceOff].
  split; [reflexivity|]. split; [exact Hraw|reflexivity].
Qed.

Lemma completed_decide_21 dev actual_refilling_state :
  sat completed (decide_21 dev actual_refilling_state).
Proof.
  pose proof (every_closed anything) as HA.
  pose proof (every_closed no_write) as HN.
  unfold decide_21, refill_and_finish_21.
  apply completed_after; [|intro draining_required].
  { destruct actual_refilling_state;
      try (apply (sat_throw _ _ _ HA); reflexivity).
    - apply (sat_ret _ _ HA).
    - apply (sat_bind _ _ HA);
        [apply (sat_print _ _ _ HA); reflexivity|intros _].
      apply (sat_ret _ _ HA). }
  apply completed_after; [|intros _].
  { apply (sat_when _ _ HA). apply (sat_perform_draining _ _ _ HA).
    apply includes_anything. }
  apply completed_after;
    [apply perform_refilling_every, includes_anything|intros _].
  apply completed_after;
    [apply (sat_check_refilling_warnings _ _ _ HA), includes_anything
    |intros _].
  apply completed_before; [apply completed_maintenance_off|intros _].
  apply (sat_check_refilling_state _ _ _ HN). omits.
Qed.

Lemma completed_decide_4x dev actual_refilling_state :
  sat completed (decide_4x dev actual_refilling_state).
Proof.
  pose proof (every_closed anything) as HA.
  pose proof (every_closed no_write) as HN.
  unfold decide_4x, continue_4x, refill_and_finish_4x.
  apply completed_after; [|intro required].
  { destruct actual_refilling_state;
      try (apply (sat_throw _ _ _ HA); reflexivity);
      try apply (sat_ret _ _ HA).
    apply (sat_bind _ _ HA);
      [apply (sat_print _ _ _ HA); reflexivity|intros _].
    apply (sat_ret _ _ HA). }
  apply completed_after; [|intros _].
  { apply (sat_when _ _ HA). apply (sat_perform_draining _ _ _ HA).
    apply includes_anything. }
  apply completed_after;
    [apply (sat_actual_refilling_state _ _ _ HA), includes_anything
    |intro fresh].
  cbv zeta.
  apply completed_after; [|intros _].
  { apply (sat_when _ _ HA). apply (sat_perform_flushing _ _ _ HA).
    apply includes_anything. }
  apply completed_after;
    [apply perform_refilling_every, includes_anything|intros _].
  apply completed_after;
    [apply (sat_wait_confirmation _ _ _ HA), includes_anything|intros _].
  apply completed_before; [apply completed_maintenance_off|intros _].
  apply (sat_try_except_else (every no_write) (every no_write) no_write HN
           (fun _ _ H => H) (every_catch no_write)).
  - exact water_pipe_caught.
  - apply (sat_check_water_pipe_connection _ _ _ HN). omits.
  - intros _. apply (sat_print _ _ _ HN). reflexivity.
  - intros _. apply (sat_finish_refilling _ _ _ HN). omits.
Qed.

Lemma completed_run_maintenance dev initial_state :
  sat completed (_run_maintenance dev initial_state).
Proof.
  pose proof (every_closed anything) as HA.
  pose proof (every_closed no_write) as HN.
  unfold _run_maintenance.
  apply completed_after;
    [apply (sat_read_input _ _ _ HA), includes_anything|intro response].
  apply completed_after;
    [apply (sat_word_list_to_long _ _ _ HA), includes_anything|intro longs].
  apply completed_after;
    [apply (sat_subscript _ _ _ HA), includes_anything|intro converted].
  apply completed_after; [|intro name].
  { unfold decode_device_name. destruct (fromhex _);
      [|apply (sat_throw _ _ _ HA); reflexivity].
    apply sat_if; [apply (sat_ret _ _ HA)|].
    apply (sat_throw _ _ _ HA); reflexivity. }
  apply completed_before;
    [|intros _; apply (sat_print _ _ _ HN); reflexivity].
  assert (H21 : sat completed (_run_maintenance_21 dev initial_state)).
  { rewrite run_maintenance_21_steps.
    apply completed_after;
      [apply (sat_print _ _ _ HA); reflexivity|intros _].
    apply completed_after;
      [apply (sat_maintenance_on _ _ _ HA), includes_anything|intros _].
    apply completed_after;
      [apply (sat_actual_refilling_state _ _ _ HA), includes_anything
      |intro state].
    apply completed_decide_21. }
  assert (H4x : sat completed (_run_maintenance_4x dev initial_state)).
  { rewrite run_maintenance_4x_steps.
    apply completed_after;
      [apply (sat_print _ _ _ HA); reflexivity|intros _].
    apply completed_after;
      [apply (sat_maintenance_on _ _ _ HA), includes_anything|intros _].
    apply completed_after;
      [apply (sat_actual_refilling_state _ _ _ HA), includes_anything
      |intro state].
    apply completed_decide_4x. }
  destruct (DeviceModel.of_value name); try assumption.
  apply completed_throw.
Qed.

(** A handler that never returns leaves the protected suite as the only
    way to return. *)
Lemma completed_try_except {A} (body : M A) (catches : Exn -> bool)
    (handler : Exn -> M A) :
  sat completed body ->
  (forall e, sat (every anything) (handler e)) ->
  (forall e w, outcome (fst (handler e w)) <> None) ->
  sat completed (try_except body catches handler).
Proof.
  intros Hb Hh Hnever w. unfold try_except.
  destruct (Hb w) as (evs1 & Ht1 & Hq1).
  destruct (body w) as [[a|e] w1]; cbn [fst snd outcome] in *.
  - exists evs1. auto.
  - destruct (catches e); [|exists evs1; split; [exact Ht1|discriminate]].
    destruct (Hh e w1) as (evs2 & Ht2 & _).
    exists (evs1 ++ evs2). rewrite Ht2, Ht1, app_assoc.
    split; [reflexivity|]. intro Ho. destruct (Hnever e w1 Ho).
Qed.

Lemma completed_main dev : sat completed (main dev).
Proof.
  pose proof (every_closed anything) as HA.
  unfold main.
  apply completed_after; [apply (sat_print _ _ _ HA); reflexivity|intros _].
  apply completed_after;
    [apply (sat_input _ _ _ HA), includes_anything|intro answer].
  apply sat_if; [apply completed_throw|].
  apply completed_try_except.
  - apply completed_after;
      [apply (sat_print _ _ _ HA); reflexivity|intros _].
    apply completed_after;
      [apply (sat_electrolyte_level _ _ _ HA), includes_anything|intro level].
    apply sat_if; [apply completed_throw|].
    apply completed_after;
      [apply (sat_actual_state _ _ _ HA), includes_anything|intro state].
    apply sat_if; [apply completed_throw|].
    apply completed_after;
      [apply (sat_print _ _ _ HA); reflexivity|intros _].
    apply completed_run_maintenance.
  - intro e.
    apply (sat_bind _ _ HA);
      [apply (sat_print _ _ _ HA); reflexivity|intros _].
    apply (sat_bind _ _ HA);
      [apply (sat_print _ _ _ HA); reflexivity|intros _].
    apply (sat_bind _ _ HA);
      [apply (sat_print _ _ _ HA); reflexivity|intros _].
    apply (sat_bind _ _ HA);
      [apply (sat_decode_events _ _ _ HA), includes_anything|intro errors].
    apply (sat_bind _ _ HA);
      [apply (sat_decode_events _ _ _ HA), includes_anything|intro warnings].
    apply (sat_bind _ _ HA);
      [apply (sat_print _ _ _ HA); reflexivity|intros _].
    intro w. exists []. unfold reraise. cbn [fst snd].
    rewrite app_nil_r. split; reflexivity.
  - intros e w. unfold bind, print.
    destruct (_decode_errors dev _) as [[errors|e1] w1]; [|discriminate].
    destruct (_decode_warnings dev _) as [[warnings|e2] w2]; discriminate.
Qed.

(** X13.  A session returns only after it has switched maintenance mode
    off: the run holds the write of 0 to the maintenance register, the
    state read back right after it is IDLE, and no write follows it. *)
Theorem main_returns_after_switching_off dev w w' :
  main dev w = (Ok tt, w') ->
  exists before raw after,
    events_since w w'
    = before
      ++ [EvWrite Holdings.MAINTENANCE 0;
          EvSleep REGISTER_WRITE_TIMEOUT;
          EvReadInput Inputs.STATE 1 (Some [raw]);
          EvPrint (PStateDetected State.IDLE)]
      ++ after
    /\ State.of_value raw = State.IDLE
    /\ forallb no_write after = true.
Proof.
  intro Hrun. destruct (completed_main dev w) as (evs & Ht & Hq).
  rewrite Hrun in Ht, Hq. cbn [fst snd outcome] in *.
  rewrite (events_since_app _ _ _ Ht). apply Hq. reflexivity.
Qed.

(** An EL2.1 in IDLE that is filled for the first time, from LOW to HIGH,
    and returns to IDLE. *)
Definition el21_serviced : Device :=
  scripted_device
    [ (Inputs.DEVICE_MODEL, [[0x454C; 0x3231]]);
      (Inputs.STATE, [[2]; [1]; [2]]);
      (Inputs.REFILLING_STATE, [[5]; [5]; [6]; [6]; [8]; [2]]);
      (Inputs.WARNINGS, [[0]]);
      (Inputs.LSL102D_IN, [[1]]);
      (Inputs.LSM102C_IN, [[0]; [0]; [0]; [0]; [1]]);
      (Inputs.LSH102B_IN, [[0]; [0]; [0]; [0]; [1]]);
      (Inputs.LSHH102A_IN, [[0]]) ]
    [].

Lemma main_returns_after_switching_off_witness :
  let w := initial_world ["yes"; "YES"] in
  let run := main el21_serviced w in
  fst run = Ok tt
  /\ exists before raw after,
       events_since w (snd run)
       = before
         ++ [EvWrite Holdings.MAINTENANCE 0;
             EvSleep REGISTER_WRITE_TIMEOUT;
             EvReadInput Inputs.STATE 1 (Some [raw]);
             EvPrint (PStateDetected State.IDLE)]
         ++ after
       /\ State.of_value raw = State.IDLE
       /\ forallb no_write after = true.
Proof.
  split; [vm_compute; reflexivity|].
  apply (main_returns_after_switching_off el21_serviced
           (initial_world ["yes"; "YES"])).
  vm_compute. reflexivity.
Defined.

(** ** The opening confirmation *)












(** ** The refilling warnings *)

(** The four warnings that [_check_refilling_warnings] looks for. *)
Definition refilling_warning (code : Z) : bool :=
  existsb (Z.eqb code) [WR_10; WR_20; WR_21; WR_22].

(** The script compares formatted events; on the words of a register this
    is the comparison of their codes. *)
Definition format_agrees (code : Z) : bool :=
  Bool.eqb
    (string_in (_format_event (member_name ElWarning code) code)
       [_format_warning WR_10; _format_warning WR_20;
        _format_warning WR_21; _format_warning WR_22])
    (refilling_warning code).

Fixpoint all_from (n : nat) (start : Z) (p : Z -> bool) : bool :=
  match n with
  | O => true
  | S k => p start && all_from k (start + 1) p
  end.

Lemma all_from_spec n start p :
  all_from n start p = true ->
  forall c, start <= c < start + Z.of_nat n -> p c = true.
Proof.
  revert start. induction n as [|k IH]; intros start H c Hc; [lia|].
  cbn [all_from] in H. apply andb_prop in H. destruct H as [Hk H].
  destruct (Z.eq_dec c start) as [->|Hne]; [exact Hk|].
  apply (IH (start + 1)); [exact H|lia].
Qed.

Lemma format_agrees_words code :
  0 <= code < 65536 ->
  string_in (_format_event (member_name ElWarning code) code)
    [_format_warning WR_10; _format_warning WR_20;
     _format_warning WR_21; _format_warning WR_22]
  = refilling_warning code.
Proof.
  intro Hc.
  assert (Hall : all_from (Z.to_nat 65536) 0 format_agrees = true)
    by (vm_compute; reflexivity).
  pose proof (all_from_spec _ _ _ Hall code) as H.
  unfold format_agrees in H. apply eqb_prop. apply H. lia.
Qed.

Lemma in_firstn {A} (x : A) n l : In x (firstn n l) -> In x l.
Proof.
  intro H. rewrite <- (firstn_skipn n l). apply in_or_app. left. exact H.
Qed.

Lemma in_skipn {A} (x : A) n l : In x (skipn n l) -> In x l.
Proof.
  intro H. rewrite <- (firstn_skipn n l). apply in_or_app. right. exact H.
Qed.

(** The codes of the active events of a register of events. *)
Definition active_codes (raw : list Z) : list Z :=
  if nth 0 raw 0 =? 0 then []
  else firstn (Z.to_nat (nth 0 raw 0)) (skipn 1 raw).

(** X15.  [_check_refilling_warnings] fails exactly when one of the active
    warnings of the device has the code of WR_10, WR_20, WR_21 or WR_22:
    the comparison of the formatted warnings that the script makes comes to
    the comparison of their codes.  The exception carries all the active
    warnings, formatted; with other warnings or none the check passes. *)
Theorem check_refilling_warnings_by_code dev w raw :
  next_input dev w Inputs.WARNINGS 33 = Some raw ->
  fst (_check_refilling_warnings dev w)
  = if existsb refilling_warning (active_codes raw) then
      Raise (MaintenanceModeException
               (RefillingWarnings
                  (map (fun code =>
                          _format_event (member_name ElWarning code) code)
                       (active_codes raw))))
    else Ok tt.
Proof.
  intro Hraw. unfold _check_refilling_warnings. rewrite bind_run.
  unfold print at 1. rewrite bind_run.
  assert (Hnext : next_input dev (emit dev (EvPrint PCheckingWarnings) w)
                    Inputs.WARNINGS 33 = Some raw)
    by (rewrite next_input_emit; [exact Hraw|reflexivity]).
  pose proof (decode_events_run dev Inputs.WARNINGS ElWarning _ raw Hnext)
    as Hrun.
  unfold _decode_warnings.
  destruct (_decode_events dev Inputs.WARNINGS ElWarning _)
    as [[active|e] w1]; cbn [fst] in Hrun; [|discriminate Hrun].
  assert (Hactive : active
                    = map (fun code =>
                             _format_event (member_name ElWarning code) code)
                        (active_codes raw)).
  { unfold active_codes.
    destruct (nth 0 raw 0 =? 0); cbn [map]; congruence. }
  clear Hrun. subst active.
  assert (Hrange : forall code, In code (active_codes raw) ->
                                0 <= code < 65536).
  { intros code Hin. apply (next_input_range _ _ _ _ _ code Hraw).
    unfold active_codes in Hin.
    destruct (nth 0 raw 0 =? 0); [destruct Hin|].
    apply in_firstn in Hin. apply (in_skipn _ _ _ Hin). }
  assert (Hsame : existsb
                    (fun warning =>
                       string_in warning
                         [_format_warning WR_10; _format_warning WR_20;
                          _format_warning WR_21; _format_warning WR_22])
                    (map (fun code =>
                            _format_event (member_name ElWarning code) code)
                       (active_codes raw))
                  = existsb refilling_warning (active_codes raw)).
  { induction (active_codes raw) as [|code codes IH]; [reflexivity|].
    cbn [map existsb].
    rewrite format_agrees_words by (apply Hrange; left; reflexivity).
    rewrite IH; [reflexivity|].
    intros c Hc. apply Hrange. right. exact Hc. }
  destruct (active_codes raw) as [|code codes] eqn:Hcodes;
    [reflexivity|].
  rewrite Hsame.
  destruct (existsb refilling_warning (code :: codes)); reflexivity.
Qed.

(** A device with three active warnings, the second of them WR_20. *)
Definition warned_device : Device :=
  scripted_device
    [(Inputs.WARNINGS, [[3; 0x3F8A; 0x3194; 0x1234]])] [].

Lemma check_refilling_warnings_by_code_witness :
  fst (_check_refilling_warnings warned_device (initial_world []))
  = Raise (MaintenanceModeException
             (RefillingWarnings
                (map (fun code =>
                        _format_event (member_name ElWarning code) code)
                     [0x3F8A; 0x3194; 0x1234]))).
Proof.
  apply (check_refilling_warnings_by_code warned_device (initial_world [])
           (map (fun i => nth i [3; 0x3F8A; 0x3194; 0x1234] 0) (seq 0 33))).
  vm_compute. reflexivity.
Defined.

(** ** Properties of the writes that the sequencing keeps

    A property [Q] of runs that every step without a write has, that the
    write of a register has, and that two runs in a row have when each has
    it, holds of every session. *)

Section Writers.

Variable dev : Device.
Variable Q : option Exn -> list Event -> Prop.

Hypothesis HQ : closed Q no_write.
Hypothesis Q_app :
  forall o1 evs1 o2 evs2 o, Q o1 evs1 -> Q o2 evs2 -> Q o (evs1 ++ evs2).
Hypothesis Q_write :
  forall address value, sat Q (_write_single_register dev address value).

Lemma writers_perform_refilling el_21 : sat Q (_perform_refilling dev el_21).
Proof.
  apply (sat_perform_refilling dev Q Q no_write no_write HQ HQ
           (fun _ _ H => H)
           (fun e evs1 o evs2 _ H1 H2 => Q_app _ _ _ _ o H1 H2)
           (fun o1 evs1 o2 evs2 H1 H2 => Q_app _ _ _ _ _ H1 H2));
    omits.
Qed.

Lemma writers_maintenance_on initial_state :
  sat Q (_maintenance_on dev initial_state).
Proof.
  unfold _maintenance_on, _toggle_maintenance.
  apply sat_if; [|apply (sat_print _ _ _ HQ); reflexivity].
  apply (sat_bind _ _ HQ); [apply (sat_print _ _ _ HQ); reflexivity|intros _].
  apply (sat_bind _ _ HQ); [apply Q_write|intros _].
  apply (sat_bind _ _ HQ);
    [apply (sat_actual_state _ _ _ HQ); omits|intro state].
  apply sat_if;
    [apply (sat_throw _ _ _ HQ)|apply (sat_print _ _ _ HQ)]; reflexivity.
Qed.

Lemma writers_maintenance_off : sat Q (_maintenance_off dev).
Proof.
  unfold _maintenance_off, _toggle_maintenance.
  apply (sat_bind _ _ HQ); [apply (sat_print _ _ _ HQ); reflexivity|intros _].
  apply (sat_bind _ _ HQ); [apply Q_write|intros _].
  apply (sat_bind _ _ HQ);
    [apply (sat_actual_state _ _ _ HQ); omits|intro state].
  apply sat_if;
    [apply (sat_throw _ _ _ HQ)|apply (sat_print _ _ _ HQ)]; reflexivity.
Qed.

Lemma writers_perform_flushing : sat Q (_perform_flushing dev).
Proof.
  unfold _perform_flushing.
  apply (sat_bind _ _ HQ); [apply (sat_print _ _ _ HQ); reflexivity|intros _].
  apply (sat_bind _ _ HQ);
    [apply (sat_check_refilling_state _ _ _ HQ); omits|intros _].
  apply (sat_bind _ _ HQ);
    [apply (sat_wait_confirmation _ _ _ HQ); omits|intros _].
  apply (sat_bind _ _ HQ);
    [apply (sat_check_water_pipe_connection _ _ _ HQ); omits|intros _].
  apply (sat_bind _ _ HQ);
    [apply (sat_wait_confirmation _ _ _ HQ); omits|intros _].
  apply (sat_bind _ _ HQ); [|intros _].
  { unfold _flushing_on, _toggle_flushing.
    apply (sat_bind _ _ HQ);
      [apply (sat_print _ _ _ HQ); reflexivity|intros _].
    apply (sat_bind _ _ HQ); [apply Q_write|intros _].
    apply (sat_print _ _ _ HQ). reflexivity. }
  apply (sat_bind _ _ HQ);
    [apply (sat_wait_electrolyte_level _ _ _ HQ); omits|intros _].
  apply (sat_bind _ _ HQ);
    [apply (sat_check_refilling_warnings _ _ _ HQ); omits|intros _].
  apply (sat_bind _ _ HQ); [apply (sat_print _ _ _ HQ); reflexivity|intros _].
  apply (sat_bind _ _ HQ);
    [apply (sat_actual_refilling_mixing_time _ _ _ HQ); omits
    |intro mixing_time].
  apply (sat_bind _ _ HQ);
    [apply (sat_wait_refilling_state _ _ _ HQ); omits|intros _].
  apply (sat_perform_draining _ _ _ HQ). omits.
Qed.

Lemma writers_run_maintenance_21 initial_state :
  sat Q (_run_maintenance_21 dev initial_state).
Proof.
  unfold _run_maintenance_21.
  apply (sat_bind _ _ HQ); [apply (sat_print _ _ _ HQ); reflexivity|intros _].
  apply (sat_bind _ _ HQ); [apply writers_maintenance_on|intros _].
  apply (sat_bind _ _ HQ);
    [apply (sat_actual_refilling_state _ _ _ HQ); omits|intro state].
  apply (sat_bind _ _ HQ); [|intro draining_required].
  { destruct state; try (apply (sat_throw _ _ _ HQ); reflexivity).
    - apply (sat_ret _ _ HQ).
    - apply (sat_bind _ _ HQ);
        [apply (sat_print _ _ _ HQ); reflexivity|intros _].
      apply (sat_ret _ _ HQ). }
  apply (sat_bind _ _ HQ); [|intros _].
  { apply (sat_when _ _ HQ). apply (sat_perform_draining _ _ _ HQ). omits. }
  apply (sat_bind _ _ HQ); [apply writers_perform_refilling|intros _].
  apply (sat_bind _ _ HQ);
    [apply (sat_check_refilling_warnings _ _ _ HQ); omits|intros _].
  apply (sat_bind _ _ HQ); [apply writers_maintenance_off|intros _].
  apply (sat_check_refilling_state _ _ _ HQ). omits.
Qed.

Lemma writers_run_maintenance_4x initial_state :
  sat Q (_run_maintenance_4x dev initial_state).
Proof.
  unfold _run_maintenance_4x.
  apply (sat_bind _ _ HQ); [apply (sat_print _ _ _ HQ); reflexivity|intros _].
  apply (sat_bind _ _ HQ); [apply writers_maintenance_on|intros _].
  apply (sat_bind _ _ HQ);
    [apply (sat_actual_refilling_state _ _ _ HQ); omits|intro state].
  apply (sat_bind _ _ HQ); [|intro required].
  { destruct state; try (apply (sat_throw _ _ _ HQ); reflexivity);
      try apply (sat_ret _ _ HQ).
    apply (sat_bind _ _ HQ);
      [apply (sat_print _ _ _ HQ); reflexivity|intros _].
    apply (sat_ret _ _ HQ). }
  cbv zeta.
  apply (sat_bind _ _ HQ); [|intros _].
  { apply (sat_when _ _ HQ). apply (sat_perform_draining _ _ _ HQ). omits. }
  apply (sat_bind _ _ HQ);
    [apply (sat_actual_refilling_state _ _ _ HQ); omits|intro fresh].
  apply (sat_bind _ _ HQ); [|intros _].
  { apply (sat_when _ _ HQ). apply writers_perform_flushing. }
  apply (sat_bind _ _ HQ); [apply writers_perform_refilling|intros _].
  apply (sat_bind _ _ HQ);
    [apply (sat_wait_confirmation _ _ _ HQ); omits|intros _].
  apply (sat_bind _ _ HQ); [apply writers_maintenance_off|intros _].
  apply (sat_try_except_else Q Q no_write HQ (fun _ _ H => H)
           (fun e evs1 o evs2 _ H1 H2 => Q_app _ _ _ _ o H1 H2)).
  - exact water_pipe_caught.
  - apply (sat_check_water_pipe_connection _ _ _ HQ). omits.
  - intros _. apply (sat_print _ _ _ HQ). reflexivity.
  - intros _. apply (sat_finish_refilling _ _ _ HQ). omits.
Qed.

Lemma writers_run_maintenance initial_state :
  sat Q (_run_maintenance dev initial_state).
Proof.
  unfold _run_maintenance.
  apply (sat_bind _ _ HQ);
    [apply (sat_read_input _ _ _ HQ); omits|intro response].
  apply (sat_bind _ _ HQ);
    [apply (sat_word_list_to_long _ _ _ HQ); omits|intro longs].
  apply (sat_bind _ _ HQ);
    [apply (sat_subscript _ _ _ HQ); omits|intro converted].
  apply (sat_bind _ _ HQ); [|intro name].
  { unfold decode_device_name. destruct (fromhex _);
      [|apply (sat_throw _ _ _ HQ); reflexivity].
    apply sat_if; [apply (sat_ret _ _ HQ)|].
    apply (sat_throw _ _ _ HQ); reflexivity. }
  apply (sat_bind _ _ HQ);
    [|intros _; apply (sat_print _ _ _ HQ); reflexivity].
  destruct (DeviceModel.of_value name);
    first [ apply writers_run_maintenance_21
          | apply writers_run_maintenance_4x
          | apply (sat_throw _ _ _ HQ); reflexivity ].
Qed.

Lemma writers_main : sat Q (main dev).
Proof.
  rewrite main_unfold.
  apply (sat_bind _ _ HQ); [apply (sat_print _ _ _ HQ); reflexivity|intros _].
  apply (sat_bind _ _ HQ); [apply (sat_input _ _ _ HQ); omits|intro answer].
  apply sat_if; [apply (sat_throw _ _ _ HQ); reflexivity|].
  intro w. unfold try_except.
  assert (Hchecks : sat Q (session_checks dev)).
  { unfold session_checks.
    apply (sat_bind _ _ HQ);
      [apply (sat_print _ _ _ HQ); reflexivity|intros _].
    apply (sat_bind _ _ HQ);
      [apply (sat_electrolyte_level _ _ _ HQ); omits|intro level].
    apply sat_if; [apply (sat_throw _ _ _ HQ); reflexivity|].
    apply (sat_bind _ _ HQ);
      [apply (sat_actual_state _ _ _ HQ); omits|intro state].
    apply sat_if; [apply (sat_throw _ _ _ HQ); reflexivity|].
    apply (sat_bind _ _ HQ);
      [apply (sat_print _ _ _ HQ); reflexivity|intros _].
    apply writers_run_maintenance. }
  assert (Hreport : forall e, sat Q (session_report dev e)).
  { intro e. unfold session_report.
    apply (sat_bind _ _ HQ);
      [apply (sat_print _ _ _ HQ); reflexivity|intros _].
    apply (sat_bind _ _ HQ);
      [apply (sat_print _ _ _ HQ); reflexivity|intros _].
    apply (sat_bind _ _ HQ);
      [apply (sat_print _ _ _ HQ); reflexivity|intros _].
    apply (sat_bind _ _ HQ);
      [apply (sat_decode_events _ _ _ HQ); omits|intro errors].
    apply (sat_bind _ _ HQ);
      [apply (sat_decode_events _ _ _ HQ); omits|intro warnings].
    apply (sat_bind _ _ HQ);
      [apply (sat_print _ _ _ HQ); reflexivity|intros _].
    intro w'. exists []. unfold reraise. cbn [fst snd outcome].
    rewrite app_nil_r. split; [reflexivity|].
    apply (Q_app None [] None [] (Some e));
      apply (closed_nil HQ). }
  destruct (Hchecks w) as (evs1 & Ht1 & Hq1).
  destruct (session_checks dev w) as [[a|e] w1]; cbn [fst snd outcome] in *.
  - exists evs1. auto.
  - destruct (is_Exception e); [|exists evs1; auto].
    destruct (Hreport e w1) as (evs2 & Ht2 & Hq2).
    exists (evs1 ++ evs2). rewrite Ht2, Ht1, app_assoc.
    split; [reflexivity|]. exact (Q_app _ _ _ _ _ Hq1 Hq2).
Qed.

End Writers.

(** Every write is followed at once by the sleep of
    [REGISTER_WRITE_TIMEOUT] seconds. *)
Fixpoint paced (evs : list Event) : bool :=
  match evs with
  | [] => true
  | EvWrite _ _ :: rest =>
      match rest with
      | EvSleep seconds :: _ => seconds =? REGISTER_WRITE_TIMEOUT
      | _ => false
      end
      && paced rest
  | _ :: rest => paced rest
  end.

Lemma paced_app evs1 evs2 :
  paced evs1 = true -> paced evs2 = true -> paced (evs1 ++ evs2) = true.
Proof.
  intros H1 H2. induction evs1 as [|ev evs1 IH]; [exact H2|].
  destruct ev; cbn [paced app] in *; try (apply IH; exact H1).
  apply andb_prop in H1. destruct H1 as [Hs H1].
  rewrite (IH H1), andb_true_r.
  destruct evs1 as [|[] evs1]; try discriminate Hs. exact Hs.
Qed.

Lemma paced_closed : closed (fun _ evs => paced evs = true) no_write.
Proof.
  split.
  - reflexivity.
  - intros evs1 o evs2. apply paced_app.
  - intros [] Ha _; try reflexivity. discriminate Ha.
  - reflexivity.
Qed.

(** X16.  In every session each write to a register is followed at once by
    the sleep of two seconds that [_write_single_register] makes: the script
    makes no request, prints nothing and raises nothing between a write
    and the end of that pause. *)
Theorem main_writes_paced dev w :
  paced (events_since w (snd (main dev w))) = true.
Proof.
  assert (Hwrite : forall address value,
             sat (fun _ evs => paced evs = true)
               (_write_single_register dev address value)).
  { intros address value w'.
    exists [EvWrite address value; EvSleep REGISTER_WRITE_TIMEOUT].
    split; [|reflexivity].
    unfold _write_single_register. rewrite bind_run.
    rewrite trace_time_sleep, trace_emit, <- app_assoc. reflexivity. }
  destruct (writers_main dev (fun _ evs => paced evs = true) paced_closed
              (fun _ _ _ _ _ => paced_app _ _) Hwrite w) as (evs & Ht & Hq).
  rewrite (events_since_app _ _ _ Ht). exact Hq.
Qed.

(** ** Writes and the confirmation of the operator *)













(** ** The draining phase *)





(** ** Overshoots on an EL2.1 *)

Lemma settled_perform_draining dev : sat settled (_perform_draining dev).
Proof.
  pose proof settled_closed as HQ. unfold _perform_draining.
  apply (sat_bind _ _ HQ);
    [apply (sat_check_refilling_state _ _ _ HQ); omits|intros _].
  apply (sat_bind _ _ HQ); [apply (sat_print _ _ _ HQ); reflexivity|intros _].
  apply (sat_bind _ _ HQ);
    [apply (sat_wait_confirmation _ _ _ HQ); omits|intros _].
  apply (sat_wait_electrolyte_level_draining _ _ _ HQ). omits.
Qed.

Lemma settled_run_maintenance_21 dev initial_state :
  sat settled (_run_maintenance_21 dev initial_state).
Proof.
  pose proof settled_closed as HQ. unfold _run_maintenance_21.
  apply (sat_bind _ _ HQ); [apply (sat_print _ _ _ HQ); reflexivity|intros _].
  apply (sat_bind _ _ HQ);
    [apply (sat_maintenance_on _ _ _ HQ); omits|intros _].
  apply (sat_bind _ _ HQ);
    [apply (sat_actual_refilling_state _ _ _ HQ); omits|intro state].
  apply (sat_bind _ _ HQ); [|intro draining_required].
  { destruct state; try (apply (sat_throw _ _ _ HQ); reflexivity).
    - apply (sat_ret _ _ HQ).
    - apply (sat_bind _ _ HQ);
        [apply (sat_print _ _ _ HQ); reflexivity|intros _].
      apply (sat_ret _ _ HQ). }
  apply (sat_bind _ _ HQ); [|intros _].
  { apply (sat_when _ _ HQ). apply settled_perform_draining. }
  apply (sat_bind _ _ HQ); [apply settled_perform_refilling|intros _].
  apply (sat_bind _ _ HQ);
    [apply (sat_check_refilling_warnings _ _ _ HQ); omits|intros _].
  apply (sat_bind _ _ HQ);
    [apply (sat_maintenance_off _ _ _ HQ); omits|intros _].
  apply (sat_check_refilling_state _ _ _ HQ). omits.
Qed.

(** X19.  The maintenance sequence of an EL2.1 never ends with
    [HighElectrolyteLevelException]: its only waits that can raise it are
    those of the refilling phase, which handles it; the draining waits
    without raising it. *)
Theorem el21_sequence_handles_overshoot dev initial_state w e :
  fst (_run_maintenance_21 dev initial_state w) = Raise e ->
  is_HighElectrolyteLevelException e = false.
Proof.
  intro He.
  destruct (settled_run_maintenance_21 dev initial_state w) as (evs & _ & Hq).
  rewrite He in Hq. exact Hq.
Qed.

(** An EL2.1 in MAINTENANCE whose four switches are all on. *)
Definition el21_overfilled : Device :=
  scripted_device
    [ (Inputs.STATE, [[1]]);
      (Inputs.REFILLING_STATE, [[5]]);
      (Inputs.LSL102D_IN, [[1]]);
      (Inputs.LSM102C_IN, [[1]]);
      (Inputs.LSH102B_IN, [[1]]);
      (Inputs.LSHH102A_IN, [[1]]) ]
    [].

Lemma el21_sequence_handles_overshoot_witness :
  let run :=
    _run_maintenance_21 el21_overfilled State.IDLE (initial_world ["YES"]) in
  existsb (raised is_HighElectrolyteLevelException) (trace (snd run)) = true
  /\ fst run = Raise EOFError
  /\ is_HighElectrolyteLevelException EOFError = false.
Proof.
  split; [vm_compute; reflexivity|]. split; [vm_compute; reflexivity|].
  apply (el21_sequence_handles_overshoot el21_overfilled State.IDLE
           (initial_world ["YES"])).
  vm_compute. reflexivity.
Defined.

(** ** The name of the device model

    The device holds the name of its model as the bytes of a number, the
    first byte in the highest place; the script formats the number in
    hexadecimal and reads the digits back as bytes. *)

(** The number whose bytes, highest first, are the given ones. *)
Definition number_of_bytes (bytes : list Z) : Z :=
  fold_left (fun number byte => number * 256 + byte) bytes 0.

Definition digit_char (d : Z) : ascii :=
  match d with
  | 0 => "0" | 1 => "1" | 2 => "2" | 3 => "3" | 4 => "4" | 5 => "5"
  | 6 => "6" | 7 => "7" | 8 => "8" | 9 => "9" | 10 => "a" | 11 => "b"
  | 12 => "c" | 13 => "d" | 14 => "e" | _ => "f"
  end%char.

(** The two hexadecimal digits of each byte. *)
Fixpoint hex_of_bytes (bytes : list Z) (rest : string) : string :=
  match bytes with
  | [] => rest
  | byte :: bytes =>
      String (digit_char (byte / 16))
        (String (digit_char (byte mod 16)) (hex_of_bytes bytes rest))
  end.

Lemma nibble_cases d :
  0 <= d < 16 ->
  d = 0 \/ d = 1 \/ d = 2 \/ d = 3 \/ d = 4 \/ d = 5 \/ d = 6 \/ d = 7
  \/ d = 8 \/ d = 9 \/ d = 10 \/ d = 11 \/ d = 12 \/ d = 13 \/ d = 14
  \/ d = 15.
Proof. lia. Qed.

Ltac nibbles H :=
  apply nibble_cases in H;
  repeat match type of H with _ \/ _ => destruct H as [H|H] end; subst.

Lemma of_pos_nibble p d rest :
  0 <= d < 16 ->
  HexString.Raw.of_pos (Z.to_pos (Z.pos p * 16 + d)) rest
  = HexString.Raw.of_pos p (String (digit_char d) rest).
Proof.
  intro Hd. nibbles Hd.
  - replace (Z.pos p * 16 + 0) with (Z.pos p~0~0~0~0) by lia. reflexivity.
  - replace (Z.pos p * 16 + 1) with (Z.pos p~0~0~0~1) by lia. reflexivity.
  - replace (Z.pos p * 16 + 2) with (Z.pos p~0~0~1~0) by lia. reflexivity.
  - replace (Z.pos p * 16 + 3) with (Z.pos p~0~0~1~1) by lia. reflexivity.
  - replace (Z.pos p * 16 + 4) with (Z.pos p~0~1~0~0) by lia. reflexivity.
  - replace (Z.pos p * 16 + 5) with (Z.pos p~0~1~0~1) by lia. reflexivity.
  - replace (Z.pos p * 16 + 6) with (Z.pos p~0~1~1~0) by lia. reflexivity.
  - replace (Z.pos p * 16 + 7) with (Z.pos p~0~1~1~1) by lia. reflexivity.
  - replace (Z.pos p * 16 + 8) with (Z.pos p~1~0~0~0) by lia. reflexivity.
  - replace (Z.pos p * 16 + 9) with (Z.pos p~1~0~0~1) by lia. reflexivity.
  - replace (Z.pos p * 16 + 10) with (Z.pos p~1~0~1~0) by lia. reflexivity.
  - replace (Z.pos p * 16 + 11) with (Z.pos p~1~0~1~1) by lia. reflexivity.
  - replace (Z.pos p * 16 + 12) with (Z.pos p~1~1~0~0) by lia. reflexivity.
  - replace (Z.pos p * 16 + 13) with (Z.pos p~1~1~0~1) by lia. reflexivity.
  - replace (Z.pos p * 16 + 14) with (Z.pos p~1~1~1~0) by lia. reflexivity.
  - replace (Z.pos p * 16 + 15) with (Z.pos p~1~1~1~1) by lia. reflexivity.
Qed.

Lemma of_pos_digit d rest :
  0 < d < 16 ->
  HexString.Raw.of_pos (Z.to_pos d) rest = String (digit_char d) rest.
Proof.
  intro Hd. assert (Hd' : 0 <= d < 16) by lia. nibbles Hd';
    first [lia | reflexivity].
Qed.

(** The digits of a number that is extended by a byte. *)
Lemma of_pos_byte number byte rest :
  0 < number -> 0 <= byte < 256 ->
  HexString.Raw.of_pos (Z.to_pos (number * 256 + byte)) rest
  = HexString.Raw.of_pos (Z.to_pos number) (hex_of_bytes [byte] rest).
Proof.
  intros Hn Hb. destruct number as [|p|p]; try lia.
  assert (Hhi : 0 <= byte / 16 < 16)
    by (split; [apply Z.div_pos; lia|apply Z.div_lt_upper_bound; lia]).
  assert (Hlo : 0 <= byte mod 16 < 16) by (apply Z.mod_pos_bound; lia).
  replace (Z.pos p * 256 + byte)
    with (Z.pos (Z.to_pos (Z.pos p * 16 + byte / 16)) * 16 + byte mod 16)
    by (rewrite Z2Pos.id by lia;
        pose proof (Z.div_mod byte 16 ltac:(lia)); lia).
  rewrite (of_pos_nibble _ _ _ Hlo), (of_pos_nibble _ _ _ Hhi).
  reflexivity.
Qed.

Lemma number_of_bytes_snoc bytes byte :
  number_of_bytes (bytes ++ [byte]) = number_of_bytes bytes * 256 + byte.
Proof. unfold number_of_bytes. rewrite fold_left_app. reflexivity. Qed.

Lemma hex_of_bytes_app bytes1 bytes2 rest :
  hex_of_bytes (bytes1 ++ bytes2) rest
  = hex_of_bytes bytes1 (hex_of_bytes bytes2 rest).
Proof.
  induction bytes1 as [|b bytes1 IH]; [reflexivity|].
  cbn [app hex_of_bytes]. rewrite IH. reflexivity.
Qed.

(** The digits of the number of a name: those of its first byte, one or
    two, then two for every other byte. *)
Lemma of_pos_number first bytes :
  0 < first < 256 ->
  Forall (fun byte => 0 <= byte < 256) bytes ->
  0 < number_of_bytes (first :: bytes)
  /\ forall rest,
       HexString.Raw.of_pos (Z.to_pos (number_of_bytes (first :: bytes))) rest
       = if first <? 16
         then String (digit_char first) (hex_of_bytes bytes rest)
         else hex_of_bytes (first :: bytes) rest.
Proof.
  intros Hf. induction bytes as [|byte bytes IH] using rev_ind; intro Hall.
  - unfold number_of_bytes. cbn [fold_left]. split; [lia|]. intro rest.
    replace (0 * 256 + first) with first by lia.
    destruct (first <? 16) eqn:Hsmall.
    + apply Z.ltb_lt in Hsmall. apply of_pos_digit. lia.
    + apply Z.ltb_ge in Hsmall. cbn [hex_of_bytes].
      assert (Hhi : 0 < first / 16 < 16).
      { split; [apply Z.div_str_pos; lia
               |apply Z.div_lt_upper_bound; lia]. }
      assert (Hlo : 0 <= first mod 16 < 16) by (apply Z.mod_pos_bound; lia).
      replace first
        with (Z.pos (Z.to_pos (first / 16)) * 16 + first mod 16) at 1
        by (rewrite Z2Pos.id by lia;
            pose proof (Z.div_mod first 16 ltac:(lia)); lia).
      rewrite (of_pos_nibble _ _ _ Hlo). apply of_pos_digit. exact Hhi.
  - apply Forall_app in Hall. destruct Hall as [Hall Hbyte].
    apply Forall_inv in Hbyte.
    destruct (IH Hall) as [Hpos Hdigits].
    rewrite app_comm_cons, number_of_bytes_snoc. split; [lia|]. intro rest.
    rewrite (of_pos_byte _ _ _ Hpos Hbyte), Hdigits.
    destruct (first <? 16).
    + rewrite hex_of_bytes_app. reflexivity.
    + rewrite <- app_comm_cons. cbn [hex_of_bytes].
      rewrite hex_of_bytes_app. reflexivity.
Qed.

Lemma hex_digit_char d : 0 <= d < 16 -> hex_digit (digit_char d) = Some d.
Proof. intro Hd. nibbles Hd; reflexivity. Qed.

Lemma fromhex_pair a b rest :
  fromhex (String a (String b rest))
  = match hex_digit a, hex_digit b, fromhex rest with
    | Some x, Some y, Some l => Some (16 * x + y :: l)
    | _, _, _ => None
    end.
Proof. reflexivity. Qed.

(** Reading the digits back gives the bytes. *)
Lemma fromhex_hex_of_bytes bytes :
  Forall (fun byte => 0 <= byte < 256) bytes ->
  fromhex (hex_of_bytes bytes "") = Some bytes.
Proof.
  induction bytes as [|byte bytes IH]; intro Hall; [reflexivity|].
  pose proof (Forall_inv Hall) as Hb. cbv beta in Hb.
  apply Forall_inv_tail in Hall. cbn [hex_of_bytes].
  rewrite fromhex_pair, !hex_digit_char, (IH Hall).
  - rewrite <- (Z.div_mod byte 16) by lia. reflexivity.
  - apply Z.mod_pos_bound. lia.
  - split; [apply Z.div_pos; lia|apply Z.div_lt_upper_bound; lia].
Qed.

(** An odd number of digits is refused. *)
Lemma fromhex_odd c bytes :
  fromhex (String c (hex_of_bytes bytes "")) = None.
Proof.
  revert c. induction bytes as [|byte bytes IH]; intro c; [reflexivity|].
  cbn [hex_of_bytes]. rewrite fromhex_pair, IH.
  destruct (hex_digit c); [|reflexivity].
  destruct (hex_digit (digit_char (byte / 16))); reflexivity.
Qed.

Lemma utf8_valid_ascii bytes :
  Forall (fun byte => byte < 128) bytes -> utf8_valid bytes = true.
Proof.
  induction bytes as [|byte bytes IH]; intro Hall; [reflexivity|].
  pose proof (Forall_inv Hall) as Hb. cbv beta in Hb.
  apply Forall_inv_tail in Hall. cbn [utf8_valid].
  replace (byte <? 128) with true by (symmetry; apply Z.ltb_lt; lia).
  apply IH. exact Hall.
Qed.

(** X20.  Decoding the name of the device model undoes the encoding of the
    device when the first byte of the name is 0x10 or more: the script gets
    back the bytes of the name, and the name itself when they are ASCII;
    bytes that are no UTF-8 end with [UnicodeDecodeError].  When the first
    byte is below 0x10 its leading zero is lost in the hexadecimal format,
    the number of digits is odd, and the decoding ends with
    [ValueError]. *)
Theorem device_name_round_trip dev first bytes :
  0 < first < 256 ->
  Forall (fun byte => 0 <= byte < 256) bytes ->
  decode_device_name dev (number_of_bytes (first :: bytes))
  = (if first <? 16 then throw dev ValueError
     else if utf8_valid (first :: bytes)
          then ret (string_of_bytes (first :: bytes))
          else throw dev UnicodeDecodeError)
  /\ (Forall (fun byte => byte < 128) (first :: bytes) ->
      utf8_valid (first :: bytes) = true).
Proof.
  intros Hf Hall. split; [|apply utf8_valid_ascii].
  destruct (of_pos_number first bytes Hf Hall) as [Hpos Hdigits].
  unfold decode_device_name, format_x.
  destruct (number_of_bytes (first :: bytes)) as [|p|p] eqn:Hn; try lia.
  specialize (Hdigits ""%string). cbn [Z.to_pos] in Hdigits.
  rewrite Hdigits. destruct (first <? 16) eqn:Hsmall.
  - rewrite fromhex_odd. reflexivity.
  - apply Z.ltb_ge in Hsmall. rewrite fromhex_hex_of_bytes; [reflexivity|].
    constructor; [lia|exact Hall].
Qed.

Lemma device_name_round_trip_witness :
  decode_device_name (scripted_device [] [])
    (number_of_bytes [0x45; 0x4C; 0x32; 0x31])
  = ret "EL21"
  /\ DeviceModel.of_value "EL21" = DeviceModel.EL21.
Proof.
  split; [|reflexivity].
  apply (proj1 (device_name_round_trip (scripted_device [] []) 0x45
                  [0x4C; 0x32; 0x31] ltac:(lia)
                  ltac:(repeat constructor; lia))).
Defined.

(** ** Instances *)

Lemma search_top_switch_position_witness :
  let switches := [true; true; false; false] in
  _search_top_switch switches true = 2
  /\ nth_error switches 1 = Some true
  /\ forallb (fun switch => negb (Bool.eqb switch true)) (skipn 2 switches)
     = true.
Proof.
  split; [reflexivity|].
  apply (proj2 (proj2 (search_top_switch_position [true; true; false; false]
                         true))).
  reflexivity.
Defined.

(** A device whose medium switch cannot be read. *)
Definition blind_device : Device :=
  scripted_device
    [ (Inputs.LSL102D_IN, [[1]]);
      (Inputs.LSH102B_IN, [[0]]);
      (Inputs.LSHH102A_IN, [[0]]) ]
    [].

Lemma electrolyte_level_outcomes_witness :
  fst (_electrolyte_level blind_device true (initial_world []))
  = Raise TypeError.
Proof.
  apply (proj1 (electrolyte_level_outcomes blind_device true
                  (initial_world []))).
  exists Inputs.LSM102C_IN. split; [|reflexivity].
  right. left. reflexivity.
Defined.

Lemma wait_electrolyte_level_draining_no_overshoot_witness :
  let run :=
    _wait_electrolyte_level overfilled_device ElectrolyteLevel.HIGH 25 false
      (initial_world []) in
  fst run
  = Raise (MaintenanceModeException
             (FailedWaitLevel ElectrolyteLevel.HIGH (25 / 60)))
  /\ is_HighElectrolyteLevelException
       (MaintenanceModeException
          (FailedWaitLevel ElectrolyteLevel.HIGH (25 / 60)))
     = false.
Proof.
  split; [vm_compute; reflexivity|].
  apply (proj2 (wait_electrolyte_level_draining_no_overshoot overfilled_device
                  ElectrolyteLevel.HIGH 25 (initial_world []))).
  vm_compute. reflexivity.
Defined.
